(** * Calculator agent: a shallow embedding of the agent loop

    This development embeds the core of the calculator agent in Rocq:

    - [calculate]                       (src/tools/calculator.py)
    - [validate_expression], [float_to_str], [create_number_pattern],
      [reduce_expression], [safe_eval]  (src/agents/utility.py)
    - [StepwiseCalculatorAgent]         (src/agents/stepwise_agent.py)
    - [ReducingCalculatorAgent]         (src/agents/reducing_agent.py)
    - [calculate_with_steps]            (app.py)

    Conventions of the embedding.

    - A Python [str] is a Rocq [string]; characters are the code points
      below 256.  On that range the regular-expression class [\d] is
      exactly [0-9]; [\s] and [str.strip] use Python's whitespace set and
      [\b] uses Python's word characters, both written out below.
      Beyond that range [\d] matches the decimal digits of every script:
      the module [Unicode] has [validate_expression] on strings of any
      code points, and [validate_expression_of_string] shows that the
      definition on [string] is its restriction.
    - A Python [int] is a [Z]; a Python [float] is an IEEE-754 binary64
      value, a [spec_float] with precision 53 and maximal exponent 1024,
      computed with the operations of the standard library's [SpecFloat].
    - A raised exception is a value of [exn]: one constructor per raise
      site of the program (its fields are the values formatted into the
      message) and one per built-in exception the program can meet.
      Fallible code returns an [outcome].
    - [print] statements are not modelled.
    - The library functions [json.loads] and [eval] are fields of the class
      [PyRuntime]; the model client is the class [LLMClient].  Reference
      instances used in examples are given at the end of the definitions. *)

From Stdlib Require Import ZArith String Ascii List Lia DecimalString.
From Stdlib Require Import Floats.SpecFloat.
From stdpp Require Import base option strings gmap.

Set Warnings "-register-all".

Open Scope string_scope.
Open Scope Z_scope.

(* ===================================================================== *)
(** * Python values and exceptions *)
(* ===================================================================== *)

(** [Number = Union[int, float]] *)
Inductive Number :=
  | PyInt (z : Z)
  | PyFloat (f : spec_float).

(** The Python objects the program handles: what [json.loads] builds
    ([None], [bool], numbers, [str], [list], [dict]) and what [eval] can
    build from the characters of an expression (numbers, the empty tuple,
    [Ellipsis]). *)
Inductive pyval :=
  | VNone
  | VBool (b : bool)
  | VNum (n : Number)
  | VStr (s : string)
  | VList (items : list pyval)
  | VDict (d : gmap string pyval)
  | VTuple (items : list pyval)
  | VEllipsis.

(** Exceptions.  The comment of each constructor gives the Python class and
    the raise site. *)
Inductive exn :=
  (* ValueError, validate_expression: "Expression exceeds maximum length of {n} characters" *)
  | ExpressionTooLong (max_expression_length : Z)
  (* ValueError, validate_expression: "Invalid characters in the expression: {expression}" *)
  | InvalidCharacters (expression : string)
  (* ZeroDivisionError, calculate: "Division by zero is not allowed. (a = {a}, b = 0)" *)
  | DivisionByZero (a : Number)
  (* ValueError, calculate: 'Unsupported operation: "{op}". ...' *)
  | UnsupportedOperation (op : string)
  (* RuntimeError, _process_tool_calls: "Error: Expected a tool call but received none." *)
  | NoToolCall
  (* ValueError, _process_tool_calls: "Operation must be a string, got ..." *)
  | OperationNotString (op : pyval)
  (* ValueError, _process_tool_calls: "Invalid operation: '{op}'. Must be one of: +, -, *, /" *)
  | InvalidOperation (op : string)
  (* RuntimeError, _process_tool_calls:
     "Invalid tool call arguments format: {arguments}. \n error: {e}" *)
  | MalformedArguments (arguments : string) (e : exn)
  (* RuntimeError, run: "Max LLM calls reached before final result. Max calls: {n}" *)
  | MaxCallsExceeded (max_llm_calls : Z)
  (* built-in exceptions *)
  | KeyError (key : string)
  | JSONDecodeError
  | TypeError
  | AttributeError
  | OverflowError
  | ZeroDivisionError   (* ZeroDivisionError raised by Python's own [/] *)
  | ValueError       (* ValueError raised by [float(str)] *)
  | IndexError
  | SyntaxError
  (* the program left the fragment of Python this embedding covers; the
     field says where *)
  | OutsideModel (what : string).

(** The exception classes the program's [except] clauses tell apart:
    [KeyError], [ValueError] and its subclass [json.JSONDecodeError]; every
    other Python exception; and [OutsideModel], which is no exception. *)
Inductive pyclass :=
  | CValueError | CKeyError | CJSONDecodeError | COtherException | CNotPython.

Definition class_of (e : exn) : pyclass :=
  match e with
  | ExpressionTooLong _ | InvalidCharacters _ | UnsupportedOperation _
  | OperationNotString _ | InvalidOperation _ | ValueError => CValueError
  | KeyError _ => CKeyError
  | JSONDecodeError => CJSONDecodeError
  | OutsideModel _ => CNotPython
  | _ => COtherException
  end.

(** [isinstance(e, cls)] for the classes of an [except] clause. *)
Definition isinstance (e : exn) (cls : pyclass) : bool :=
  match class_of e, cls with
  | CValueError, CValueError | CJSONDecodeError, CValueError
  | CKeyError, CKeyError | CJSONDecodeError, CJSONDecodeError => true
  | _, _ => false
  end.

(** [except Exception] and a bare [except] catch every Python exception. *)
Definition is_python_exception (e : exn) : bool :=
  match class_of e with CNotPython => false | _ => true end.

(** Result of a fallible computation. *)
Inductive outcome (A : Type) : Type :=
  | Ok (a : A)
  | Raise (e : exn).
Arguments Ok {A} a.
Arguments Raise {A} e.

#[global] Instance outcome_ret : MRet outcome := fun A a => Ok a.
#[global] Instance outcome_bind : MBind outcome :=
  fun A B f m => match m with Ok a => f a | Raise e => Raise e end.

(* ===================================================================== *)
(** * Numbers: Python's [int] and [float] arithmetic *)
(* ===================================================================== *)

Definition prec : Z := 53.
Definition emax : Z := 1024.

(** [float(z)] for an [int]: round to nearest even; a value beyond the
    largest float raises [OverflowError]. *)
Definition int_to_float (z : Z) : outcome spec_float :=
  match binary_normalize prec emax z 0 false with
  | S754_infinity _ => Raise OverflowError
  | f => Ok f
  end.

(** The float operand of a mixed operation. *)
Definition to_float (n : Number) : outcome spec_float :=
  match n with
  | PyInt z => int_to_float z
  | PyFloat f => Ok f
  end.

Definition float_is_zero (f : spec_float) : bool :=
  match f with S754_zero _ => true | _ => false end.

(** [b == 0] *)
Definition is_zero (b : Number) : bool :=
  match b with
  | PyInt z => z =? 0
  | PyFloat f => float_is_zero f
  end.

(** [a + b], [a - b], [a * b]: exact on two ints, otherwise in binary64
    after converting an int operand. *)
Definition py_add (a b : Number) : outcome Number :=
  match a, b with
  | PyInt x, PyInt y => Ok (PyInt (x + y))
  | _, _ => x ← to_float a; y ← to_float b; Ok (PyFloat (SFadd prec emax x y))
  end.

Definition py_sub (a b : Number) : outcome Number :=
  match a, b with
  | PyInt x, PyInt y => Ok (PyInt (x - y))
  | _, _ => x ← to_float a; y ← to_float b; Ok (PyFloat (SFsub prec emax x y))
  end.

Definition py_mul (a b : Number) : outcome Number :=
  match a, b with
  | PyInt x, PyInt y => Ok (PyInt (x * y))
  | _, _ => x ← to_float a; y ← to_float b; Ok (PyFloat (SFmul prec emax x y))
  end.

(** [x / y] on two ints: the correctly rounded quotient of the integers
    themselves; a quotient beyond the largest float raises
    [OverflowError]. *)
Definition int_true_divide (x y : Z) : outcome spec_float :=
  if y =? 0 then Raise ZeroDivisionError
  else if x =? 0 then Ok (S754_zero (y <? 0))
  else
    match SFdiv prec emax (S754_finite (x <? 0) (Z.to_pos (Z.abs x)) 0)
                          (S754_finite (y <? 0) (Z.to_pos (Z.abs y)) 0) with
    | S754_infinity _ => Raise OverflowError
    | f => Ok f
    end.

(** [a / b]: always a float.  With a float operand both operands are
    converted first and the divisor is then compared with zero (an int
    converts to a zero float only when it is 0). *)
Definition py_truediv (a b : Number) : outcome Number :=
  match a, b with
  | PyInt x, PyInt y => f ← int_true_divide x y; Ok (PyFloat f)
  | _, _ =>
      x ← to_float a; y ← to_float b;
      if is_zero b then Raise ZeroDivisionError
      else Ok (PyFloat (SFdiv prec emax x y))
  end.

(* ===================================================================== *)
(** * Strings: the [str] methods the program uses *)
(* ===================================================================== *)

(** Python's whitespace below code point 256: [str.isspace], the characters
    [str.strip()] removes and the class [\s]. *)
Definition is_space (c : ascii) : bool :=
  let n := nat_of_ascii c in
  ((9 <=? n) && (n <=? 13) || (28 <=? n) && (n <=? 32)
   || (n =? 133) || (n =? 160))%nat.

(** The class [\d] below code point 256. *)
Definition is_digit (c : ascii) : bool :=
  let n := nat_of_ascii c in ((48 <=? n) && (n <=? 57))%nat.

(** The class [\w] below code point 256: [str.isalnum] or underscore. *)
Definition is_word (c : ascii) : bool :=
  let n := nat_of_ascii c in
  ((48 <=? n) && (n <=? 57) || (65 <=? n) && (n <=? 90)
   || (97 <=? n) && (n <=? 122) || (n =? 95)
   || (n =? 170) || (n =? 178) || (n =? 179) || (n =? 181)
   || (n =? 185) || (n =? 186) || (188 <=? n) && (n <=? 190)
   || (192 <=? n) && (n <=? 214) || (216 <=? n) && (n <=? 246)
   || (248 <=? n))%nat.

Fixpoint lstrip (s : string) : string :=
  match s with
  | String c s' => if is_space c then lstrip s' else s
  | EmptyString => EmptyString
  end.

Fixpoint rstrip (s : string) : string :=
  match s with
  | EmptyString => EmptyString
  | String c s' =>
      match rstrip s' with
      | EmptyString => if is_space c then EmptyString else String c EmptyString
      | r => String c r
      end
  end.

(** [s.strip()] *)
Definition strip (s : string) : string := rstrip (lstrip s).

(** [s.startswith(p)] *)
Fixpoint startswith (p s : string) : bool :=
  match p, s with
  | EmptyString, _ => true
  | String a p', String b s' => Ascii.eqb a b && startswith p' s'
  | String _ _, EmptyString => false
  end.

(** [s.replace(old, new)] for a non-empty [old]: every occurrence, left to
    right, without overlap.  [skip] counts the characters of an occurrence
    still to be dropped. *)
Fixpoint replace_from (old new : string) (skip : nat) (s : string) : string :=
  match s with
  | EmptyString => EmptyString
  | String c s' =>
      match skip with
      | S k => replace_from old new k s'
      | O =>
          if startswith old s
          then new +:+ replace_from old new (String.length old - 1) s'
          else String c (replace_from old new 0 s')
      end
  end.

Definition replace (old new s : string) : string := replace_from old new 0 s.

(** [c in s] for a one-character string [c] *)
Fixpoint contains (c : ascii) (s : string) : bool :=
  match s with
  | EmptyString => false
  | String x s' => Ascii.eqb x c || contains c s'
  end.

(** [s.count(c)] for a one-character string [c] *)
Fixpoint count (c : ascii) (s : string) : Z :=
  match s with
  | EmptyString => 0
  | String x s' => (if Ascii.eqb x c then 1 else 0) + count c s'
  end.

(** [s.split(c)] for a one-character separator [c] *)
Fixpoint split (c : ascii) (s : string) : list string :=
  match s with
  | EmptyString => [EmptyString]
  | String x s' =>
      if Ascii.eqb x c then EmptyString :: split c s'
      else match split c s' with
           | p :: ps => String x p :: ps
           | [] => [String x EmptyString]
           end
  end.

(** [sep.join(parts)] *)
Fixpoint join (sep : string) (parts : list string) : string :=
  match parts with
  | [] => EmptyString
  | [p] => p
  | p :: ps => p +:+ sep +:+ join sep ps
  end.

(* ===================================================================== *)
(** * calculator.py *)
(* ===================================================================== *)

(** [calculate(a, b, op)] *)
Definition calculate (a b : Number) (op : string) : outcome Number :=
  let op := strip op in
  if String.eqb op "+" then py_add a b
  else if String.eqb op "-" then py_sub a b
  else if String.eqb op "*" then py_mul a b
  else if String.eqb op "/" then
    if is_zero b then Raise (DivisionByZero a)
    else py_truediv a b
  else Raise (UnsupportedOperation op).

(* ===================================================================== *)
(** * Numbers and text: [str], [repr], [float(str)] and the format [' g'] *)
(* ===================================================================== *)

(** [str(z)] for an [int] *)
Definition str_of_int (z : Z) : string := NilZero.string_of_int (Z.to_int z).

(** Number of decimal digits of a positive integer. *)
Definition ndigits (n : Z) : Z := Z.of_nat (String.length (str_of_int n)).

(** For positive [num] and [den], the exponent [X] with
    [10^X <= num/den < 10^(X+1)]. *)
Definition decimal_exponent (num den : Z) : Z :=
  let x := ndigits num - ndigits den in
  if 0 <=? x
  then (if den * 10 ^ x <=? num then x else x - 1)
  else (if den <=? num * 10 ^ (- x) then x else x - 1).

(** [num/den * 10^k] as the pair numerator, denominator. *)
Definition scale10 (num den k : Z) : Z * Z :=
  if 0 <=? k then (num * 10 ^ k, den) else (num, den * 10 ^ (- k)).

(** [num/den * 10^k] rounded to the nearest integer, ties to even. *)
Definition scaled_round (num den k : Z) : Z :=
  let '(N, D) := scale10 num den k in
  let q := N / D in
  let r := N mod D in
  if (D <? 2 * r) || ((D =? 2 * r) && Z.odd q) then q + 1 else q.

(** [num/den] correctly rounded to [n] significant decimal digits: the
    digits as an integer in [10^(n-1), 10^n) and the decimal exponent. *)
Definition to_digits (n num den : Z) : Z * Z :=
  let X := decimal_exponent num den in
  let q := scaled_round num den (n - 1 - X) in
  if q =? 10 ^ n then (10 ^ (n - 1), X + 1) else (q, X).

(** The exact value [m * 2^e] of a finite float as a fraction. *)
Definition float_fraction (m : positive) (e : Z) : Z * Z :=
  if 0 <=? e then (Zpos m * 2 ^ e, 1) else (Zpos m, 2 ^ (- e)).

Fixpoint rstrip_zeros (s : string) : string :=
  match s with
  | EmptyString => EmptyString
  | String c s' =>
      match rstrip_zeros s' with
      | EmptyString => if Ascii.eqb c "0" then EmptyString else String c EmptyString
      | r => String c r
      end
  end.

Fixpoint zeros (n : nat) : string :=
  match n with O => EmptyString | S k => String "0" (zeros k) end.

(** [s[:n]] and [s[n:]] *)
Fixpoint str_take (n : nat) (s : string) : string :=
  match n, s with
  | S k, String c s' => String c (str_take k s')
  | _, _ => EmptyString
  end.

Fixpoint str_drop (n : nat) (s : string) : string :=
  match n, s with
  | S k, String _ s' => str_drop k s'
  | _, _ => s
  end.

(** The exponent suffix of a float rendering: [e+06], [e-05], [e+100]. *)
Definition exponent_suffix (X : Z) : string :=
  let d := str_of_int (Z.abs X) in
  "e" +:+ (if X <? 0 then "-" else "+")
      +:+ (if (String.length d <? 2)%nat then "0" +:+ d else d).

(** Mantissa [d.ddd] from a digit string without trailing zeros. *)
Definition mantissa_text (ds : string) : string :=
  match ds with
  | EmptyString => EmptyString
  | String d EmptyString => String d EmptyString
  | String d rest => String d ("." +:+ rest)
  end.

(** Format type [g] with the default precision 6, for a positive finite
    value [num/den]: fixed notation when [-4 <= X < 6], exponent notation
    otherwise, trailing zeros removed. *)
Definition format_g_fraction (num den : Z) : string :=
  let '(q, X) := to_digits 6 num den in
  let ds := str_of_int q in
  if (-4 <=? X) && (X <? 6) then
    if 0 <=? X then
      let ip := str_take (Z.to_nat (X + 1)) ds in
      let fp := rstrip_zeros (str_drop (Z.to_nat (X + 1)) ds) in
      match fp with EmptyString => ip | _ => ip +:+ "." +:+ fp end
    else "0." +:+ zeros (Z.to_nat (- X - 1)) +:+ rstrip_zeros ds
  else mantissa_text (rstrip_zeros ds) +:+ exponent_suffix X.

(** [f'{x: g}'] for a float [x]: a blank stands for the plus sign. *)
Definition format_space_g (x : spec_float) : string :=
  match x with
  | S754_nan => " nan"
  | S754_infinity s => (if s then "-" else " ") +:+ "inf"
  | S754_zero s => (if s then "-" else " ") +:+ "0"
  | S754_finite s m e =>
      let '(num, den) := float_fraction m e in
      (if s then "-" else " ") +:+ format_g_fraction num den
  end.

(** [float_to_str(f)]: [f'{f: g}'.strip()].  Formatting an [int] with [g]
    converts it to a float first. *)
Definition float_to_str (f : Number) : outcome string :=
  x ← to_float f; Ok (strip (format_space_g x)).

(** The float nearest to [m * 10^e10], for [m > 0]. *)
Definition float_of_decimal (neg : bool) (m e10 : Z) : spec_float :=
  if m =? 0 then S754_zero neg
  else if 0 <=? e10
  then binary_normalize prec emax ((if neg then -1 else 1) * (m * 10 ^ e10)) 0 false
  else SFdiv prec emax (S754_finite neg (Z.to_pos m) 0)
                       (S754_finite false (Z.to_pos (10 ^ (- e10))) 0).

(** Does the [n]-digit decimal [c * 10^(-k)] read back as [x]? *)
Definition reads_back (x : spec_float) (c k : Z) : bool :=
  SFeqb (float_of_decimal false c (- k)) x.

(** The shortest decimal that reads back as the positive finite float
    [m * 2^e], and among those of that length the nearest: its digits
    (without trailing zeros) and its decimal exponent.  Seventeen digits
    always suffice. *)
Fixpoint shortest_digits (fuel : nat) (n : Z) (m : positive) (e : Z) : Z * Z :=
  let x := S754_finite false m e in
  let '(num, den) := float_fraction m e in
  let X := decimal_exponent num den in
  let k := n - 1 - X in
  let '(N, D) := scale10 num den k in
  let lo := N / D in
  let r := N mod D in
  let hi := lo + 1 in
  let ok_lo := reads_back x lo k in
  let ok_hi := reads_back x hi k in
  let pick := if ok_lo && ok_hi
              then (if (2 * r <? D) || ((2 * r =? D) && Z.even lo) then Some lo else Some hi)
              else if ok_lo then Some lo
              else if ok_hi then Some hi else None in
  match pick, fuel with
  | Some c, _ => if c =? 10 ^ n then (1, X + 1) else (c, X)
  | None, S fuel' => shortest_digits fuel' (n + 1) m e
  | None, O => to_digits 17 num den
  end.

(** [repr(x)] for a float: fixed notation when the decimal point position
    [X + 1] lies in (-4, 16], exponent notation otherwise. *)
Definition float_repr (x : spec_float) : string :=
  match x with
  | S754_nan => "nan"
  | S754_infinity s => if s then "-inf" else "inf"
  | S754_zero s => if s then "-0.0" else "0.0"
  | S754_finite s m e =>
      let '(c, X) := shortest_digits 16 1 m e in
      let ds := rstrip_zeros (str_of_int c) in
      let nd := Z.of_nat (String.length ds) in
      let decpt := X + 1 in
      (if s then "-" else "") +:+
      (if (-4 <? decpt) && (decpt <=? 16) then
         if decpt <=? 0 then "0." +:+ zeros (Z.to_nat (- decpt)) +:+ ds
         else if nd <=? decpt then ds +:+ zeros (Z.to_nat (decpt - nd)) +:+ ".0"
         else str_take (Z.to_nat decpt) ds +:+ "." +:+ str_drop (Z.to_nat decpt) ds
       else mantissa_text ds +:+ exponent_suffix X)
  end.

(** [str(n)] *)
Definition py_str (n : Number) : string :=
  match n with
  | PyInt z => str_of_int z
  | PyFloat f => float_repr f
  end.

(** ** [float(s)] *)

Definition digit_value (c : ascii) : Z := Z.of_nat (nat_of_ascii c) - 48.

(** Value of a string of digits. *)
Fixpoint digits_value (acc : Z) (s : string) : Z :=
  match s with
  | EmptyString => acc
  | String c s' => digits_value (10 * acc + digit_value c) s'
  end.

(** [digitpart ::= digit (["_"] digit)*]: the digits read (underscores
    dropped) and the rest of the string. *)
Fixpoint scan_digitpart (after_digit : bool) (s : string) : string * string :=
  match s with
  | String c s' =>
      if is_digit c then
        let '(d, r) := scan_digitpart true s' in (String c d, r)
      else if Ascii.eqb c "_" && after_digit then
        match s' with
        | String c' _ =>
            if is_digit c' then scan_digitpart false s' else (EmptyString, s)
        | EmptyString => (EmptyString, s)
        end
      else (EmptyString, s)
  | EmptyString => (EmptyString, s)
  end.

Definition lower (c : ascii) : ascii :=
  let n := nat_of_ascii c in
  if ((65 <=? n) && (n <=? 90))%nat then ascii_of_nat (n + 32) else c.

Fixpoint lowercase (s : string) : string :=
  match s with
  | EmptyString => EmptyString
  | String c s' => String (lower c) (lowercase s')
  end.

(** [sign ::= "+" | "-"], optional. *)
Definition scan_sign (s : string) : bool * string :=
  match s with
  | String "-" s' => (true, s')
  | String "+" s' => (false, s')
  | _ => (false, s)
  end.

(** [exponent ::= ("e" | "E") [sign] digitpart], optional; [None] when an
    exponent marker is not followed by digits. *)
Definition scan_exponent (s : string) : option (Z * string) :=
  match s with
  | String c s' =>
      if Ascii.eqb (lower c) "e" then
        let '(neg, s1) := scan_sign s' in
        match scan_digitpart false s1 with
        | (EmptyString, _) => None
        | (d, r) => Some ((if neg then -1 else 1) * digits_value 0 d, r)
        end
      else Some (0, s)
  | EmptyString => Some (0, s)
  end.

(** [float(s)]: surrounding whitespace is ignored; the text is
    [[sign] (floatnumber | "inf" | "infinity" | "nan")] without regard to
    case, with [number ::= [digitpart] "." digitpart | digitpart ["."]]. *)
Definition py_float (s : string) : outcome spec_float :=
  let '(neg, body) := scan_sign (strip s) in
  let word := lowercase body in
  if String.eqb word "inf" || String.eqb word "infinity" then Ok (S754_infinity neg)
  else if String.eqb word "nan" then Ok S754_nan
  else
    let '(ip, r1) := scan_digitpart false body in
    let '(fp, r2) :=
      match r1 with
      | String "." r => scan_digitpart false r
      | _ => (EmptyString, r1)
      end in
    match ip, fp with
    | EmptyString, EmptyString => Raise ValueError
    | _, _ =>
        match scan_exponent r2 with
        | Some (ex, EmptyString) =>
            Ok (float_of_decimal neg (digits_value 0 (ip +:+ fp))
                                 (ex - Z.of_nat (String.length fp)))
        | _ => Raise ValueError
        end
    end.

(* ===================================================================== *)
(** * Regular expressions: the fragment of [re] the program uses *)
(* ===================================================================== *)

(** A set of characters: a literal, [.] (anything but a newline), [\s],
    [\d]. *)
Inductive cset :=
  | Chr (c : ascii)
  | AnyButNewline
  | Space
  | Digit.

Definition cset_mem (x : ascii) (cs : cset) : bool :=
  match cs with
  | Chr c => Ascii.eqb x c
  | AnyButNewline => negb (Ascii.eqb x "010")
  | Space => is_space x
  | Digit => is_digit x
  end.

(** A character matches an atom when one of the atom's sets holds it. *)
Definition atom_mem (x : ascii) (atom : list cset) : bool :=
  existsb (cset_mem x) atom.

(** Greedy quantifiers: none, [*], [+], [?]. *)
Inductive quant := Once | ZeroOrMore | OneOrMore | ZeroOrOne.

(** A pattern is a sequence of items: a quantified atom, [\b], [^], [$]. *)
Inductive item :=
  | Chars (atom : list cset) (q : quant)
  | WordBoundary
  | LineStart
  | LineEnd.

Definition regex := list item.

(** ** Reading a pattern string *)

Inductive pmode :=
  | PNormal
  | PEscape                              (* after a backslash *)
  | PClass (members : list cset)         (* inside [...] *)
  | PClassEscape (members : list cset).  (* after a backslash inside [...] *)

(** The reader's state: the mode, the items read so far (last one first)
    and whether the last item can take a quantifier. *)
Record pstate := {
  mode : pmode;
  items_rev : list item;
  repeatable : bool
}.

Definition push (it : item) (rep : bool) (st : pstate) : pstate :=
  {| mode := PNormal; items_rev := it :: items_rev st; repeatable := rep |}.

Definition is_ascii_alnum (c : ascii) : bool :=
  let n := nat_of_ascii c in
  ((48 <=? n) && (n <=? 57) || (65 <=? n) && (n <=? 90)
   || (97 <=? n) && (n <=? 122))%nat.

Definition quantify (q : quant) (st : pstate) : option pstate :=
  match repeatable st, items_rev st with
  | true, Chars atom Once :: rest =>
      Some {| mode := PNormal; items_rev := Chars atom q :: rest; repeatable := false |}
  | _, _ => None
  end.

(** One character of the pattern.  [None]: the pattern is outside the
    fragment (groups, alternation, counted or lazy repetition, ranges and
    negation in a class, escapes of letters and digits other than
    [\b \s \d]) or is not a pattern at all. *)
Definition pstep (st : pstate) (c : ascii) : option pstate :=
  match mode st with
  | PNormal =>
      if Ascii.eqb c "\" then
        Some {| mode := PEscape; items_rev := items_rev st; repeatable := repeatable st |}
      else if Ascii.eqb c "[" then
        Some {| mode := PClass []; items_rev := items_rev st; repeatable := repeatable st |}
      else if Ascii.eqb c "." then Some (push (Chars [AnyButNewline] Once) true st)
      else if Ascii.eqb c "^" then Some (push LineStart false st)
      else if Ascii.eqb c "$" then Some (push LineEnd false st)
      else if Ascii.eqb c "*" then quantify ZeroOrMore st
      else if Ascii.eqb c "+" then quantify OneOrMore st
      else if Ascii.eqb c "?" then quantify ZeroOrOne st
      else if Ascii.eqb c "(" || Ascii.eqb c ")" || Ascii.eqb c "|"
              || Ascii.eqb c "{" || Ascii.eqb c "}" then None
      else Some (push (Chars [Chr c] Once) true st)
  | PEscape =>
      if Ascii.eqb c "b" then Some (push WordBoundary false st)
      else if Ascii.eqb c "s" then Some (push (Chars [Space] Once) true st)
      else if Ascii.eqb c "d" then Some (push (Chars [Digit] Once) true st)
      else if is_ascii_alnum c then None
      else Some (push (Chars [Chr c] Once) true st)
  | PClass ms =>
      if Ascii.eqb c "]" then
        match ms with
        | [] => None
        | _ => Some (push (Chars (rev ms) Once) true st)
        end
      else if Ascii.eqb c "\" then
        Some {| mode := PClassEscape ms; items_rev := items_rev st; repeatable := repeatable st |}
      else if Ascii.eqb c "^" || Ascii.eqb c "-" || Ascii.eqb c "[" then None
      else Some {| mode := PClass (Chr c :: ms); items_rev := items_rev st;
                   repeatable := repeatable st |}
  | PClassEscape ms =>
      let add x := Some {| mode := PClass (x :: ms); items_rev := items_rev st;
                           repeatable := repeatable st |} in
      if Ascii.eqb c "s" then add Space
      else if Ascii.eqb c "d" then add Digit
      else if is_ascii_alnum c then None
      else add (Chr c)
  end.

Fixpoint pread (st : pstate) (pattern : string) : option pstate :=
  match pattern with
  | EmptyString => Some st
  | String c rest =>
      match pstep st c with
      | Some st' => pread st' rest
      | None => None
      end
  end.

Definition pstart : pstate :=
  {| mode := PNormal; items_rev := []; repeatable := false |}.

(** [re.compile(pattern)] *)
Definition re_compile (pattern : string) : outcome regex :=
  match pread pstart pattern with
  | Some {| mode := PNormal; items_rev := its |} => Ok (rev its)
  | _ => Raise (OutsideModel "re.compile")
  end.

(** ** Matching: a backtracking matcher, greedy quantifiers *)

Definition word_at (c : option ascii) : bool :=
  match c with Some x => is_word x | None => false end.

Definition first_char (s : string) : option ascii :=
  match s with String c _ => Some c | EmptyString => None end.

(** [\b] holds between [prev] and the text [s] when exactly one side is a
    word character. *)
Definition at_boundary (prev : option ascii) (s : string) : bool :=
  xorb (word_at prev) (word_at (first_char s)).

(** [$] holds at the end of the text and before a final newline. *)
Definition at_line_end (s : string) : bool :=
  match s with
  | EmptyString => true
  | String c EmptyString => Ascii.eqb c "010"
  | _ => false
  end.

(** As many characters of [atom] as possible, then the continuation [k];
    one character is given back at a time while [k] fails. *)
Fixpoint greedy (atom : list cset) (k : option ascii -> string -> option nat)
    (prev : option ascii) (s : string) : option nat :=
  match s with
  | String c s' =>
      if atom_mem c atom then
        match greedy atom k (Some c) s' with
        | Some n => Some (S n)
        | None => k prev s
        end
      else k prev s
  | EmptyString => k prev s
  end.

(** [match_here re prev s]: the length of the match of [re] at the start of
    [s], where [prev] is the character before [s]. *)
Fixpoint match_here (re : regex) (prev : option ascii) (s : string) : option nat :=
  match re with
  | [] => Some O
  | WordBoundary :: r =>
      if at_boundary prev s then match_here r prev s else None
  | LineStart :: r =>
      match prev with None => match_here r prev s | Some _ => None end
  | LineEnd :: r =>
      if at_line_end s then match_here r prev s else None
  | Chars atom Once :: r =>
      match s with
      | String c s' =>
          if atom_mem c atom then S <$> match_here r (Some c) s' else None
      | EmptyString => None
      end
  | Chars atom ZeroOrMore :: r => greedy atom (match_here r) prev s
  | Chars atom OneOrMore :: r =>
      match s with
      | String c s' =>
          if atom_mem c atom then S <$> greedy atom (match_here r) (Some c) s'
          else None
      | EmptyString => None
      end
  | Chars atom ZeroOrOne :: r =>
      match s with
      | String c s' =>
          if atom_mem c atom then
            match match_here r (Some c) s' with
            | Some n => Some (S n)
            | None => match_here r prev s
            end
          else match_here r prev s
      | EmptyString => match_here r prev s
      end
  end.

(** [re.match(re, s)]: a match at the start of [s]. *)
Definition re_match (re : regex) (s : string) : option nat :=
  match_here re None s.

(** The leftmost match in [s]: the text before it, the matched text and the
    text after it. *)
Fixpoint search_from (re : regex) (prev : option ascii) (s : string)
    : option (string * string * string) :=
  match match_here re prev s with
  | Some n => Some (EmptyString, str_take n s, str_drop n s)
  | None =>
      match s with
      | String c s' =>
          match search_from re (Some c) s' with
          | Some (p, m, q) => Some (String c p, m, q)
          | None => None
          end
      | EmptyString => None
      end
  end.

(** [re.search(re, s)] *)
Definition re_search (re : regex) (s : string) : option (string * string * string) :=
  search_from re None s.

(** [re.sub(re, repl, s, count=1)] for a replacement text without
    backslashes. *)
Definition re_sub (re : regex) (repl s : string) : string :=
  match re_search re s with
  | Some (p, _, q) => p +:+ repl +:+ q
  | None => s
  end.

(** [re.escape(s)] *)
Definition is_re_special (c : ascii) : bool :=
  contains c "()[]{}?*+-|^$\.&~# " || ((9 <=? nat_of_ascii c) && (nat_of_ascii c <=? 13))%nat.

Fixpoint re_escape (s : string) : string :=
  match s with
  | EmptyString => EmptyString
  | String c s' =>
      if is_re_special c then String "\" (String c (re_escape s'))
      else String c (re_escape s')
  end.

(* ===================================================================== *)
(** * utility.py *)
(* ===================================================================== *)

(** [validate_expression(expression, max_expression_length)] *)
Definition validate_expression (expression : string) (max_expression_length : Z)
    : outcome bool :=
  if Z.of_nat (String.length expression) >? max_expression_length then
    Raise (ExpressionTooLong max_expression_length)
  else
    let pattern := "^[\d\s\+\-\*\/\(\)\.]+$" in
    re ← re_compile pattern;
    match re_match re expression with
    | None => Raise (InvalidCharacters expression)
    | Some _ => Ok true
    end.

(** [create_number_pattern(num)] *)
Definition create_number_pattern (num : Number) : outcome string :=
  match num with
  | PyInt z => Ok ("\b" +:+ str_of_int z +:+ "\b")
  | PyFloat _ =>
      s ← float_to_str num;
      Ok ("\b" +:+ replace "." "\.?" s +:+ "\b")
  end.

(** The three patterns of [reduce_expression]. *)
Definition parentheses_pattern (a b : Number) (op : string) : outcome string :=
  pa ← create_number_pattern a;
  pb ← create_number_pattern b;
  Ok ("\(" +:+ "\s*" +:+ pa +:+ "\s*" +:+ re_escape op +:+ "\s*" +:+ pb +:+ "\s*" +:+ "\)").

Definition standard_pattern (a b : Number) (op : string) : outcome string :=
  pa ← create_number_pattern a;
  pb ← create_number_pattern b;
  Ok (pa +:+ "\s*" +:+ re_escape op +:+ "\s*" +:+ pb).

Definition op_pattern (a_str b_str op : string) : string :=
  a_str +:+ "\s*\" +:+ op +:+ "\s*" +:+ b_str.

(** [reduce_expression(expression, a, b, op, result)] *)
Definition reduce_expression (expression : string) (a b : Number) (op : string)
    (result : Number) : outcome string :=
  a_str ← float_to_str a;
  b_str ← float_to_str b;
  result_str ← float_to_str result;
  in_parentheses ←
    (if contains "(" expression && contains ")" expression then
       pattern ← parentheses_pattern a b op;
       re ← re_compile pattern;
       match re_search re expression with
       | Some _ => Ok (Some (re_sub re result_str expression))
       | None => Ok None
       end
     else Ok None);
  match in_parentheses with
  | Some new_expression => Ok new_expression
  | None =>
      pattern ← standard_pattern a b op;
      re ← re_compile pattern;
      let new_expression := re_sub re result_str expression in
      if String.eqb new_expression expression then
        re' ← re_compile (op_pattern a_str b_str op);
        Ok (re_sub re' result_str expression)
      else Ok new_expression
  end.

(* ===================================================================== *)
(** * The collaborators of the agents *)
(* ===================================================================== *)

(** A tool call of a model response: [tool_call.id],
    [tool_call.function.name], [tool_call.function.arguments]. *)
Record FunctionCall := {
  name : string;
  arguments : string
}.

Record ToolCall := {
  id : string;
  function : FunctionCall
}.

(** A model response; an absent [tool_calls] is the empty list. *)
Record Response := {
  tool_calls : list ToolCall
}.

(** Modelled from the spec: [ToolCallResult] of
    src/agents/tool_call_result.py, which is not among the sources: for
    one model turn, the ordered [(result, call_id)] pairs, the
    [is_final_step] flag, the rendered steps and (Reducing only) the
    rewritten expression.  The field order is that of the constructor
    calls in the agents. *)
Record ToolCallResult := {
  results : list (Number * string);
  is_final_step : pyval;
  call_steps : list string;
  remaining_expression : string
}.

(** Modelled from the spec: [MessageHistory] of src/llm/chatgpt.py, which
    is not among the sources: an ordered message history of system
    prompts, user prompts, assistant tool-call messages and tool-result
    messages, one constructor per [add_*_message] method the agents
    call. *)
Inductive Message :=
  | SystemMessage (content : string)
  | UserMessage (content : string)
  | GenericMessage (response : Response)
  | ToolResultMessage (result : Number) (tool_call_id : string).

Definition MessageHistory := list Message.

Definition add_system_message (content : string) (h : MessageHistory) : MessageHistory :=
  (h ++ [SystemMessage content])%list.
Definition add_user_message (content : string) (h : MessageHistory) : MessageHistory :=
  (h ++ [UserMessage content])%list.
Definition add_generic_message (response : Response) (h : MessageHistory) : MessageHistory :=
  (h ++ [GenericMessage response])%list.
Definition add_tool_result_message (result : Number) (tool_call_id : string)
    (h : MessageHistory) : MessageHistory :=
  (h ++ [ToolResultMessage result tool_call_id])%list.

(** The model client ([LLMClientBase], src/llm/llm_base.py): a client in
    state [C] answers a prompt and moves to a new state. *)
Class LLMClient (C : Type) := run_prompt : C -> MessageHistory -> Response * C.

(** The two library functions the agents rely on: [json.loads] and the
    built-in [eval]. *)
Class PyRuntime := {
  json_loads : string -> outcome pyval;
  py_eval : string -> outcome pyval
}.

(** What a run gives back: the value returned or the exception raised, the
    client's last state and the prompts sent to the model, in order. *)
Record Run (C : Type) := {
  returned : outcome pyval;
  client : C;
  prompts : list MessageHistory
}.
Arguments returned {C} r.
Arguments client {C} r.
Arguments prompts {C} r.

(** Truth value of a Python object, as tested by [if result.is_final_step]. *)
Definition truthy (v : pyval) : bool :=
  match v with
  | VNone => false
  | VBool b => b
  | VNum n => negb (is_zero n)
  | VStr s => negb (String.eqb s "")
  | VList l | VTuple l => match l with [] => false | _ => true end
  | VDict d => negb (bool_decide (d = ∅))
  | VEllipsis => true
  end.

(* ===================================================================== *)
(** * Reading the arguments of a tool call (both agents) *)
(* ===================================================================== *)

(** The arguments [a], [b], [op], [is_final_step] as the payload holds
    them. *)
Record CallArguments := {
  arg_a : pyval;
  arg_b : pyval;
  arg_op : pyval;
  arg_is_final_step : pyval
}.

(** [func_args[key]] *)
Definition getitem (func_args : gmap string pyval) (key : string) : outcome pyval :=
  match func_args !! key with
  | Some v => Ok v
  | None => Raise (KeyError key)
  end.

(** The four subscripts [func_args['a']] ... [func_args['is_final_step']].
    On an object that is not a [dict] the statements before or at the first
    subscript raise [TypeError]. *)
Definition extract (func_args : pyval) (fix_op_key : bool) : outcome CallArguments :=
  match func_args with
  | VDict d =>
      let d :=
        if fix_op_key then
          (* if 'op:' in func_args and 'op' not in func_args:
                 func_args['op'] = func_args['op:'] *)
          match d !! "op:", d !! "op" with
          | Some v, None => <["op" := v]> d
          | _, _ => d
          end
        else d in
      a ← getitem d "a";
      b ← getitem d "b";
      op ← getitem d "op";
      is_final_step ← getitem d "is_final_step";
      Ok {| arg_a := a; arg_b := b; arg_op := op; arg_is_final_step := is_final_step |}
  | _ => Raise TypeError
  end.

(** The body of the [try]: parse, mend the key ['op:'], extract, validate
    [op]. *)
Definition first_pass `{PyRuntime} (arguments : string) : outcome CallArguments :=
  func_args ← json_loads arguments;
  args ← extract func_args true;
  match arg_op args with
  | VStr op =>
      if String.eqb op "+" || String.eqb op "-" || String.eqb op "*" || String.eqb op "/"
      then Ok args
      else Raise (InvalidOperation op)
  | op => Raise (OperationNotString op)
  end.

(** The body of the inner [try]: replace ["op:"] by ["op"] in the raw text,
    parse again, extract. *)
Definition repair_pass `{PyRuntime} (arguments : string) : outcome CallArguments :=
  let fixed_args := replace "op:" "op" arguments in
  func_args ← json_loads fixed_args;
  extract func_args false.

(** The whole [try ... except (KeyError, ValueError, json.JSONDecodeError)
    ... try ... except Exception] statement. *)
Definition parse_arguments `{PyRuntime} (arguments : string) : outcome CallArguments :=
  match first_pass arguments with
  | Ok args => Ok args
  | Raise e =>
      if isinstance e CKeyError || isinstance e CValueError || isinstance e CJSONDecodeError
      then
        match repair_pass arguments with
        | Ok args => Ok args
        | Raise fix_error =>
            if is_python_exception fix_error
            then Raise (MalformedArguments arguments e)
            else Raise fix_error
        end
      else Raise e
  end.

(** The call [calculate(a, b, op)] on the extracted objects: [op.strip()]
    raises [AttributeError] on an [op] that is not a string.  Operands that
    are not numbers are outside this embedding. *)
Definition typed_arguments (args : CallArguments) : outcome (Number * Number * string) :=
  match arg_op args with
  | VStr op =>
      match arg_a args, arg_b args with
      | VNum a, VNum b => Ok (a, b, op)
      | _, _ => Raise (OutsideModel "calculate: an operand is not a number")
      end
  | _ => Raise AttributeError
  end.

(** [f"{a} {op} {b} = {result}"] *)
Definition render_step (a : Number) (op : string) (b result : Number) : string :=
  py_str a +:+ " " +:+ op +:+ " " +:+ py_str b +:+ " = " +:+ py_str result.

Definition newline : string := String "010" EmptyString.

(* ===================================================================== *)
(** * stepwise_agent.py *)
(* ===================================================================== *)

Module StepwiseCalculatorAgent.

(** The fields [__init__] reads from the configuration. *)
Record config := {
  max_expression_length : Z;
  system_prompt : string;
  subsequent_prompt : string;
  initial_prompt : string;
  max_llm_calls : Z;
  return_tool_call_msgs : bool;
  append_messages : bool
}.

Section Agent.
Context `{PyRuntime} {C : Type} `{LLMClient C}.

(** The [for tool_call in tool_calls] loop of [_process_tool_calls]
    with its three accumulators. *)
Fixpoint tool_calls_loop (tool_calls : list ToolCall)
    (results : list (Number * string)) (is_final_step : pyval)
    (call_steps : list string) : outcome ToolCallResult :=
  match tool_calls with
  | [] =>
      Ok {| results := results; is_final_step := is_final_step;
            call_steps := call_steps; remaining_expression := "" |}
  | tool_call :: rest =>
      let function_call := function tool_call in
      args ← parse_arguments (arguments function_call);
      let is_final_step := arg_is_final_step args in
      '(a, b, op) ← typed_arguments args;
      result ← calculate a b op;
      let step := render_step a op b result in
      tool_calls_loop rest (results ++ [(result, id tool_call)])%list
                      is_final_step (call_steps ++ [step])%list
  end.

(** [_process_tool_calls(tool_calls)] *)
Definition _process_tool_calls (tool_calls : list ToolCall) : outcome ToolCallResult :=
  match tool_calls with
  | [] => Raise NoToolCall
  | _ => tool_calls_loop tool_calls [] (VBool false) []
  end.

(** [_prepare_next_prompt(prompt_msg, expression, steps, results, response)] *)
Definition _prepare_next_prompt (self : config) (prompt_msg : MessageHistory)
    (expression : string) (steps : list string)
    (results : list (Number * string)) (response : Response) : MessageHistory :=
  let steps_so_far := join newline steps in
  let next_prompt := replace "{EXPRESSION}" expression (subsequent_prompt self) in
  let next_prompt := replace "{STEPS_SO_FAR}" steps_so_far next_prompt in
  if append_messages self then
    let prompt_msg :=
      if return_tool_call_msgs self then
        fold_left (fun h '(result, tool_call_id) =>
                     add_tool_result_message result tool_call_id h)
                  results (add_generic_message response prompt_msg)
      else prompt_msg in
    add_user_message next_prompt prompt_msg
  else
    add_user_message next_prompt (add_system_message (system_prompt self) []).

(** The [while True] loop of [run]: [i] counts the model calls, [sent]
    records the prompts.  Each turn either returns or increases [i]
    while [i < max_llm_calls]; [fuel] bounds the number of turns and
    [None] means it ran out. *)
Fixpoint run_loop (fuel : nat) (self : config) (llm_client : C)
    (expression : string) (prompt_msg : MessageHistory) (steps : list string)
    (i : Z) (sent : list MessageHistory) : option (Run C) :=
  match fuel with
  | O => None
  | S fuel' =>
      let '(response, llm_client) := run_prompt llm_client prompt_msg in
      let sent := (sent ++ [prompt_msg])%list in
      match _process_tool_calls (tool_calls response) with
      | Raise e => Some {| returned := Raise e; client := llm_client; prompts := sent |}
      | Ok result =>
          if truthy (is_final_step result) then
            (* final_result = result.results[-1][0]; break *)
            let final_result :=
              match last (results result) with
              | Some (r, _) => Ok (VNum r)
              | None => Raise IndexError
              end in
            Some {| returned := final_result; client := llm_client; prompts := sent |}
          else
            let steps := (steps ++ call_steps result)%list in
            let prompt_msg :=
              _prepare_next_prompt self prompt_msg expression steps
                                   (results result) response in
            if i >=? max_llm_calls self then
              Some {| returned := Raise (MaxCallsExceeded (max_llm_calls self));
                      client := llm_client; prompts := sent |}
            else run_loop fuel' self llm_client expression prompt_msg steps (i + 1) sent
      end
  end.

(** [run(expression)] *)
Definition run (self : config) (llm_client : C) (expression : string)
    : option (Run C) :=
  match validate_expression expression (max_expression_length self) with
  | Raise e => Some {| returned := Raise e; client := llm_client; prompts := [] |}
  | Ok _ =>
      let initial_prompt := replace "{EXPRESSION}" expression (initial_prompt self) in
      let prompt_msg :=
        add_user_message initial_prompt (add_system_message (system_prompt self) []) in
      run_loop (S (Z.to_nat (max_llm_calls self))) self llm_client expression
               prompt_msg [] 1 []
  end.
End Agent.

End StepwiseCalculatorAgent.

(* ===================================================================== *)
(** * reducing_agent.py *)
(* ===================================================================== *)

Module ReducingCalculatorAgent.

Record config := {
  max_expression_length : Z;
  system_prompt : string;
  prompt : string;
  max_llm_calls : Z
}.

(** The body of the [try] in the loop-detection branch of [run], for one
    operator [op]: [Some final_result] when the [return] is reached,
    [None] when [len(parts) != 2] or an exception is passed over.
    [final_result] is still [None] when the branch is entered. *)
Definition try_operator (op : ascii) (expression : string) : option pyval :=
  match split op expression with
  | [part0; part1] =>
      match py_float (strip part0), py_float (strip part1) with
      | Ok a, Ok b =>
          let final_result :=
            if Ascii.eqb op "+" then VNum (PyFloat (SFadd prec emax a b))
            else if Ascii.eqb op "-" then VNum (PyFloat (SFsub prec emax a b))
            else if Ascii.eqb op "*" then VNum (PyFloat (SFmul prec emax a b))
            else if Ascii.eqb op "/" && negb (float_is_zero b)
                 then VNum (PyFloat (SFdiv prec emax a b))
            else VNone in
          Some final_result
      | _, _ => None
      end
  | _ => None
  end.

(** [for op in ['+', '-', '*', '/']: if op in expression: try ...] *)
Fixpoint try_operators (ops : list ascii) (expression : string) : option pyval :=
  match ops with
  | [] => None
  | op :: rest =>
      if contains op expression then
        match try_operator op expression with
        | Some final_result => Some final_result
        | None => try_operators rest expression
        end
      else try_operators rest expression
  end.

(** The single-operator fallback of the loop-detection branch:
    [Some final_result] when [run] returns from it. *)
Definition single_operator_fallback (expression : string) : option pyval :=
  if count "+" expression + count "-" expression
     + count "*" expression + count "/" expression =? 1
  then try_operators ["+"; "-"; "*"; "/"]%char expression
  else None.

Section Agent.
Context `{PyRuntime} {C : Type} `{LLMClient C}.

(** The [for tool_call in tool_calls] loop of [_process_tool_calls];
    the dead list [function_call_result_message] is left out. *)
Fixpoint tool_calls_loop (tool_calls : list ToolCall) (expression : string)
    (results : list (Number * string)) (is_final_step : pyval)
    (call_steps : list string) : outcome ToolCallResult :=
  match tool_calls with
  | [] =>
      Ok {| results := results; is_final_step := is_final_step;
            call_steps := call_steps; remaining_expression := expression |}
  | tool_call :: rest =>
      let function_call := function tool_call in
      args ← parse_arguments (arguments function_call);
      let is_final_step := arg_is_final_step args in
      '(a, b, op) ← typed_arguments args;
      result ← calculate a b op;
      expression ← reduce_expression expression a b op result;
      let step := render_step a op b result in
      tool_calls_loop rest expression (results ++ [(result, id tool_call)])%list
                      is_final_step (call_steps ++ [step])%list
  end.

(** [_process_tool_calls(tool_calls, expression)] *)
Definition _process_tool_calls (tool_calls : list ToolCall) (expression : string)
    : outcome ToolCallResult :=
  match tool_calls with
  | [] => Raise NoToolCall
  | _ => tool_calls_loop tool_calls expression [] (VBool false) []
  end.

(** [_prepare_next_prompt(expression)] *)
Definition _prepare_next_prompt (self : config) (expression : string) : MessageHistory :=
  let prompt := replace "{EXPRESSION}" expression (prompt self) in
  add_user_message prompt (add_system_message (system_prompt self) []).

(** The [while True] loop of [run]; [fuel] and [sent] as in the
    Stepwise agent. *)
Fixpoint run_loop (fuel : nat) (self : config) (llm_client : C)
    (expression : string) (steps : list string) (i : Z)
    (previous_expressions : gset string) (sent : list MessageHistory)
    : option (Run C) :=
  match fuel with
  | O => None
  | S fuel' =>
      let prompt_msg := _prepare_next_prompt self expression in
      let '(response, llm_client) := run_prompt llm_client prompt_msg in
      let sent := (sent ++ [prompt_msg])%list in
      match _process_tool_calls (tool_calls response) expression with
      | Raise e => Some {| returned := Raise e; client := llm_client; prompts := sent |}
      | Ok result =>
          let expression := remaining_expression result in
          let returning (r : outcome pyval) :=
            Some {| returned := r; client := llm_client; prompts := sent |} in
          (* if expression in previous_expressions: ... return final_result *)
          match (if bool_decide (expression ∈ previous_expressions)
                 then single_operator_fallback expression else None) with
          | Some final_result => returning (Ok final_result)
          | None =>
              let previous_expressions := previous_expressions ∪ {[ expression ]} in
              if truthy (is_final_step result) then
                (* final_result = result.results[-1][0]; break *)
                returning match last (results result) with
                          | Some (r, _) => Ok (VNum r)
                          | None => Raise IndexError
                          end
              else
                let steps := (steps ++ call_steps result)%list in
                if i >=? max_llm_calls self then
                  (* try: return eval(expression)
                     except: raise RuntimeError(...) *)
                  returning match py_eval expression with
                            | Ok final_result => Ok final_result
                            | Raise e =>
                                if is_python_exception e
                                then Raise (MaxCallsExceeded (max_llm_calls self))
                                else Raise e
                            end
                else run_loop fuel' self llm_client expression steps (i + 1)
                              previous_expressions sent
          end
      end
  end.

(** [run(expression)] *)
Definition run (self : config) (llm_client : C) (expression : string)
    : option (Run C) :=
  match validate_expression expression (max_expression_length self) with
  | Raise e => Some {| returned := Raise e; client := llm_client; prompts := [] |}
  | Ok _ =>
      run_loop (S (Z.to_nat (max_llm_calls self))) self llm_client expression
               [] 1 {[ expression ]} []
  end.
End Agent.

End ReducingCalculatorAgent.

(* ===================================================================== *)
(** * Reference instances *)
(* ===================================================================== *)

(** A scripted model client: it answers with the next response of its
    script whatever the prompt; once the script is exhausted it answers
    without tool calls. *)
#[global] Instance scripted_client : LLMClient (list Response) :=
  fun script _ =>
    match script with
    | response :: rest => (response, rest)
    | [] => ({| tool_calls := [] |}, [])
    end.

(** The double quote, and a way to write JSON texts with single quotes in
    their place. *)
Definition dquote : ascii := ascii_of_nat 34.

Fixpoint json_text (s : string) : string :=
  match s with
  | EmptyString => EmptyString
  | String c s' => String (if Ascii.eqb c "'" then dquote else c) (json_text s')
  end.

(** ** A JSON decoder

    [Json.loads] follows [json.loads] on texts whose strings hold no
    [\u] escape; it reports such an escape as [OutsideModel]. *)
Module Json.

Definition is_ws (c : ascii) : bool :=
  Ascii.eqb c " " || Ascii.eqb c "009" || Ascii.eqb c "010" || Ascii.eqb c "013".

Fixpoint skip_ws (s : string) : string :=
  match s with
  | String c s' => if is_ws c then skip_ws s' else s
  | EmptyString => EmptyString
  end.

Definition unescape (c : ascii) : option ascii :=
  if Ascii.eqb c dquote then Some dquote
  else if Ascii.eqb c "\" then Some "\"%char
  else if Ascii.eqb c "/" then Some "/"%char
  else if Ascii.eqb c "b" then Some "008"%char
  else if Ascii.eqb c "f" then Some "012"%char
  else if Ascii.eqb c "n" then Some "010"%char
  else if Ascii.eqb c "r" then Some "013"%char
  else if Ascii.eqb c "t" then Some "009"%char
  else None.

(** The text of a string after its opening quote: the string and what
    follows the closing quote. *)
Fixpoint scan_string (s : string) : outcome (string * string) :=
  match s with
  | EmptyString => Raise JSONDecodeError
  | String c s' =>
      if Ascii.eqb c dquote then Ok (EmptyString, s')
      else if Ascii.eqb c "\" then
        match s' with
        | String e s'' =>
            match unescape e with
            | Some x => '(r, rest) ← scan_string s''; Ok (String x r, rest)
            | None =>
                if Ascii.eqb e "u" then Raise (OutsideModel "json: \u escape")
                else Raise JSONDecodeError
            end
        | EmptyString => Raise JSONDecodeError
        end
      else if (nat_of_ascii c <? 32)%nat then Raise JSONDecodeError
      else '(r, rest) ← scan_string s'; Ok (String c r, rest)
  end.

(** The longest prefix of digits. *)
Fixpoint span_digits (s : string) : string * string :=
  match s with
  | String c s' =>
      if is_digit c then let '(d, r) := span_digits s' in (String c d, r)
      else (EmptyString, s)
  | EmptyString => (EmptyString, s)
  end.

(** The number at the start of [s]: an optional minus sign, an integer
    part without leading zeros, an optional fraction (a point and
    digits) and an optional exponent ([e] or [E], a sign, digits); an
    [int] when there is neither fraction nor exponent, else a float. *)
Definition scan_number (s : string) : option (Number * string) :=
  let '(neg, s0) := match s with String "-" r => (true, r) | _ => (false, s) end in
  let '(ip, r1) :=
    match s0 with
    | String "0" r => ("0", r)
    | _ => span_digits s0
    end in
  match ip with
  | EmptyString => None
  | _ =>
      let '(fp, r2) :=
        match r1 with
        | String "." r =>
            match span_digits r with
            | (EmptyString, _) => (EmptyString, r1)
            | (d, r') => (d, r')
            end
        | _ => (EmptyString, r1)
        end in
      let '(ex, r3) :=
        match r2 with
        | String c r =>
            if Ascii.eqb c "e" || Ascii.eqb c "E" then
              let '(eneg, re) :=
                match r with
                | String "-" r' => (true, r')
                | String "+" r' => (false, r')
                | _ => (false, r)
                end in
              match span_digits re with
              | (EmptyString, _) => (None, r2)
              | (d, r') => (Some ((if eneg then -1 else 1) * digits_value 0 d), r')
              end
            else (None, r2)
        | EmptyString => (None, r2)
        end in
      match fp, ex with
      | EmptyString, None =>
          Some (PyInt ((if neg then -1 else 1) * digits_value 0 ip), r3)
      | _, _ =>
          Some (PyFloat (float_of_decimal neg (digits_value 0 (ip +:+ fp))
                           (default 0 ex - Z.of_nat (String.length fp))), r3)
      end
  end.

(** [s] without the prefix [p], when it starts with it. *)
Definition after (p s : string) : option string :=
  if startswith p s then Some (str_drop (String.length p) s) else None.

Fixpoint value (fuel : nat) (s : string) : outcome (pyval * string) :=
  match fuel with
  | O => Raise (OutsideModel "json: nesting")
  | S fuel' =>
      match s with
      | String "{" r =>
          match skip_ws r with
          | String "}" r' => Ok (VDict ∅, r')
          | r' => members fuel' r' ∅
          end
      | String "[" r =>
          match skip_ws r with
          | String "]" r' => Ok (VList [], r')
          | r' => elements fuel' r' []
          end
      | String c r =>
          if Ascii.eqb c dquote then
            '(str, rest) ← scan_string r; Ok (VStr str, rest)
          else
            match after "null" s, after "true" s, after "false" s with
            | Some rest, _, _ => Ok (VNone, rest)
            | _, Some rest, _ => Ok (VBool true, rest)
            | _, _, Some rest => Ok (VBool false, rest)
            | _, _, _ =>
                match after "NaN" s, after "Infinity" s, after "-Infinity" s with
                | Some rest, _, _ => Ok (VNum (PyFloat S754_nan), rest)
                | _, Some rest, _ => Ok (VNum (PyFloat (S754_infinity false)), rest)
                | _, _, Some rest => Ok (VNum (PyFloat (S754_infinity true)), rest)
                | _, _, _ =>
                    match scan_number s with
                    | Some (n, rest) => Ok (VNum n, rest)
                    | None => Raise JSONDecodeError
                    end
                end
            end
      | EmptyString => Raise JSONDecodeError
      end
  end
(** The members of an object from its first key on; a later member
    replaces an earlier one with the same key. *)
with members (fuel : nat) (s : string) (d : gmap string pyval)
    : outcome (pyval * string) :=
  match fuel with
  | O => Raise (OutsideModel "json: nesting")
  | S fuel' =>
      match s with
      | String c r =>
          if Ascii.eqb c dquote then
            '(key, r1) ← scan_string r;
            match skip_ws r1 with
            | String ":" r2 =>
                '(v, r3) ← value fuel' (skip_ws r2);
                let d := <[key := v]> d in
                match skip_ws r3 with
                | String "}" r4 => Ok (VDict d, r4)
                | String "," r4 => members fuel' (skip_ws r4) d
                | _ => Raise JSONDecodeError
                end
            | _ => Raise JSONDecodeError
            end
          else Raise JSONDecodeError
      | EmptyString => Raise JSONDecodeError
      end
  end
(** The elements of an array from its first element on. *)
with elements (fuel : nat) (s : string) (acc : list pyval)
    : outcome (pyval * string) :=
  match fuel with
  | O => Raise (OutsideModel "json: nesting")
  | S fuel' =>
      '(v, r1) ← value fuel' s;
      let acc := (acc ++ [v])%list in
      match skip_ws r1 with
      | String "]" r2 => Ok (VList acc, r2)
      | String "," r2 => elements fuel' (skip_ws r2) acc
      | _ => Raise JSONDecodeError
      end
  end.

(** [json.loads(s)] *)
Definition loads (s : string) : outcome pyval :=
  '(v, rest) ← value (S (String.length s)) (skip_ws s);
  match skip_ws rest with
  | EmptyString => Ok v
  | _ => Raise JSONDecodeError
  end.

End Json.

(** ** An evaluator for arithmetic expressions

    [PyEval.eval] follows the built-in [eval] on the expressions made of
    decimal number literals, the operators [+ - * /], parentheses, blanks
    and tabs.  Anything else (other characters, the operators written with
    two stars or two slashes, an empty pair of parentheses, a point that
    belongs to no number) is reported as [OutsideModel]. *)
Module PyEval.

Inductive token :=
  | TNum (n : Number)
  | TOp (op : ascii)       (* one of + - * / *)
  | TOpen
  | TClose.

Inductive expr :=
  | ENum (n : Number)
  | EUnary (op : ascii) (e : expr)
  | EBinary (op : ascii) (l r : expr).

(** A number literal at the start of [s]: [digits], [digits.],
    [digits.digits], [.digits], each with an optional exponent.  An
    integer literal with a leading zero is a syntax error unless it is
    all zeros. *)
Definition scan_literal (s : string) : outcome (Number * string) :=
  let '(ip, r1) := Json.span_digits s in
  let '(point, fp, r2) :=
    match r1 with
    | String "." r => let '(d, r') := Json.span_digits r in (true, d, r')
    | _ => (false, EmptyString, r1)
    end in
  match ip, fp with
  | EmptyString, EmptyString => Raise (OutsideModel "eval: point without digits")
  | _, _ =>
      let '(ex, r3) :=
        match r2 with
        | String c r =>
            if Ascii.eqb c "e" || Ascii.eqb c "E" then
              let '(eneg, re) := scan_sign r in
              match Json.span_digits re with
              | (EmptyString, _) => (None, r2)
              | (d, r') => (Some ((if eneg then -1 else 1) * digits_value 0 d), r')
              end
            else (None, r2)
        | EmptyString => (None, r2)
        end in
      match r3 with
      | String c _ =>
          if is_ascii_alnum c || Ascii.eqb c "_"
          then Raise (OutsideModel "eval: literal suffix")
          else Ok tt
      | EmptyString => Ok tt
      end;;
      match point, ex with
      | false, None =>
          if startswith "0" ip && negb (String.eqb (rstrip_zeros ip) "")
          then Raise SyntaxError
          else Ok (PyInt (digits_value 0 ip), r3)
      | _, _ =>
          Ok (PyFloat (float_of_decimal false (digits_value 0 (ip +:+ fp))
                         (default 0 ex - Z.of_nat (String.length fp))), r3)
      end
  end.

Fixpoint tokens (fuel : nat) (s : string) : outcome (list token) :=
  match fuel with
  | O => Ok []
  | S fuel' =>
      match s with
      | EmptyString => Ok []
      | String c r =>
          if Ascii.eqb c " " || Ascii.eqb c "009" then tokens fuel' r
          else if Ascii.eqb c "(" then ts ← tokens fuel' r; Ok (TOpen :: ts)
          else if Ascii.eqb c ")" then ts ← tokens fuel' r; Ok (TClose :: ts)
          else if Ascii.eqb c "+" || Ascii.eqb c "-" then
            ts ← tokens fuel' r; Ok (TOp c :: ts)
          else if Ascii.eqb c "*" || Ascii.eqb c "/" then
            match r with
            | String c' _ =>
                if Ascii.eqb c' c then Raise (OutsideModel "eval: operator")
                else ts ← tokens fuel' r; Ok (TOp c :: ts)
            | EmptyString => Ok [TOp c]
            end
          else if is_digit c || Ascii.eqb c "." then
            '(n, rest) ← scan_literal s;
            ts ← tokens fuel' rest; Ok (TNum n :: ts)
          else Raise (OutsideModel "eval: character")
      end
  end.

(** Python's grammar for the fragment:
    [sum ::= term (("+" | "-") term)*],
    [term ::= factor (("*" | "/") factor)*],
    [factor ::= ("+" | "-") factor | atom],
    [atom ::= NUMBER | "(" sum ")"]. *)
Fixpoint parse_sum (fuel : nat) (ts : list token) : outcome (expr * list token) :=
  match fuel with
  | O => Raise (OutsideModel "eval: nesting")
  | S fuel' =>
      '(l, ts) ← parse_term fuel' ts;
      sum_rest fuel' l ts
  end
with sum_rest (fuel : nat) (l : expr) (ts : list token) : outcome (expr * list token) :=
  match fuel with
  | O => Raise (OutsideModel "eval: nesting")
  | S fuel' =>
      match ts with
      | TOp op :: ts' =>
          if Ascii.eqb op "+" || Ascii.eqb op "-" then
            '(r, ts'') ← parse_term fuel' ts';
            sum_rest fuel' (EBinary op l r) ts''
          else Ok (l, ts)
      | _ => Ok (l, ts)
      end
  end
with parse_term (fuel : nat) (ts : list token) : outcome (expr * list token) :=
  match fuel with
  | O => Raise (OutsideModel "eval: nesting")
  | S fuel' =>
      '(l, ts) ← parse_factor fuel' ts;
      term_rest fuel' l ts
  end
with term_rest (fuel : nat) (l : expr) (ts : list token) : outcome (expr * list token) :=
  match fuel with
  | O => Raise (OutsideModel "eval: nesting")
  | S fuel' =>
      match ts with
      | TOp op :: ts' =>
          if Ascii.eqb op "*" || Ascii.eqb op "/" then
            '(r, ts'') ← parse_factor fuel' ts';
            term_rest fuel' (EBinary op l r) ts''
          else Ok (l, ts)
      | _ => Ok (l, ts)
      end
  end
with parse_factor (fuel : nat) (ts : list token) : outcome (expr * list token) :=
  match fuel with
  | O => Raise (OutsideModel "eval: nesting")
  | S fuel' =>
      match ts with
      | TOp op :: ts' =>
          if Ascii.eqb op "+" || Ascii.eqb op "-" then
            '(e, ts'') ← parse_factor fuel' ts'; Ok (EUnary op e, ts'')
          else Raise SyntaxError
      | TNum n :: ts' => Ok (ENum n, ts')
      | TOpen :: TClose :: _ => Raise (OutsideModel "eval: empty tuple")
      | TOpen :: ts' =>
          '(e, ts'') ← parse_sum fuel' ts';
          match ts'' with
          | TClose :: ts''' => Ok (e, ts''')
          | _ => Raise SyntaxError
          end
      | TClose :: _ | [] => Raise SyntaxError
      end
  end.

Definition negate (n : Number) : Number :=
  match n with
  | PyInt z => PyInt (- z)
  | PyFloat f => PyFloat (SFopp f)
  end.

Fixpoint evaluate (e : expr) : outcome Number :=
  match e with
  | ENum n => Ok n
  | EUnary op e => v ← evaluate e; Ok (if Ascii.eqb op "-" then negate v else v)
  | EBinary op l r =>
      x ← evaluate l;
      y ← evaluate r;
      if Ascii.eqb op "+" then py_add x y
      else if Ascii.eqb op "-" then py_sub x y
      else if Ascii.eqb op "*" then py_mul x y
      else py_truediv x y
  end.

(** [eval(s)] *)
Definition eval (s : string) : outcome pyval :=
  ts ← tokens (S (String.length s)) s;
  '(e, rest) ← parse_sum (4 * S (length ts)) ts;
  match rest with
  | [] => v ← evaluate e; Ok (VNum v)
  | _ => Raise SyntaxError
  end.

End PyEval.

(** The reference runtime. *)
#[global] Instance reference_runtime : PyRuntime := {|
  json_loads := Json.loads;
  py_eval := PyEval.eval
|}.

(** A tool call with the four arguments of the tool schema, as the model
    sends it. *)
Definition tool_call (call_id : string) (payload : string) : ToolCall :=
  {| id := call_id; function := {| name := "calculate"; arguments := json_text payload |} |}.

(* ===================================================================== *)
(** * Definitions used to state the properties *)
(* ===================================================================== *)

(** Exceptions of the class [ZeroDivisionError]. *)
Definition is_zero_division (e : exn) : bool :=
  match e with DivisionByZero _ | ZeroDivisionError => true | _ => false end.

(** The character class of the expression grammar as the specification
    writes it: a digit, whitespace, or one of [+ - * / ( ) .]. *)
Definition allowed_char (c : ascii) : bool :=
  is_digit c || is_space c || contains c "+-*/().".

(** Every character of [s] satisfies [p]. *)
Fixpoint all_chars (p : ascii -> bool) (s : string) : bool :=
  match s with
  | EmptyString => true
  | String c s' => p c && all_chars p s'
  end.

(** The character class of the validation pattern, compiled. *)
Definition grammar_class : list cset :=
  [Digit; Space; Chr "+"; Chr "-"; Chr "*"; Chr "/"; Chr "("; Chr ")"; Chr "."].

(** The character just before the text that follows the prefix [p], when
    [prev] is the character before [p]. *)
Fixpoint last_char (prev : option ascii) (p : string) : option ascii :=
  match p with
  | EmptyString => prev
  | String c p' => last_char (Some c) p'
  end.

(** The parenthesized rule of [reduce_expression] does not apply: a
    parenthesis is missing, or the parenthesized pattern matches nowhere. *)
Definition parentheses_rule_silent (e : string) (a b : Number) (op : string) : Prop :=
  contains "(" e && contains ")" e = false
  \/ exists pattern re,
       parentheses_pattern a b op = Ok pattern /\ re_compile pattern = Ok re
       /\ re_search re e = None.

(** A character of [str(z)] for an [int]: a digit or the minus sign. *)
Definition int_char (c : ascii) : bool := is_digit c || Ascii.eqb c "-".

(** The items of a pattern text made of literal characters only. *)
Fixpoint literals (s : string) : list item :=
  match s with
  | EmptyString => []
  | String c s' => Chars [Chr c] Once :: literals s'
  end.

(** The bare pattern of [reduce_expression] for two ints and the operator
    character [op], compiled. *)
Definition standard_regex (a b : Z) (op : ascii) : regex :=
  ([WordBoundary] ++ literals (str_of_int a)
   ++ [WordBoundary; Chars [Space] ZeroOrMore; Chars [Chr op] Once;
       Chars [Space] ZeroOrMore; WordBoundary]
   ++ literals (str_of_int b) ++ [WordBoundary])%list.

(** The parenthesized pattern for two ints, compiled. *)
Definition parentheses_regex (a b : Z) (op : ascii) : regex :=
  ([Chars [Chr "("] Once; Chars [Space] ZeroOrMore]
   ++ standard_regex a b op
   ++ [Chars [Space] ZeroOrMore; Chars [Chr ")"] Once])%list.

(** The four operators. *)
Definition is_operator (c : ascii) : bool :=
  Ascii.eqb c "+" || Ascii.eqb c "-" || Ascii.eqb c "*" || Ascii.eqb c "/".

(** The position [n] of a text lies strictly inside the token that starts
    at position [start] and has [len] characters. *)
Definition strictly_inside (n start len : nat) : Prop :=
  (start < n < start + len)%nat.

(** The [dict] of a tool call [(a, b, op, is_final_step)]. *)
Definition call_dict (a b : Number) (op : string) (is_final_step : pyval)
    : gmap string pyval :=
  {[ "a" := VNum a; "b" := VNum b; "op" := VStr op;
     "is_final_step" := is_final_step ]}.

(** The runtime decodes the payload of [tool_call] to the [dict] of
    [(a, b, op, is_final_step)]. *)
Definition decodes `{PyRuntime} (tool_call : ToolCall) (a b : Number) (op : string)
    (is_final_step : pyval) : Prop :=
  json_loads (arguments (function tool_call)) = Ok (VDict (call_dict a b op is_final_step)).

(** The operator strings [_process_tool_calls] accepts. *)
Definition valid_op (op : string) : bool :=
  String.eqb op "+" || String.eqb op "-" || String.eqb op "*" || String.eqb op "/".

(** The value the single-operator fallback computes from the two sides
    [a] and [b] of the operator [op], following the specification: the
    sum, difference, product or quotient; nothing is computed, and the
    unset result [None] stays, for a division by zero. *)
Definition direct_value (op : ascii) (a b : spec_float) : pyval :=
  if Ascii.eqb op "+" then VNum (PyFloat (SFadd prec emax a b))
  else if Ascii.eqb op "-" then VNum (PyFloat (SFsub prec emax a b))
  else if Ascii.eqb op "*" then VNum (PyFloat (SFmul prec emax a b))
  else if float_is_zero b then VNone
  else VNum (PyFloat (SFdiv prec emax a b)).

(** The stub of the round-trip scenario: one tool call per turn. *)
Definition call_1 : ToolCall :=
  tool_call "call_1" "{'a': 5, 'b': 3, 'op': '*', 'is_final_step': false}".
Definition call_2 : ToolCall :=
  tool_call "call_2" "{'a': 8, 'b': 2, 'op': '/', 'is_final_step': false}".
Definition call_3 : ToolCall :=
  tool_call "call_3" "{'a': 10, 'b': 15, 'op': '+', 'is_final_step': false}".
Definition call_4 : ToolCall :=
  tool_call "call_4" "{'a': 25, 'b': 4, 'op': '-', 'is_final_step': true}".

Definition round_trip_script : list Response :=
  [ {| tool_calls := [call_1] |}; {| tool_calls := [call_2] |};
    {| tool_calls := [call_3] |}; {| tool_calls := [call_4] |} ].

(** The runtime decodes the four payloads of the stub. *)
Definition decodes_round_trip `{PyRuntime} : Prop :=
  decodes call_1 (PyInt 5) (PyInt 3) "*" (VBool false)
  /\ decodes call_2 (PyInt 8) (PyInt 2) "/" (VBool false)
  /\ decodes call_3 (PyInt 10) (PyInt 15) "+" (VBool false)
  /\ decodes call_4 (PyInt 25) (PyInt 4) "-" (VBool true).

Definition stepwise_reference_config : StepwiseCalculatorAgent.config := {|
  StepwiseCalculatorAgent.max_expression_length := 100;
  StepwiseCalculatorAgent.system_prompt := "You are a calculator.";
  StepwiseCalculatorAgent.subsequent_prompt :=
    "Expression: {EXPRESSION}. Steps so far: {STEPS_SO_FAR}";
  StepwiseCalculatorAgent.initial_prompt := "Expression: {EXPRESSION}";
  StepwiseCalculatorAgent.max_llm_calls := 10;
  StepwiseCalculatorAgent.return_tool_call_msgs := true;
  StepwiseCalculatorAgent.append_messages := true
|}.

Definition reducing_reference_config : ReducingCalculatorAgent.config := {|
  ReducingCalculatorAgent.max_expression_length := 100;
  ReducingCalculatorAgent.system_prompt := "You are a calculator.";
  ReducingCalculatorAgent.prompt := "Expression: {EXPRESSION}";
  ReducingCalculatorAgent.max_llm_calls := 10
|}.

(** A turn of two calls: the first says it is final, the last does not. *)
Definition final_then_not : list ToolCall :=
  [ tool_call "call_1" "{'a': 1, 'b': 2, 'op': '+', 'is_final_step': true}";
    tool_call "call_2" "{'a': 3, 'b': 4, 'op': '*', 'is_final_step': false}" ].

(** A stub that asks for [2 + 3] at every turn and never says it is the
    final step. *)
Definition call_2_plus_3 : ToolCall :=
  tool_call "call_n" "{'a': 2, 'b': 3, 'op': '+', 'is_final_step': false}".

Definition stuck_script : list Response :=
  [ {| tool_calls := [call_2_plus_3] |}; {| tool_calls := [call_2_plus_3] |};
    {| tool_calls := [call_2_plus_3] |} ].

(** The number of arithmetic operators of an expression, as the
    loop-detection branch counts them. *)
Definition operator_count (expression : string) : Z :=
  count "+" expression + count "-" expression
  + count "*" expression + count "/" expression.

(** A Reducing configuration with a budget of one call. *)
Definition reducing_one_call_config : ReducingCalculatorAgent.config := {|
  ReducingCalculatorAgent.max_expression_length := 100;
  ReducingCalculatorAgent.system_prompt := "You are a calculator.";
  ReducingCalculatorAgent.prompt := "Expression: {EXPRESSION}";
  ReducingCalculatorAgent.max_llm_calls := 1
|}.

Definition stepwise_one_call_config : StepwiseCalculatorAgent.config := {|
  StepwiseCalculatorAgent.max_expression_length := 100;
  StepwiseCalculatorAgent.system_prompt := "You are a calculator.";
  StepwiseCalculatorAgent.subsequent_prompt :=
    "Expression: {EXPRESSION}. Steps so far: {STEPS_SO_FAR}";
  StepwiseCalculatorAgent.initial_prompt := "Expression: {EXPRESSION}";
  StepwiseCalculatorAgent.max_llm_calls := 1;
  StepwiseCalculatorAgent.return_tool_call_msgs := true;
  StepwiseCalculatorAgent.append_messages := true
|}.

(** Payloads whose [op] fails the validation of the first pass. *)
Definition call_percent : ToolCall :=
  tool_call "call_1" "{'a': 1, 'b': 2, 'op': '%', 'is_final_step': false}".
Definition call_op_number : ToolCall :=
  tool_call "call_1" "{'a': 1, 'b': 2, 'op': 5, 'is_final_step': false}".
Definition call_op_padded : ToolCall :=
  tool_call "call_1" "{'a': 1, 'b': 2, 'op': ' + ', 'is_final_step': true}".
(** A payload without [op], and one with the key ['op:']. *)
Definition call_no_op : ToolCall :=
  tool_call "call_1" "{'a': 1, 'b': 2, 'is_final_step': true}".
Definition call_op_colon : ToolCall :=
  tool_call "call_1" "{'a': 1, 'b': 2, 'op:': '+', 'is_final_step': true}".

(* ===================================================================== *)
(** * Further definitions used to state the properties *)
(* ===================================================================== *)

(** An integer as an exact floating-point number with exponent 0, before
    any rounding. *)
Definition exact_int (z : Z) : spec_float :=
  S754_finite (z <? 0) (Z.to_pos (Z.abs z)) 0.

(** The binary64 float nearest to an integer (ties to even); none when
    the integer is beyond the float range. *)
Definition nearest_float (z : Z) : option spec_float :=
  match binary_normalize prec emax z 0 false with
  | S754_infinity _ => None
  | f => Some f
  end.

(** The operand of a float operation: a float as it is, an int as the
    nearest float. *)
Definition float_operand (n : Number) : option spec_float :=
  match n with
  | PyInt z => nearest_float z
  | PyFloat f => Some f
  end.

(** One of two operands is a float. *)
Definition has_float (a b : Number) : bool :=
  match a, b with
  | PyInt _, PyInt _ => false
  | _, _ => true
  end.

(* ===================================================================== *)
(** * validate_expression on strings of any code points *)
(* ===================================================================== *)

(** The definitions above keep a [str] as a sequence of code points below
    256.  [validate_expression] answers differently beyond them: in a
    [str] pattern [\d] matches every Unicode decimal digit and [\s] every
    Unicode whitespace character.  This module has [validate_expression]
    on a [str] of any code points, with [re.match] for the patterns
    without [\b]. *)
Module Unicode.

(** A [str]: its code points. *)
Definition text := list N.

(** The text of a string of code points below 256. *)
Definition of_string (s : string) : text := map N_of_ascii (list_ascii_of_string s).

(** The code point of the digit zero of every run of decimal digits
    (general category Nd) in Unicode 14.0, the database of CPython 3.11;
    each run holds the ten digits in order. *)
Definition decimal_zeros : list N :=
  [48; 1632; 1776; 1984; 2406; 2534; 2662; 2790; 2918; 3046; 3174; 3302; 3430;
   3558; 3664; 3792; 3872; 4160; 4240; 6112; 6160; 6470; 6608; 6784; 6800; 6992;
   7088; 7232; 7248; 42528; 43216; 43264; 43472; 43504; 43600; 44016; 65296;
   66720; 68912; 69734; 69872; 69942; 70096; 70384; 70736; 70864; 71248; 71360;
   71472; 71904; 72016; 72784; 73040; 73120; 92768; 92864; 93008; 120782; 120792;
   120802; 120812; 120822; 123200; 123632; 125264; 130032]%N.

(** [Py_UNICODE_ISDECIMAL]: the characters [\d] matches. *)
Definition isdecimal (c : N) : bool :=
  existsb (fun zero => (zero <=? c) && (c <? zero + 10))%N decimal_zeros.

(** [Py_UNICODE_ISSPACE]: the characters [\s] matches. *)
Definition isspace (c : N) : bool :=
  ((9 <=? c) && (c <=? 13) || (28 <=? c) && (c <=? 32) || (c =? 133) || (c =? 160)
   || (c =? 5760) || (8192 <=? c) && (c <=? 8202) || (c =? 8232) || (c =? 8233)
   || (c =? 8239) || (c =? 8287) || (c =? 12288))%N.

Definition cset_mem (x : N) (cs : cset) : bool :=
  match cs with
  | Chr c => (x =? N_of_ascii c)%N
  | AnyButNewline => negb (x =? 10)%N
  | Space => isspace x
  | Digit => isdecimal x
  end.

Definition atom_mem (x : N) (atom : list cset) : bool :=
  existsb (cset_mem x) atom.

(** [$] holds at the end of the text and before a final newline. *)
Definition at_line_end (s : text) : bool :=
  match s with
  | [] => true
  | [c] => (c =? 10)%N
  | _ => false
  end.

(** One character more in a match. *)
Definition longer (m : outcome (option nat)) : outcome (option nat) :=
  match m with
  | Ok (Some n) => Ok (Some (S n))
  | other => other
  end.

(** The matcher of the definitions above on code points; a pattern with
    [\b] is outside this module. *)
Fixpoint greedy (atom : list cset) (k : option N -> text -> outcome (option nat))
    (prev : option N) (s : text) : outcome (option nat) :=
  match s with
  | c :: s' =>
      if atom_mem c atom then
        match greedy atom k (Some c) s' with
        | Ok (Some n) => Ok (Some (S n))
        | Ok None => k prev s
        | Raise e => Raise e
        end
      else k prev s
  | [] => k prev s
  end.

Fixpoint match_here (re : regex) (prev : option N) (s : text) : outcome (option nat) :=
  match re with
  | [] => Ok (Some O)
  | WordBoundary :: _ => Raise (OutsideModel "\b on a text of any code points")
  | LineStart :: r =>
      match prev with None => match_here r prev s | Some _ => Ok None end
  | LineEnd :: r =>
      if at_line_end s then match_here r prev s else Ok None
  | Chars atom Once :: r =>
      match s with
      | c :: s' =>
          if atom_mem c atom then longer (match_here r (Some c) s') else Ok None
      | [] => Ok None
      end
  | Chars atom ZeroOrMore :: r => greedy atom (match_here r) prev s
  | Chars atom OneOrMore :: r =>
      match s with
      | c :: s' =>
          if atom_mem c atom then longer (greedy atom (match_here r) (Some c) s')
          else Ok None
      | [] => Ok None
      end
  | Chars atom ZeroOrOne :: r =>
      match s with
      | c :: s' =>
          if atom_mem c atom then
            match match_here r (Some c) s' with
            | Ok (Some n) => Ok (Some (S n))
            | Ok None => match_here r prev s
            | Raise e => Raise e
            end
          else match_here r prev s
      | [] => match_here r prev s
      end
  end.

(** [re.match(re, s)] *)
Definition re_match (re : regex) (s : text) : outcome (option nat) :=
  match_here re None s.

(** The two [ValueError]s of [validate_expression], the second with the
    expression of its message; [Outside] is an exception of the
    definitions above. *)
Inductive raised :=
  | ExpressionTooLong (max_expression_length : Z)
  | InvalidCharacters (expression : text)
  | Outside (e : exn).

Inductive result :=
  | Returns (b : bool)
  | Raises (e : raised).

(** [validate_expression(expression, max_expression_length)] *)
Definition validate_expression (expression : text) (max_expression_length : Z)
    : result :=
  if Z.of_nat (length expression) >? max_expression_length then
    Raises (ExpressionTooLong max_expression_length)
  else
    let pattern := "^[\d\s\+\-\*\/\(\)\.]+$" in
    match re_compile pattern with
    | Raise e => Raises (Outside e)
    | Ok re =>
        match re_match re expression with
        | Raise e => Raises (Outside e)
        | Ok None => Raises (InvalidCharacters expression)
        | Ok (Some _) => Returns true
        end
    end.

(** The class of the validation pattern: a decimal digit, whitespace, or
    one of [+ - * / ( ) .]. *)
Definition allowed (c : N) : bool :=
  isdecimal c || isspace c
  || existsb (fun a => (c =? N_of_ascii a)%N) (list_ascii_of_string "+-*/().").

(** The class as the specification writes it, with the digits [0-9]. *)
Definition claimed (c : N) : bool :=
  ((48 <=? c) && (c <=? 57))%N || isspace c
  || existsb (fun a => (c =? N_of_ascii a)%N) (list_ascii_of_string "+-*/().").

End Unicode.

(** What a run of [validate_expression] on a string of code points below
    256 is on the text of that string. *)
Definition unicode_result (r : outcome bool) : Unicode.result :=
  match r with
  | Ok b => Unicode.Returns b
  | Raise (ExpressionTooLong n) => Unicode.Raises (Unicode.ExpressionTooLong n)
  | Raise (InvalidCharacters s) =>
      Unicode.Raises (Unicode.InvalidCharacters (Unicode.of_string s))
  | Raise e => Unicode.Raises (Unicode.Outside e)
  end.

(** The items read so far rest on the item [first], which no quantifier
    can reach any more. *)
Definition rests_on (first : item) (st : pstate) : Prop :=
  exists l, items_rev st = (l ++ [first])%list /\ (l = [] -> repeatable st = false).

(** A character of a number formatted with [' g']: a digit, a blank, or
    one of the characters of [.], [e], a sign, [inf] and [nan]. *)
Definition format_char (c : ascii) : bool :=
  is_digit c || contains c " .e+-infa".

(* ===================================================================== *)
(** * Further functions of the sources *)
(* ===================================================================== *)

(** [sub in s] for two strings *)
Fixpoint contains_text (sub s : string) : bool :=
  startswith sub s
  || match s with
     | EmptyString => false
     | String _ s' => contains_text sub s'
     end.

(** [safe_eval(expression)] of utility.py: the whole body is inside one
    [try] with a bare [except] that returns [None]. *)
Definition safe_eval `{PyRuntime} (expression : string) : outcome pyval :=
  let caught (e : exn) : outcome pyval :=
    if is_python_exception e then Ok VNone else Raise e in
  let clean_expr := strip expression in
  match re_compile "^[\d\s\+\-\*\/\(\)\.]+$" with
  | Raise e => caught e
  | Ok re =>
      match re_match re clean_expr with
      | None => Ok VNone
      | Some _ =>
          match py_eval clean_expr with
          | Ok v => Ok v
          | Raise e => caught e
          end
      end
  end.

(** The two marker lines the agents print around their steps. *)
Definition steps_begin : string := "--- CALCULATION STEPS BEGIN ---".
Definition steps_end : string := "--- CALCULATION STEPS END ---".

(** The [for line in full_output] loop of [calculate_with_steps] (app.py)
    with its two variables [inside_steps_section] and [steps]. *)
Fixpoint steps_loop (full_output : list string) (agent_type : string)
    (inside_steps_section : bool) (steps : list string) : list string :=
  match full_output with
  | [] => steps
  | line :: rest =>
      let line := strip line in
      if String.eqb line steps_begin then steps_loop rest agent_type true steps
      else if String.eqb line steps_end then steps_loop rest agent_type false steps
      else if inside_steps_section && negb (String.eqb line "") then
        if startswith "Step" line then
          if String.eqb agent_type "reducing" && contains_text "-->" line
          then steps_loop rest agent_type inside_steps_section (steps ++ [line])%list
          else steps_loop rest agent_type inside_steps_section (steps ++ [line])%list
        else if startswith "Final result:" line
        then steps_loop rest agent_type inside_steps_section (steps ++ [line])%list
        else steps_loop rest agent_type inside_steps_section steps
      else steps_loop rest agent_type inside_steps_section steps
  end.

(** [calculate_with_steps(orchestrator, expression, agent_type)] of app.py,
    from the point where [orchestrator.calculate(expression)] has come
    back with [calculated] and the text [output] on its standard output:
    the triple [(result, steps, output)], or the exception [e] of the
    triple [(None, [], str(e))]. *)
Definition calculate_with_steps (calculated : outcome pyval)
    (output agent_type : string) : (pyval * list string * string) + exn :=
  match calculated with
  | Raise e => inr e
  | Ok result =>
      let full_output := split "010" output in
      inl (result, steps_loop full_output agent_type false [], output)
  end.

(** A line [calculate_with_steps] keeps: it starts with [Step] or with
    [Final result:]. *)
Definition is_step_line (line : string) : bool :=
  startswith "Step" line || startswith "Final result:" line.

(** A line as [print] writes it: it holds no line feed. *)
Definition one_line (line : string) : bool := negb (contains "010" line).

(** The keys of a tool-call payload, in the order [_process_tool_calls]
    reads them. *)
Definition payload_keys : list string := ["a"; "b"; "op"; "is_final_step"].

(** The first key of the payload that a [dict] lacks. *)
Definition first_missing (d : gmap string pyval) : option string :=
  find (fun key => negb (bool_decide (is_Some (d !! key)))) payload_keys.

(** The result of a turn without the rewritten expression, which only the
    Reducing agent fills in. *)
Definition without_expression (r : ToolCallResult) : ToolCallResult :=
  {| results := results r; is_final_step := is_final_step r;
     call_steps := call_steps r; remaining_expression := "" |}.

(** The results of two runs of tool calls, one after the other. *)
Definition then_result (r1 r2 : ToolCallResult) : ToolCallResult :=
  {| results := (results r1 ++ results r2)%list;
     is_final_step := is_final_step r2;
     call_steps := (call_steps r1 ++ call_steps r2)%list;
     remaining_expression := remaining_expression r2 |}.

(** Each element of a list is related to the one after it. *)
Fixpoint chain {A : Type} (R : A -> A -> Prop) (l : list A) : Prop :=
  match l with
  | x :: (y :: _) as l' => R x y /\ chain R l'
  | _ => True
  end.

(** The history [q] is the history [p] with further messages, the last of
    them a user message. *)
Definition extends (p q : MessageHistory) : Prop :=
  exists l u, q = (p ++ l ++ [UserMessage u])%list.

(** A history of two messages: the system prompt and a user message. *)
Definition fresh_prompt (system_prompt : string) (p : MessageHistory) : Prop :=
  exists u, p = [SystemMessage system_prompt; UserMessage u].

(** A model client that answers without looking at the prompt. *)
Definition prompt_blind {C : Type} `{LLMClient C} : Prop :=
  forall (c : C) (p q : MessageHistory), run_prompt c p = run_prompt c q.

(** A line that reads as the marker that opens the steps, and one that
    reads as either marker. *)
Definition opens_steps (line : string) : bool := String.eqb (strip line) steps_begin.
Definition is_marker (line : string) : bool :=
  String.eqb (strip line) steps_begin || String.eqb (strip line) steps_end.

(** The text [print] writes for a list of lines, the line feed after the
    last line apart. *)
Definition lines_text (lines : list string) : string := join newline lines.

(** A model turn that the Stepwise agent processes and that does not end
    the run: its tool calls are read and computed, and the last of them
    does not say it is the final step. *)
Definition goes_on `{PyRuntime} (response : Response) : bool :=
  match StepwiseCalculatorAgent._process_tool_calls (tool_calls response) with
  | Ok result => negb (truthy (is_final_step result))
  | Raise _ => false
  end.

(** The number of model calls a run may make. *)
Definition call_budget (max_llm_calls : Z) : nat := Z.to_nat (Z.max 1 max_llm_calls).

(** A Stepwise configuration with a budget of three calls. *)
Definition stepwise_three_calls_config : StepwiseCalculatorAgent.config := {|
  StepwiseCalculatorAgent.max_expression_length := 100;
  StepwiseCalculatorAgent.system_prompt := "You are a calculator.";
  StepwiseCalculatorAgent.subsequent_prompt :=
    "Expression: {EXPRESSION}. Steps so far: {STEPS_SO_FAR}";
  StepwiseCalculatorAgent.initial_prompt := "Expression: {EXPRESSION}";
  StepwiseCalculatorAgent.max_llm_calls := 3;
  StepwiseCalculatorAgent.return_tool_call_msgs := false;
  StepwiseCalculatorAgent.append_messages := false
|}.

(* ===================================================================== *)
(** * Proofs *)
(* ===================================================================== *)
(* ===================================================================== *)
(** * Properties of [calculate] *)
(* ===================================================================== *)

Lemma int_true_divide_raise x y e :
  (y =? 0) = false -> int_true_divide x y = Raise e -> e = OverflowError.
Proof.
  unfold int_true_divide. intros ->.
  destruct (x =? 0); [discriminate|].
  destruct (SFdiv _ _ _ _); congruence.
Qed.

Lemma int_to_float_raise z e : int_to_float z = Raise e -> e = OverflowError.
Proof. unfold int_to_float. destruct (binary_normalize _ _ _ _ _); congruence. Qed.

Lemma to_float_raise n e : to_float n = Raise e -> e = OverflowError.
Proof. destruct n; simpl; [apply int_to_float_raise | discriminate]. Qed.

Lemma py_truediv_raise a b e :
  is_zero b = false -> py_truediv a b = Raise e -> e = OverflowError.
Proof.
  intros Hb. unfold py_truediv.
  destruct a as [x|fx], b as [y|fy]; simpl in *.
  - destruct (int_true_divide x y) eqn:E; simpl; [discriminate|].
    intros [= <-]. eauto using int_true_divide_raise.
  - destruct (int_to_float x) eqn:E; simpl.
    + rewrite Hb. discriminate.
    + intros [= <-]. eauto using int_to_float_raise.
  - destruct (int_to_float y) eqn:E; simpl.
    + rewrite Hb. discriminate.
    + intros [= <-]. eauto using int_to_float_raise.
  - rewrite Hb. discriminate.
Qed.

Lemma py_truediv_float a b v : py_truediv a b = Ok v -> exists f, v = PyFloat f.
Proof.
  unfold py_truediv.
  destruct a as [x|fx], b as [y|fy]; simpl.
  - destruct (int_true_divide x y); simpl; [intros [= <-]; eauto | discriminate].
  - destruct (int_to_float x); simpl; [|discriminate].
    destruct (float_is_zero fy); [discriminate | intros [= <-]; eauto].
  - destruct (int_to_float y); simpl; [|discriminate].
    destruct (y =? 0); [discriminate | intros [= <-]; eauto].
  - destruct (float_is_zero fy); [discriminate | intros [= <-]; eauto].
Qed.

Lemma calculate_div a b op :
  strip op = "/" ->
  calculate a b op = if is_zero b then Raise (DivisionByZero a) else py_truediv a b.
Proof. unfold calculate. intros ->. reflexivity. Qed.

(** Addition, subtraction and multiplication only fail on an int operand
    too large for a float, next to a float operand. *)
Lemma mixed_operation_raise (f : spec_float -> spec_float -> spec_float) a b e :
  (x ← to_float a; y ← to_float b; Ok (PyFloat (f x y))) = Raise e ->
  e = OverflowError /\ exists z, a = PyInt z \/ b = PyInt z.
Proof.
  destruct a as [x|x], b as [y|y]; cbn [to_float mbind outcome_bind].
  - destruct (int_to_float x) eqn:Hx; cbn [mbind outcome_bind].
    + destruct (int_to_float y) eqn:Hy; cbn [mbind outcome_bind]; [discriminate|].
      intros [= <-]. split; [now apply int_to_float_raise in Hy | eauto].
    + intros [= <-]. split; [now apply int_to_float_raise in Hx | eauto].
  - destruct (int_to_float x) eqn:Hx; cbn [mbind outcome_bind]; [discriminate|].
    intros [= <-]. split; [now apply int_to_float_raise in Hx | eauto].
  - destruct (int_to_float y) eqn:Hy; cbn [mbind outcome_bind]; [discriminate|].
    intros [= <-]. split; [now apply int_to_float_raise in Hy | eauto].
  - discriminate.
Qed.

Lemma float_operand_to_float n :
  to_float n = match float_operand n with Some f => Ok f | None => Raise OverflowError end.
Proof.
  destruct n as [z|f]; [|reflexivity].
  unfold to_float, float_operand, int_to_float, nearest_float.
  now destruct (binary_normalize prec emax z 0 false).
Qed.

(** The operations on operands one of which is a float. *)
Lemma float_operation (op : spec_float -> spec_float -> spec_float) a b :
  (x ← to_float a; y ← to_float b; Ok (PyFloat (op x y)))
  = match float_operand a, float_operand b with
    | Some f, Some g => Ok (PyFloat (op f g))
    | _, _ => Raise OverflowError
    end.
Proof.
  rewrite !float_operand_to_float.
  destruct (float_operand a), (float_operand b); reflexivity.
Qed.

Lemma py_add_float a b :
  has_float a b = true ->
  py_add a b = match float_operand a, float_operand b with
               | Some f, Some g => Ok (PyFloat (SFadd prec emax f g))
               | _, _ => Raise OverflowError
               end.
Proof.
  intros Hf. rewrite <- float_operation. now destruct a, b.
Qed.

Lemma py_sub_float a b :
  has_float a b = true ->
  py_sub a b = match float_operand a, float_operand b with
               | Some f, Some g => Ok (PyFloat (SFsub prec emax f g))
               | _, _ => Raise OverflowError
               end.
Proof.
  intros Hf. rewrite <- float_operation. now destruct a, b.
Qed.

Lemma py_mul_float a b :
  has_float a b = true ->
  py_mul a b = match float_operand a, float_operand b with
               | Some f, Some g => Ok (PyFloat (SFmul prec emax f g))
               | _, _ => Raise OverflowError
               end.
Proof.
  intros Hf. rewrite <- float_operation. now destruct a, b.
Qed.

Lemma py_truediv_float_operands a b :
  has_float a b = true -> is_zero b = false ->
  py_truediv a b = match float_operand a, float_operand b with
                   | Some f, Some g => Ok (PyFloat (SFdiv prec emax f g))
                   | _, _ => Raise OverflowError
                   end.
Proof.
  intros Hf Hb. rewrite <- float_operation.
  destruct a as [x|f], b as [y|g]; try discriminate;
    cbn [py_truediv]; destruct (to_float _) as [u|]; cbn [mbind outcome_bind];
    try reflexivity; destruct (to_float _) as [v|]; cbn [mbind outcome_bind];
    try reflexivity; now rewrite Hb.
Qed.

Lemma valid_op_false op :
  valid_op op = false ->
  String.eqb op "+" = false /\ String.eqb op "-" = false
  /\ String.eqb op "*" = false /\ String.eqb op "/" = false.
Proof.
  unfold valid_op. intros H.
  apply orb_false_iff in H as [H H4]. apply orb_false_iff in H as [H H3].
  apply orb_false_iff in H as [H1 H2]. auto.
Qed.

(** C6, the claim as stated fails: with a divisor that is not zero,
    [calculate(10**400, 1, '/')] returns no quotient but passes on
    Python's [OverflowError], and so does [calculate(10**400, 1.5, '+')]
    instead of returning a sum. *)
Lemma C6_counterexample :
  is_zero (PyInt 1) = false
  /\ calculate (PyInt (10 ^ 400)) (PyInt 1) "/" = Raise OverflowError
  /\ is_zero_division OverflowError = false
  /\ calculate (PyInt (10 ^ 400)) (PyFloat (binary_normalize prec emax 3 (-1) false)) "+"
     = Raise OverflowError.
Proof.
  split; [reflexivity|]. split; [vm_compute; reflexivity|].
  split; [reflexivity|]. vm_compute. reflexivity.
Qed.

(** C6, amended.  [calculate(a, b, op)] with [op] stripped of whitespace.
    For [/] and [b == 0] it raises the error of a division by zero, which
    carries the numerator [a], and it raises an error of that class in no
    other case.  On two ints, [+], [-] and [*] give the exact integer
    sum, difference and product, and [/] with [b != 0] gives the quotient
    of the two integers rounded once to a float, or [OverflowError] when
    that quotient is beyond the float range.  With a float operand, an
    int operand is first converted to the nearest float and the result is
    the binary64 sum, difference, product or (for [b != 0]) quotient; an
    int operand beyond the float range gives [OverflowError].  For an
    operator that is none of the four it raises the error of an
    unsupported operation, naming the stripped operator. *)
Theorem C6_calculate_contract (a b : Number) (op : string) :
  (strip op = "/" -> is_zero b = true -> calculate a b op = Raise (DivisionByZero a))
  /\ (forall e, calculate a b op = Raise e -> is_zero_division e = true ->
        strip op = "/" /\ is_zero b = true /\ e = DivisionByZero a)
  /\ (forall x y, a = PyInt x -> b = PyInt y ->
        (strip op = "+" -> calculate a b op = Ok (PyInt (x + y)))
        /\ (strip op = "-" -> calculate a b op = Ok (PyInt (x - y)))
        /\ (strip op = "*" -> calculate a b op = Ok (PyInt (x * y)))
        /\ (strip op = "/" -> y <> 0 ->
            calculate a b op
            = if x =? 0 then Ok (PyFloat (S754_zero (y <? 0)))
              else match SFdiv prec emax (exact_int x) (exact_int y) with
                   | S754_infinity _ => Raise OverflowError
                   | q => Ok (PyFloat q)
                   end))
  /\ (has_float a b = true ->
        (forall f g, float_operand a = Some f -> float_operand b = Some g ->
           (strip op = "+" -> calculate a b op = Ok (PyFloat (SFadd prec emax f g)))
           /\ (strip op = "-" -> calculate a b op = Ok (PyFloat (SFsub prec emax f g)))
           /\ (strip op = "*" -> calculate a b op = Ok (PyFloat (SFmul prec emax f g)))
           /\ (strip op = "/" -> is_zero b = false ->
               calculate a b op = Ok (PyFloat (SFdiv prec emax f g))))
        /\ (float_operand a = None \/ float_operand b = None ->
            valid_op (strip op) = true -> (strip op = "/" -> is_zero b = false) ->
            calculate a b op = Raise OverflowError))
  /\ (valid_op (strip op) = false ->
      calculate a b op = Raise (UnsupportedOperation (strip op))).
Proof.
  split; [|split; [|split; [|split]]].
  - intros Hop Hb. now rewrite (calculate_div _ _ _ Hop), Hb.
  - intros e He Hz. unfold calculate in He.
    destruct (String.eqb (strip op) "+").
    { destruct a, b; try discriminate;
        apply (mixed_operation_raise (SFadd prec emax)) in He as [-> _]; discriminate. }
    destruct (String.eqb (strip op) "-").
    { destruct a, b; try discriminate;
        apply (mixed_operation_raise (SFsub prec emax)) in He as [-> _]; discriminate. }
    destruct (String.eqb (strip op) "*").
    { destruct a, b; try discriminate;
        apply (mixed_operation_raise (SFmul prec emax)) in He as [-> _]; discriminate. }
    destruct (String.eqb (strip op) "/") eqn:E4.
    + apply String.eqb_eq in E4. destruct (is_zero b) eqn:Hb.
      * injection He as <-. auto.
      * apply (py_truediv_raise _ _ _ Hb) in He. subst e. discriminate.
    + injection He as <-. discriminate.
  - intros x y -> ->. unfold calculate.
    split; [intros ->; reflexivity|]. split; [intros ->; reflexivity|].
    split; [intros ->; reflexivity|]. intros -> Hy. cbn [String.eqb Ascii.eqb Bool.eqb].
    apply Z.eqb_neq in Hy. cbn [is_zero py_truediv]. rewrite Hy.
    unfold int_true_divide, exact_int. rewrite Hy.
    destruct (x =? 0); [reflexivity|].
    now destruct (SFdiv prec emax _ _).
  - intros Hf. split.
    + intros f g Ha Hb. unfold calculate.
      split; [intros ->; cbn; now rewrite (py_add_float _ _ Hf), Ha, Hb|].
      split; [intros ->; cbn; now rewrite (py_sub_float _ _ Hf), Ha, Hb|].
      split; [intros ->; cbn; now rewrite (py_mul_float _ _ Hf), Ha, Hb|].
      intros -> Hz. cbn. now rewrite Hz, (py_truediv_float_operands _ _ Hf Hz), Ha, Hb.
    + intros Hnone Hv Hdiv. unfold calculate. unfold valid_op in Hv.
      assert (forall u : outcome Number,
                match float_operand a, float_operand b with
                | Some f, Some g => u
                | _, _ => Raise OverflowError
                end = Raise OverflowError) as Hover.
      { intros u. destruct Hnone as [-> | ->]; [reflexivity|].
        now destruct (float_operand a). }
      destruct (String.eqb (strip op) "+"); [rewrite (py_add_float _ _ Hf)|].
      { destruct (float_operand a), (float_operand b), Hnone; congruence. }
      destruct (String.eqb (strip op) "-"); [rewrite (py_sub_float _ _ Hf)|].
      { destruct (float_operand a), (float_operand b), Hnone; congruence. }
      destruct (String.eqb (strip op) "*"); [rewrite (py_mul_float _ _ Hf)|].
      { destruct (float_operand a), (float_operand b), Hnone; congruence. }
      destruct (String.eqb (strip op) "/") eqn:E4; [|discriminate].
      apply String.eqb_eq in E4. specialize (Hdiv E4).
      rewrite Hdiv, (py_truediv_float_operands _ _ Hf Hdiv).
      destruct (float_operand a), (float_operand b), Hnone; congruence.
  - intros Hv. apply valid_op_false in Hv as (H1 & H2 & H3 & H4).
    unfold calculate. now rewrite H1, H2, H3, H4.
Qed.

Lemma C6_calculate_contract_witness :
  calculate (PyInt 8) (PyFloat (S754_zero false)) " / " = Raise (DivisionByZero (PyInt 8))
  /\ calculate (PyInt 5) (PyInt 3) " * " = Ok (PyInt (5 * 3))
  /\ calculate (PyInt 8) (PyInt 2) "/" = Ok (PyFloat (binary_normalize prec emax 4 0 false))
  /\ calculate (PyFloat (binary_normalize prec emax 5 (-1) false)) (PyInt 2) "*"
     = Ok (PyFloat (SFmul prec emax (binary_normalize prec emax 5 (-1) false)
                          (binary_normalize prec emax 2 0 false)))
  /\ calculate (PyInt 1) (PyInt 2) "%" = Raise (UnsupportedOperation "%").
Proof.
  pose proof (C6_calculate_contract (PyInt 8) (PyFloat (S754_zero false)) " / ")
    as (H1 & _).
  pose proof (C6_calculate_contract (PyInt 5) (PyInt 3) " * ") as (_ & _ & H2 & _).
  pose proof (C6_calculate_contract (PyInt 8) (PyInt 2) "/") as (_ & _ & H3 & _).
  pose proof (C6_calculate_contract (PyFloat (binary_normalize prec emax 5 (-1) false))
                (PyInt 2) "*") as (_ & _ & _ & H4 & _).
  pose proof (C6_calculate_contract (PyInt 1) (PyInt 2) "%") as (_ & _ & _ & _ & H5).
  split; [apply H1; vm_compute; reflexivity|].
  split; [apply (H2 5 3 eq_refl eq_refl); vm_compute; reflexivity|].
  split.
  { destruct (H3 8 2 eq_refl eq_refl) as (_ & _ & _ & Hq).
    rewrite Hq; [vm_compute; reflexivity | vm_compute; reflexivity | lia]. }
  split; [|apply H5; vm_compute; reflexivity].
  assert (has_float (PyFloat (binary_normalize prec emax 5 (-1) false)) (PyInt 2) = true)
    as Hf by reflexivity.
  destruct (H4 Hf) as [Hop _].
  apply (Hop _ _ eq_refl); vm_compute; reflexivity.
Defined.

(* ===================================================================== *)
(** * Properties of [validate_expression] *)
(* ===================================================================== *)


Lemma validation_pattern_compiled :
  re_compile "^[\d\s\+\-\*\/\(\)\.]+$"
  = Ok [LineStart; Chars grammar_class OneOrMore; LineEnd].
Proof. reflexivity. Qed.

Lemma grammar_class_allowed c : atom_mem c grammar_class = allowed_char c.
Proof. destruct c as [[] [] [] [] [] [] [] []]; reflexivity. Qed.

Lemma newline_allowed c : Ascii.eqb c "010" = true -> allowed_char c = true.
Proof. intros ->%Ascii.eqb_eq. reflexivity. Qed.

Lemma greedy_grammar_all s prev :
  all_chars allowed_char s = true ->
  greedy grammar_class (match_here [LineEnd]) prev s = Some (String.length s).
Proof.
  revert prev. induction s as [|c s IH]; intros prev Hall;
    cbn [greedy String.length]; simpl in Hall.
  - reflexivity.
  - apply andb_prop in Hall as [Hc Hs].
    rewrite grammar_class_allowed, Hc, (IH _ Hs). reflexivity.
Qed.

Lemma greedy_grammar_bad s prev :
  all_chars allowed_char s = false ->
  greedy grammar_class (match_here [LineEnd]) prev s = None.
Proof.
  revert prev. induction s as [|c s IH]; intros prev Hall;
    cbn [greedy]; simpl in Hall.
  - discriminate.
  - rewrite grammar_class_allowed. cbn [match_here at_line_end].
    destruct (allowed_char c) eqn:Hc; simpl in Hall.
    + rewrite (IH _ Hall). destruct s; [discriminate | reflexivity].
    + destruct s; [|reflexivity].
      destruct (Ascii.eqb c "010") eqn:Hn; [|reflexivity].
      apply newline_allowed in Hn. congruence.
Qed.

(** The decision [validate_expression] takes, in the order it takes it. *)
Lemma validate_expression_decides e n :
  validate_expression e n =
    if Z.of_nat (String.length e) >? n then Raise (ExpressionTooLong n)
    else match e with
         | EmptyString => Raise (InvalidCharacters e)
         | _ => if all_chars allowed_char e then Ok true
                else Raise (InvalidCharacters e)
         end.
Proof.
  unfold validate_expression. destruct (_ >? _); [reflexivity|].
  rewrite validation_pattern_compiled. cbn [mbind outcome_bind].
  unfold re_match. cbn [match_here].
  destruct e as [|c s]; [reflexivity|].
  rewrite grammar_class_allowed. cbn [all_chars].
  destruct (allowed_char c); cbn [andb]; [|reflexivity].
  destruct (all_chars allowed_char s) eqn:Hs.
  - rewrite (greedy_grammar_all _ _ Hs). reflexivity.
  - rewrite (greedy_grammar_bad _ _ Hs). reflexivity.
Qed.

(** The class of the validation pattern on code points. *)
Lemma unicode_grammar_class_allowed c :
  Unicode.atom_mem c grammar_class = Unicode.allowed c.
Proof.
  unfold Unicode.atom_mem, Unicode.allowed, grammar_class.
  cbn [existsb Unicode.cset_mem list_ascii_of_string].
  now rewrite !orb_assoc.
Qed.

Lemma unicode_greedy_all s :
  forall prev,
    forallb Unicode.allowed s = true ->
    Unicode.greedy grammar_class (Unicode.match_here [LineEnd]) prev s
    = Ok (Some (length s)).
Proof.
  induction s as [|c s IH]; intros prev Hall; cbn [Unicode.greedy length].
  - reflexivity.
  - cbn [forallb] in Hall. apply andb_prop in Hall as [Hc Hs].
    now rewrite unicode_grammar_class_allowed, Hc, (IH _ Hs).
Qed.

Lemma unicode_greedy_bad s :
  forall prev,
    forallb Unicode.allowed s = false ->
    Unicode.greedy grammar_class (Unicode.match_here [LineEnd]) prev s = Ok None.
Proof.
  induction s as [|c s IH]; intros prev Hall; cbn [Unicode.greedy].
  - discriminate.
  - rewrite unicode_grammar_class_allowed.
    cbn [forallb] in Hall. cbn [Unicode.match_here Unicode.at_line_end].
    destruct (Unicode.allowed c) eqn:Hc; cbn [andb] in Hall.
    + rewrite (IH _ Hall). destruct s; [discriminate | reflexivity].
    + destruct s; [|reflexivity].
      destruct (N.eqb_spec c 10) as [->|]; [discriminate | reflexivity].
Qed.

(** The decision [validate_expression] takes on a text of any code
    points, in the order it takes it. *)
Lemma unicode_validate_expression_decides e n :
  Unicode.validate_expression e n =
    if Z.of_nat (length e) >? n then Unicode.Raises (Unicode.ExpressionTooLong n)
    else match e with
         | [] => Unicode.Raises (Unicode.InvalidCharacters e)
         | _ => if forallb Unicode.allowed e then Unicode.Returns true
                else Unicode.Raises (Unicode.InvalidCharacters e)
         end.
Proof.
  unfold Unicode.validate_expression. destruct (_ >? _); [reflexivity|].
  rewrite validation_pattern_compiled.
  unfold Unicode.re_match. cbn [Unicode.match_here].
  destruct e as [|c s]; [reflexivity|].
  rewrite unicode_grammar_class_allowed. cbn [forallb].
  destruct (Unicode.allowed c); cbn [andb]; [|reflexivity].
  destruct (forallb Unicode.allowed s) eqn:Hs.
  - now rewrite (unicode_greedy_all _ _ Hs).
  - now rewrite (unicode_greedy_bad _ _ Hs).
Qed.

(** Below code point 256 the two classes are the same. *)
Lemma allowed_of_ascii c : Unicode.allowed (N_of_ascii c) = allowed_char c.
Proof. destruct c as [[] [] [] [] [] [] [] []]; vm_compute; reflexivity. Qed.

Lemma forallb_of_string s :
  forallb Unicode.allowed (Unicode.of_string s) = all_chars allowed_char s.
Proof.
  induction s as [|c s IH]; [reflexivity|].
  cbn [Unicode.of_string list_ascii_of_string map forallb all_chars] in *.
  now rewrite allowed_of_ascii, <- IH.
Qed.

Lemma length_of_string s : length (Unicode.of_string s) = String.length s.
Proof.
  induction s as [|c s IH]; [reflexivity|].
  cbn [Unicode.of_string list_ascii_of_string map length String.length] in *.
  now rewrite <- IH.
Qed.

(** On a string of code points below 256, [validate_expression] as
    defined first is [validate_expression] on the text of the string. *)
Lemma validate_expression_of_string s n :
  Unicode.validate_expression (Unicode.of_string s) n
  = unicode_result (validate_expression s n).
Proof.
  rewrite unicode_validate_expression_decides, validate_expression_decides.
  rewrite length_of_string, forallb_of_string.
  destruct (_ >? _); [reflexivity|].
  destruct s as [|c s]; [reflexivity|].
  change (Unicode.of_string (String c s))
    with (N_of_ascii c :: Unicode.of_string s) at 1.
  cbv beta iota.
  now destruct (all_chars allowed_char (String c s)).
Qed.

(** C7, the claim as stated fails twice.  The empty expression has all of
    its (no) characters in the class and a length within any limit, yet
    it is rejected with [InvalidCharacters].  And the expression of the
    Arabic-Indic digits one and two around a plus sign has characters
    outside [0-9\s+\-*/().], yet it is accepted: [\d] matches every
    decimal digit. *)
Lemma C7_counterexample :
  (forallb Unicode.claimed [] = true
   /\ Z.of_nat (length (@nil N)) <= 10
   /\ Unicode.validate_expression [] 10 = Unicode.Raises (Unicode.InvalidCharacters []))
  /\ (Unicode.claimed 1633 = false
      /\ Unicode.validate_expression [1633; 43; 1634]%N 10 = Unicode.Returns true).
Proof.
  split; [split; [reflexivity | split; [cbn; lia | reflexivity]]|].
  split; vm_compute; reflexivity.
Qed.

(** C7, amended.  An expression longer than the limit is rejected with
    [ExpressionTooLong].  Within the limit, [validate_expression] returns
    true exactly for the expressions that are not empty and whose
    characters are all decimal digits, whitespace or one of
    [+ - * / ( ) .]; the empty expression and every expression with a
    character outside that class are rejected with [InvalidCharacters],
    which names the expression.  Parentheses need not balance. *)
Theorem C7_validate_expression (e : Unicode.text) (n : Z) :
  (Z.of_nat (length e) > n ->
     Unicode.validate_expression e n = Unicode.Raises (Unicode.ExpressionTooLong n))
  /\ (Z.of_nat (length e) <= n ->
      (Unicode.validate_expression e n = Unicode.Returns true
         <-> e <> [] /\ forallb Unicode.allowed e = true)
      /\ (e = [] \/ forallb Unicode.allowed e = false ->
          Unicode.validate_expression e n
          = Unicode.Raises (Unicode.InvalidCharacters e)))
  /\ Unicode.validate_expression (Unicode.of_string ")(*/") 4 = Unicode.Returns true.
Proof.
  rewrite unicode_validate_expression_decides.
  split; [|split].
  - intros Hlen. now rewrite (proj2 (Z.gtb_lt _ _)) by lia.
  - intros Hlen.
    assert ((Z.of_nat (length e) >? n) = false) as ->.
    { destruct (Z.gtb_spec (Z.of_nat (length e)) n); [lia | reflexivity]. }
    split.
    + destruct e as [|c s]; [split; [discriminate | intros [Hne _]; congruence]|].
      destruct (forallb Unicode.allowed (c :: s)).
      * split; [intros _; split; [discriminate | reflexivity] | reflexivity].
      * split; [discriminate | intros [_ Hf]; discriminate].
    + intros [-> | Hbad]; [reflexivity|].
      destruct e; [reflexivity|]. now rewrite Hbad.
  - vm_compute. reflexivity.
Qed.

Lemma C7_validate_expression_witness :
  Unicode.validate_expression (Unicode.of_string "10 + 5 * 3 - 8 / 2") 100
  = Unicode.Returns true
  /\ Unicode.validate_expression (Unicode.of_string "1+a") 100
     = Unicode.Raises (Unicode.InvalidCharacters (Unicode.of_string "1+a"))
  /\ Unicode.validate_expression (Unicode.of_string "12345") 4
     = Unicode.Raises (Unicode.ExpressionTooLong 4)
  /\ Unicode.validate_expression [65297; 8195; 43; 2407]%N 100 = Unicode.Returns true.
Proof.
  pose proof (C7_validate_expression (Unicode.of_string "10 + 5 * 3 - 8 / 2") 100)
    as (_ & H1 & _).
  pose proof (C7_validate_expression (Unicode.of_string "1+a") 100) as (_ & H2 & _).
  pose proof (C7_validate_expression (Unicode.of_string "12345") 4) as (H3 & _).
  pose proof (C7_validate_expression [65297; 8195; 43; 2407]%N 100) as (_ & H4 & _).
  split; [|split; [|split]].
  - apply H1; [vm_compute; discriminate|].
    split; [discriminate | vm_compute; reflexivity].
  - apply H2; [vm_compute; discriminate|]. right. vm_compute. reflexivity.
  - apply H3. vm_compute. reflexivity.
  - apply H4; [vm_compute; discriminate|].
    split; [discriminate | vm_compute; reflexivity].
Defined.

(* ===================================================================== *)
(** * Strings and the matcher: basic facts *)
(* ===================================================================== *)

Lemma app_nil_l (s : string) : "" +:+ s = s.
Proof. reflexivity. Qed.

Lemma app_cons (c : ascii) (s t : string) : String c s +:+ t = String c (s +:+ t).
Proof. reflexivity. Qed.

Ltac app_simpl := repeat first [rewrite app_nil_l | rewrite app_cons].

Lemma length_app (s t : string) :
  String.length (s +:+ t) = (String.length s + String.length t)%nat.
Proof. induction s as [|c s IH]; app_simpl; simpl; [reflexivity | now rewrite IH]. Qed.

Lemma app_assoc_str (s t u : string) : (s +:+ t) +:+ u = s +:+ (t +:+ u).
Proof. induction s as [|c s IH]; app_simpl; [reflexivity | now rewrite IH]. Qed.

Lemma app_empty_r (s : string) : s +:+ "" = s.
Proof. induction s as [|c s IH]; app_simpl; [reflexivity | now rewrite IH]. Qed.

Lemma take_drop (n : nat) (s : string) : str_take n s +:+ str_drop n s = s.
Proof.
  revert s. induction n; intros [|c s]; simpl; app_simpl; try reflexivity.
  now rewrite IHn.
Qed.

Lemma length_take (n : nat) (s : string) :
  (n <= String.length s)%nat -> String.length (str_take n s) = n.
Proof.
  revert s. induction n; intros [|c s]; simpl; intros Hn; try reflexivity; try lia.
  rewrite IHn; lia.
Qed.

Lemma app_eq_empty (p1 p2 : string) : "" = p1 +:+ p2 -> p2 = "".
Proof. destruct p1; app_simpl; [auto | discriminate]. Qed.

Lemma last_char_app prev p q :
  last_char prev (p +:+ q) = last_char (last_char prev p) q.
Proof. revert prev. induction p; intros prev; app_simpl; simpl; auto. Qed.

(** A match never runs past the end of the text. *)
Lemma greedy_le atom k :
  (forall prev s n, k prev s = Some n -> (n <= String.length s)%nat) ->
  forall s prev n, greedy atom k prev s = Some n -> (n <= String.length s)%nat.
Proof.
  intros Hk. induction s as [|c s IH]; intros prev n; cbn [greedy].
  - apply Hk.
  - destruct (atom_mem c atom); [|apply Hk].
    destruct (greedy atom k (Some c) s) eqn:E.
    + intros [= <-]. apply IH in E. simpl. lia.
    + apply Hk.
Qed.

Lemma match_here_le re :
  forall prev s n, match_here re prev s = Some n -> (n <= String.length s)%nat.
Proof.
  induction re as [|it re IH]; intros prev s n; cbn [match_here].
  - intros [= <-]. lia.
  - destruct it as [atom [] | | |].
    + destruct s as [|c s]; [discriminate|].
      destruct (atom_mem c atom); [|discriminate].
      destruct (match_here re (Some c) s) eqn:E; [|discriminate].
      intros [= <-]. apply IH in E. simpl. lia.
    + apply greedy_le, IH.
    + destruct s as [|c s]; [discriminate|].
      destruct (atom_mem c atom); [|discriminate].
      destruct (greedy atom (match_here re) (Some c) s) eqn:E; [|discriminate].
      intros [= <-]. apply greedy_le in E; [simpl; lia | apply IH].
    + destruct s as [|c s]; [apply IH|].
      destruct (atom_mem c atom); [|apply IH].
      destruct (match_here re (Some c) s) eqn:E; [|apply IH].
      intros [= <-]. apply IH in E. simpl. lia.
    + destruct (at_boundary prev s); [apply IH | discriminate].
    + destruct prev; [discriminate | apply IH].
    + destruct (at_line_end s); [apply IH | discriminate].
Qed.

(** What [re.search] finds: the text splits around the match, the pattern
    matches there, and it matches at no earlier position. *)
Lemma search_from_spec re :
  forall s prev p m q,
    search_from re prev s = Some (p, m, q) ->
    s = p +:+ m +:+ q
    /\ match_here re (last_char prev p) (m +:+ q) = Some (String.length m)
    /\ forall p1 p2, p = p1 +:+ p2 -> p2 <> "" ->
         match_here re (last_char prev p1) (p2 +:+ m +:+ q) = None.
Proof.
  induction s as [|c s IH]; intros prev p m q; cbn [search_from].
  - destruct (match_here re prev "") eqn:E; [|discriminate].
    intros [= <- <- <-]. pose proof (match_here_le _ _ _ _ E) as Hn.
    simpl in Hn. assert (n = O) as -> by lia. simpl. app_simpl.
    repeat split; auto.
    intros p1 p2 H1 H2. now apply app_eq_empty in H1.
  - destruct (match_here re prev (String c s)) eqn:E.
    + intros [= <- <- <-]. pose proof (match_here_le _ _ _ _ E) as Hn.
      rewrite take_drop, length_take by exact Hn. cbn [last_char]. app_simpl.
      repeat split; auto.
      intros p1 p2 H1 H2. now apply app_eq_empty in H1.
    + destruct (search_from re (Some c) s) as [[[p' m'] q']|] eqn:Es; [|discriminate].
      intros [= <- <- <-]. destruct (IH _ _ _ _ Es) as (Hs & Hm & Hleft).
      cbn [last_char]. app_simpl. repeat split; [congruence | exact Hm |].
      intros [|c1 p1] p2; app_simpl; cbn [last_char].
      * intros <- _. app_simpl. now rewrite <- Hs.
      * intros [= <- ->]. apply Hleft. reflexivity.
Qed.

Lemma re_search_spec re s p m q :
  re_search re s = Some (p, m, q) ->
  s = p +:+ m +:+ q
  /\ match_here re (last_char None p) (m +:+ q) = Some (String.length m)
  /\ forall p1 p2, p = p1 +:+ p2 -> p2 <> "" ->
       match_here re (last_char None p1) (p2 +:+ m +:+ q) = None.
Proof. apply search_from_spec. Qed.

(* ===================================================================== *)
(** * Properties of [reduce_expression] *)
(* ===================================================================== *)

Lemma reduce_expression_parentheses e a b op result a_str b_str result_str pattern re t :
  float_to_str a = Ok a_str -> float_to_str b = Ok b_str ->
  float_to_str result = Ok result_str ->
  contains "(" e && contains ")" e = true ->
  parentheses_pattern a b op = Ok pattern -> re_compile pattern = Ok re ->
  re_search re e = Some t ->
  reduce_expression e a b op result = Ok (re_sub re result_str e).
Proof.
  intros Ha Hb Hr Hp Hpat Hre Hs. unfold reduce_expression.
  rewrite Ha, Hb, Hr. cbn [mbind outcome_bind].
  rewrite Hp, Hpat. cbn [mbind outcome_bind]. rewrite Hre. cbn [mbind outcome_bind].
  rewrite Hs. reflexivity.
Qed.

Lemma reduce_expression_bare e a b op result a_str b_str result_str pattern re :
  float_to_str a = Ok a_str -> float_to_str b = Ok b_str ->
  float_to_str result = Ok result_str ->
  parentheses_rule_silent e a b op ->
  standard_pattern a b op = Ok pattern -> re_compile pattern = Ok re ->
  reduce_expression e a b op result =
    if String.eqb (re_sub re result_str e) e
    then re' ← re_compile (op_pattern a_str b_str op); Ok (re_sub re' result_str e)
    else Ok (re_sub re result_str e).
Proof.
  intros Ha Hb Hr Hsilent Hpat Hre. unfold reduce_expression.
  rewrite Ha, Hb, Hr. cbn [mbind outcome_bind].
  assert ((if contains "(" e && contains ")" e
           then pattern0 ← parentheses_pattern a b op;
                re0 ← re_compile pattern0;
                match re_search re0 e with
                | Some _ => Ok (Some (re_sub re0 result_str e))
                | None => Ok None
                end
           else Ok None) = Ok (None : option string)) as ->.
  { destruct Hsilent as [-> | (pp & rp & -> & Hc & Hs)]; [reflexivity|].
    cbn [mbind outcome_bind]. rewrite Hc. cbn [mbind outcome_bind]. rewrite Hs.
    now destruct (_ && _). }
  cbn [mbind outcome_bind]. rewrite Hpat. cbn [mbind outcome_bind].
  rewrite Hre. reflexivity.
Qed.

(** C8.  The rules of [reduce_expression], first match first.
    (1) When the expression has both parentheses and the parenthesized
    pattern matches, the matched group, parentheses included, is replaced
    by the rendered result and returned, whatever bare occurrences there
    are.  Otherwise, with the bare pattern: (2) its leftmost match is
    replaced; (3) when that leaves the expression unchanged, the leftmost
    match of the looser pattern is replaced; (4) when no pattern matches,
    the expression is returned unchanged.  In ["5 + 3 * (5 + 3)"] the
    group wins over the bare occurrence before it. *)
Theorem C8_reduce_expression_rules (e : string) (a b : Number) (op : string)
    (result : Number) (a_str b_str result_str : string) :
  float_to_str a = Ok a_str -> float_to_str b = Ok b_str ->
  float_to_str result = Ok result_str ->
  (forall pattern re pre mid post,
      contains "(" e && contains ")" e = true ->
      parentheses_pattern a b op = Ok pattern -> re_compile pattern = Ok re ->
      re_search re e = Some (pre, mid, post) ->
      e = pre +:+ mid +:+ post
      /\ reduce_expression e a b op result = Ok (pre +:+ result_str +:+ post))
  /\ (forall pattern re,
      parentheses_rule_silent e a b op ->
      standard_pattern a b op = Ok pattern -> re_compile pattern = Ok re ->
      (forall pre mid post,
          re_search re e = Some (pre, mid, post) ->
          e = pre +:+ mid +:+ post
          /\ (forall p1 p2, pre = p1 +:+ p2 -> p2 <> "" ->
                match_here re (last_char None p1) (p2 +:+ mid +:+ post) = None)
          /\ (pre +:+ result_str +:+ post <> e ->
              reduce_expression e a b op result = Ok (pre +:+ result_str +:+ post)))
      /\ (forall re',
          re_sub re result_str e = e ->
          re_compile (op_pattern a_str b_str op) = Ok re' ->
          (forall pre mid post,
              re_search re' e = Some (pre, mid, post) ->
              reduce_expression e a b op result = Ok (pre +:+ result_str +:+ post))
          /\ (re_search re' e = None ->
              reduce_expression e a b op result = Ok e)))
  /\ reduce_expression "5 + 3 * (5 + 3)" (PyInt 5) (PyInt 3) "+" (PyInt 8)
     = Ok "5 + 3 * 8".
Proof.
  intros Ha Hb Hr. split; [|split; [|reflexivity]].
  - intros pattern re pre mid post Hp Hpat Hre Hs.
    split; [apply (re_search_spec _ _ _ _ _ Hs)|].
    rewrite (reduce_expression_parentheses _ _ _ _ _ _ _ _ _ _ _ Ha Hb Hr Hp Hpat Hre Hs).
    unfold re_sub. now rewrite Hs.
  - intros pattern re Hsilent Hpat Hre.
    pose proof (reduce_expression_bare _ _ _ _ _ _ _ _ _ _ Ha Hb Hr Hsilent Hpat Hre) as Hred.
    split.
    + intros pre mid post Hs.
      destruct (re_search_spec _ _ _ _ _ Hs) as (He & _ & Hleft).
      split; [exact He|]. split; [exact Hleft|].
      intros Hne. rewrite Hred. unfold re_sub. rewrite Hs.
      now rewrite (proj2 (String.eqb_neq _ _) Hne).
    + intros re' Hsame Hre'. rewrite Hred, Hsame, String.eqb_refl, Hre'.
      cbn [mbind outcome_bind]. unfold re_sub.
      split; [intros pre mid post ->; reflexivity | intros ->; reflexivity].
Qed.

Lemma C8_reduce_expression_rules_witness :
  reduce_expression "2 * (3 + 4)" (PyInt 3) (PyInt 4) "+" (PyInt 7) = Ok "2 * 7"
  /\ reduce_expression "10 + 5 * 3 - 8 / 2" (PyInt 5) (PyInt 3) "*" (PyInt 15)
     = Ok "10 + 15 - 8 / 2"
  /\ reduce_expression "3 - -2" (PyInt 3) (PyInt (-2)) "-" (PyInt 5) = Ok "5"
  /\ reduce_expression "5 + 5" (PyInt 2) (PyInt 3) "+" (PyInt 5) = Ok "5 + 5".
Proof.
  split.
  { destruct (C8_reduce_expression_rules "2 * (3 + 4)" (PyInt 3) (PyInt 4) "+" (PyInt 7)
                "3" "4" "7" eq_refl eq_refl eq_refl) as (H1 & _).
    destruct (H1 "\(\s*\b3\b\s*\+\s*\b4\b\s*\)"
                 [Chars [Chr "("] Once; Chars [Space] ZeroOrMore; WordBoundary;
                  Chars [Chr "3"] Once; WordBoundary; Chars [Space] ZeroOrMore;
                  Chars [Chr "+"] Once; Chars [Space] ZeroOrMore; WordBoundary;
                  Chars [Chr "4"] Once; WordBoundary; Chars [Space] ZeroOrMore;
                  Chars [Chr ")"] Once]
                 "2 * " "(3 + 4)" "" eq_refl eq_refl eq_refl eq_refl) as [_ H].
    exact H. }
  split.
  { destruct (C8_reduce_expression_rules "10 + 5 * 3 - 8 / 2" (PyInt 5) (PyInt 3) "*"
                (PyInt 15) "5" "3" "15" eq_refl eq_refl eq_refl) as (_ & H2 & _).
    destruct (H2 "\b5\b\s*\*\s*\b3\b"
                 [WordBoundary; Chars [Chr "5"] Once; WordBoundary;
                  Chars [Space] ZeroOrMore; Chars [Chr "*"] Once;
                  Chars [Space] ZeroOrMore; WordBoundary; Chars [Chr "3"] Once;
                  WordBoundary]
                 (or_introl eq_refl) eq_refl eq_refl) as [H _].
    destruct (H "10 + " "5 * 3" " - 8 / 2" eq_refl) as (_ & _ & H').
    apply H'. discriminate. }
  split.
  { destruct (C8_reduce_expression_rules "3 - -2" (PyInt 3) (PyInt (-2)) "-"
                (PyInt 5) "3" "-2" "5" eq_refl eq_refl eq_refl) as (_ & H2 & _).
    destruct (H2 "\b3\b\s*\-\s*\b-2\b"
                 [WordBoundary; Chars [Chr "3"] Once; WordBoundary;
                  Chars [Space] ZeroOrMore; Chars [Chr "-"] Once;
                  Chars [Space] ZeroOrMore; WordBoundary; Chars [Chr "-"] Once;
                  Chars [Chr "2"] Once; WordBoundary]
                 (or_introl eq_refl) eq_refl eq_refl) as [_ H].
    destruct (H [Chars [Chr "3"] Once; Chars [Space] ZeroOrMore; Chars [Chr "-"] Once;
                 Chars [Space] ZeroOrMore; Chars [Chr "-"] Once; Chars [Chr "2"] Once]
                eq_refl eq_refl) as [H' _].
    exact (H' "" "3 - -2" "" eq_refl). }
  { destruct (C8_reduce_expression_rules "5 + 5" (PyInt 2) (PyInt 3) "+"
                (PyInt 5) "2" "3" "5" eq_refl eq_refl eq_refl) as (_ & H2 & _).
    destruct (H2 "\b2\b\s*\+\s*\b3\b"
                 [WordBoundary; Chars [Chr "2"] Once; WordBoundary;
                  Chars [Space] ZeroOrMore; Chars [Chr "+"] Once;
                  Chars [Space] ZeroOrMore; WordBoundary; Chars [Chr "3"] Once;
                  WordBoundary]
                 (or_introl eq_refl) eq_refl eq_refl) as [_ H].
    destruct (H [Chars [Chr "2"] Once; Chars [Space] ZeroOrMore; Chars [Chr "+"] Once;
                 Chars [Space] ZeroOrMore; Chars [Chr "3"] Once]
                eq_refl eq_refl) as [_ H'].
    exact (H' eq_refl). }
Defined.

(* ===================================================================== *)
(** * Compiling the patterns of [reduce_expression] *)
(* ===================================================================== *)

Lemma pread_app (s t : string) :
  forall st, pread st (s +:+ t) =
             match pread st s with Some st' => pread st' t | None => None end.
Proof.
  induction s as [|c s IH]; intros st; app_simpl; cbn [pread]; [reflexivity|].
  destruct (pstep st c); [apply IH | reflexivity].
Qed.

Lemma pstep_int_char st c :
  mode st = PNormal -> int_char c = true ->
  pstep st c = Some (push (Chars [Chr c] Once) true st).
Proof.
  intros Hm Hc. unfold pstep. rewrite Hm.
  destruct c as [[] [] [] [] [] [] [] []]; try discriminate Hc; reflexivity.
Qed.

Lemma pread_int_chars s :
  forall st, mode st = PNormal -> all_chars int_char s = true ->
  exists st', pread st s = Some st' /\ mode st' = PNormal
              /\ items_rev st' = (rev (literals s) ++ items_rev st)%list.
Proof.
  induction s as [|c s IH]; intros st Hm Hall; simpl in Hall; cbn [pread literals].
  - exists st. auto.
  - apply andb_prop in Hall as [Hc Hs].
    rewrite (pstep_int_char _ _ Hm Hc).
    destruct (IH (push (Chars [Chr c] Once) true st) eq_refl Hs) as (st' & Hr & Hm' & Hi).
    exists st'. repeat split; auto. rewrite Hi. simpl. now rewrite <- app_assoc.
Qed.

(** [str(z)] is made of digits and a minus sign. *)
Lemma uint_chars d : all_chars int_char (NilEmpty.string_of_uint d) = true.
Proof. induction d; simpl; auto. Qed.

Lemma str_of_int_chars z : all_chars int_char (str_of_int z) = true.
Proof.
  unfold str_of_int, NilZero.string_of_int.
  destruct (Z.to_int z) as [d|d]; unfold NilZero.string_of_uint;
    destruct d; simpl; auto using uint_chars.
Qed.

(** One fixed piece of a pattern, read in normal mode. *)
Lemma pread_piece piece st its rep :
  mode st = PNormal ->
  (forall l r, pread {| mode := PNormal; items_rev := l; repeatable := r |} piece
               = Some {| mode := PNormal; items_rev := (its ++ l)%list;
                         repeatable := rep |}) ->
  exists st', pread st piece = Some st' /\ mode st' = PNormal
              /\ items_rev st' = (its ++ items_rev st)%list.
Proof.
  destruct st as [m l r]. simpl. intros -> H. rewrite H. eauto.
Qed.

Lemma re_escape_operator op :
  is_operator op = true ->
  re_escape (String op "") = String "\" (String op "")
  \/ re_escape (String op "") = String op "".
Proof.
  destruct op as [[] [] [] [] [] [] [] []]; try discriminate; intros _; auto.
Qed.

(** The bare pattern read from any state in normal mode. *)
Lemma pread_standard (a b : Z) (op : ascii) st :
  is_operator op = true -> mode st = PNormal ->
  exists st',
    pread st ("\b" +:+ str_of_int a +:+ "\b" +:+ "\s*" +:+ re_escape (String op "")
              +:+ "\s*" +:+ "\b" +:+ str_of_int b +:+ "\b") = Some st'
    /\ mode st' = PNormal
    /\ items_rev st' = (rev (standard_regex a b op) ++ items_rev st)%list.
Proof.
  intros Hop Hm.
  rewrite pread_app.
  destruct (pread_piece "\b" st [WordBoundary] false Hm ltac:(intros; reflexivity))
    as (s1 & -> & Hm1 & Hi1).
  rewrite pread_app.
  destruct (pread_int_chars _ s1 Hm1 (str_of_int_chars a)) as (s2 & -> & Hm2 & Hi2).
  rewrite pread_app.
  destruct (pread_piece "\b" s2 [WordBoundary] false Hm2 ltac:(intros; reflexivity))
    as (s3 & -> & Hm3 & Hi3).
  rewrite pread_app.
  destruct (pread_piece "\s*" s3 [Chars [Space] ZeroOrMore] false Hm3 ltac:(intros; reflexivity))
    as (s4 & -> & Hm4 & Hi4).
  rewrite pread_app.
  assert (exists s5, pread s4 (re_escape (String op "")) = Some s5 /\ mode s5 = PNormal
                     /\ items_rev s5 = (Chars [Chr op] Once :: items_rev s4)%list)
    as (s5 & -> & Hm5 & Hi5).
  { destruct s4 as [m l r]. simpl in Hm4. subst m.
    destruct op as [[] [] [] [] [] [] [] []]; try discriminate Hop;
      eexists; (split; [reflexivity | split; reflexivity]). }
  rewrite pread_app.
  destruct (pread_piece "\s*" s5 [Chars [Space] ZeroOrMore] false Hm5 ltac:(intros; reflexivity))
    as (s6 & -> & Hm6 & Hi6).
  rewrite pread_app.
  destruct (pread_piece "\b" s6 [WordBoundary] false Hm6 ltac:(intros; reflexivity))
    as (s7 & -> & Hm7 & Hi7).
  rewrite pread_app.
  destruct (pread_int_chars _ s7 Hm7 (str_of_int_chars b)) as (s8 & -> & Hm8 & Hi8).
  destruct (pread_piece "\b" s8 [WordBoundary] false Hm8 ltac:(intros; reflexivity))
    as (s9 & -> & Hm9 & Hi9).
  exists s9. split; [reflexivity|]. split; [exact Hm9|].
  rewrite Hi9, Hi8, Hi7, Hi6, Hi5, Hi4, Hi3, Hi2, Hi1.
  unfold standard_regex. rewrite !rev_app_distr. simpl. rewrite <- !app_assoc. reflexivity.
Qed.

Lemma compile_of_pread pattern st :
  pread pstart pattern = Some st -> mode st = PNormal ->
  re_compile pattern = Ok (rev (items_rev st)).
Proof. unfold re_compile. intros -> Hm. destruct st as [m l r]. simpl in *. now subst m. Qed.

Lemma standard_pattern_int a b op :
  standard_pattern (PyInt a) (PyInt b) (String op "")
  = Ok ("\b" +:+ str_of_int a +:+ "\b" +:+ "\s*" +:+ re_escape (String op "")
        +:+ "\s*" +:+ "\b" +:+ str_of_int b +:+ "\b").
Proof.
  unfold standard_pattern, create_number_pattern. cbn [mbind outcome_bind].
  now rewrite !app_assoc_str.
Qed.

Lemma parentheses_pattern_int a b op :
  parentheses_pattern (PyInt a) (PyInt b) (String op "")
  = Ok ("\(\s*" +:+ ("\b" +:+ str_of_int a +:+ "\b" +:+ "\s*" +:+ re_escape (String op "")
        +:+ "\s*" +:+ "\b" +:+ str_of_int b +:+ "\b") +:+ "\s*\)").
Proof.
  unfold parentheses_pattern, create_number_pattern. cbn [mbind outcome_bind].
  now rewrite !app_assoc_str.
Qed.

(** The bare pattern of two ints compiles to [standard_regex]. *)
Lemma standard_pattern_compiled a b op pattern :
  is_operator op = true ->
  standard_pattern (PyInt a) (PyInt b) (String op "") = Ok pattern ->
  re_compile pattern = Ok (standard_regex a b op).
Proof.
  intros Hop. rewrite standard_pattern_int. intros Heq.
  match type of Heq with Ok ?p = _ => replace pattern with p by congruence end.
  clear Heq.
  destruct (pread_standard a b op pstart Hop eq_refl) as (st & Hr & Hm & Hi).
  rewrite (compile_of_pread _ _ Hr Hm), Hi.
  change (items_rev pstart) with (@nil item).
  now rewrite app_nil_r, rev_involutive.
Qed.

(** The parenthesized pattern of two ints compiles to [parentheses_regex]. *)
Lemma parentheses_pattern_compiled a b op pattern :
  is_operator op = true ->
  parentheses_pattern (PyInt a) (PyInt b) (String op "") = Ok pattern ->
  re_compile pattern = Ok (parentheses_regex a b op).
Proof.
  intros Hop. rewrite parentheses_pattern_int. intros Heq.
  match type of Heq with Ok ?p = _ => replace pattern with p by congruence end.
  clear Heq.
  unfold re_compile. rewrite pread_app.
  change (pread pstart "\(\s*")
    with (Some {| mode := PNormal;
                  items_rev := [Chars [Space] ZeroOrMore; Chars [Chr "("] Once];
                  repeatable := false |}).
  cbv beta iota. rewrite pread_app.
  destruct (pread_standard a b op
              {| mode := PNormal;
                 items_rev := [Chars [Space] ZeroOrMore; Chars [Chr "("] Once];
                 repeatable := false |} Hop eq_refl) as (st & -> & Hm & Hi).
  destruct (pread_piece "\s*\)" st [Chars [Chr ")"] Once; Chars [Space] ZeroOrMore]
              true Hm ltac:(intros; reflexivity)) as (st' & -> & Hm' & Hi').
  destruct st' as [m l r]. cbn [mode items_rev] in Hm', Hi'. subst m l. rewrite Hi.
  cbn [items_rev]. unfold parentheses_regex.
  rewrite !rev_app_distr, rev_involutive. cbn [rev app].
  rewrite <- ?app_assoc. reflexivity.
Qed.

(* ===================================================================== *)
(** * Where an anchored match can begin and end *)
(* ===================================================================== *)

Lemma take_app_length (m q : string) : str_take (String.length m) (m +:+ q) = m.
Proof. induction m as [|c m IH]; app_simpl; simpl; [now destruct q | now rewrite IH]. Qed.

Lemma drop_app_length (m q : string) : str_drop (String.length m) (m +:+ q) = q.
Proof. induction m as [|c m IH]; app_simpl; simpl; [now destruct q | exact IH]. Qed.

(** A property of the place where a match ends is inherited from the last
    items of the pattern. *)
Lemma greedy_post atom k (Q : option ascii -> string -> Prop) :
  (forall prev s n, k prev s = Some n ->
                    Q (last_char prev (str_take n s)) (str_drop n s)) ->
  forall s prev n, greedy atom k prev s = Some n ->
                   Q (last_char prev (str_take n s)) (str_drop n s).
Proof.
  intros Hk. induction s as [|c s IH]; intros prev n; cbn [greedy].
  - apply Hk.
  - destruct (atom_mem c atom); [|apply Hk].
    destruct (greedy atom k (Some c) s) eqn:E; [|apply Hk].
    intros [= <-]. apply IH in E. exact E.
Qed.

Lemma match_here_post re re2 (Q : option ascii -> string -> Prop) :
  (forall prev s n, match_here re2 prev s = Some n ->
                    Q (last_char prev (str_take n s)) (str_drop n s)) ->
  forall prev s n, match_here (re ++ re2)%list prev s = Some n ->
                   Q (last_char prev (str_take n s)) (str_drop n s).
Proof.
  intros Hk. induction re as [|it re IH]; intros prev s n; [apply Hk|].
  rewrite <- app_comm_cons. cbn [match_here].
  destruct it as [atom [] | | |].
  - destruct s as [|c s]; [discriminate|].
    destruct (atom_mem c atom); [|discriminate].
    destruct (match_here (re ++ re2)%list (Some c) s) eqn:E; [|discriminate].
    intros [= <-]. apply IH in E. exact E.
  - apply greedy_post, IH.
  - destruct s as [|c s]; [discriminate|].
    destruct (atom_mem c atom); [|discriminate].
    destruct (greedy atom (match_here (re ++ re2)%list) (Some c) s) eqn:E; [|discriminate].
    intros [= <-]. apply (greedy_post _ _ Q IH) in E. exact E.
  - destruct s as [|c s]; [apply IH|].
    destruct (atom_mem c atom); [|apply IH].
    destruct (match_here (re ++ re2)%list (Some c) s) eqn:E; [|apply IH].
    intros [= <-]. apply IH in E. exact E.
  - destruct (at_boundary prev s); [apply IH | discriminate].
  - destruct prev; [discriminate | apply IH].
  - destruct (at_line_end s); [apply IH | discriminate].
Qed.

(** A pattern that ends with [\b] ends its matches at a word boundary. *)
Lemma match_ends_at_boundary re prev m q :
  match_here (re ++ [WordBoundary])%list prev (m +:+ q) = Some (String.length m) ->
  at_boundary (last_char prev m) q = true.
Proof.
  intros H.
  apply (match_here_post re [WordBoundary]
           (fun p s => at_boundary p s = true)) in H.
  - now rewrite take_app_length, drop_app_length in H.
  - clear. intros prev s n. cbn [match_here].
    destruct (at_boundary prev s) eqn:E; [|discriminate].
    intros [= <-]. exact E.
Qed.

(** A pattern that ends with the literal [c] ends its matches after a
    [c]. *)
Lemma match_ends_with_char re c prev m q :
  match_here (re ++ [Chars [Chr c] Once])%list prev (m +:+ q) = Some (String.length m) ->
  last_char prev m = Some c.
Proof.
  intros H.
  apply (match_here_post re [Chars [Chr c] Once]
           (fun p s => p = Some c)) in H.
  - now rewrite take_app_length in H.
  - clear. intros prev s n. cbn [match_here].
    destruct s as [|x s]; [discriminate|].
    unfold atom_mem. cbn [existsb cset_mem]. rewrite orb_false_r.
    destruct (Ascii.eqb x c) eqn:E; [|discriminate].
    intros [= <-]. apply Ascii.eqb_eq in E. now subst.
Qed.

(** Both neighbours of a position strictly inside a token of word
    characters are word characters. *)
Lemma inside_token_at_start tok :
  forall pre rest r prev,
    pre +:+ rest = tok +:+ r -> all_chars is_word tok = true ->
    (0 < String.length pre < String.length tok)%nat ->
    word_at (last_char prev pre) = true /\ word_at (first_char rest) = true.
Proof.
  induction tok as [|c tok IH]; intros pre rest r prev Heq Hall Hlen; simpl in Hlen.
  - lia.
  - destruct pre as [|c' pre]; simpl in Hlen; [lia|].
    revert Heq. app_simpl. intros [= -> Heq].
    simpl in Hall. apply andb_prop in Hall as [Hc Htok].
    destruct pre as [|c2 pre].
    + revert Heq. app_simpl. intros ->. cbn [last_char word_at].
      split; [exact Hc|].
      destruct tok as [|c3 tok]; simpl in *; [lia|].
      app_simpl. cbn [first_char word_at]. now apply andb_prop in Htok as [? _].
    + cbn [last_char]. apply (IH (String c2 pre) rest r (Some c) Heq Htok).
      simpl in *. lia.
Qed.

Lemma inside_token l :
  forall pre rest tok r prev,
    pre +:+ rest = l +:+ tok +:+ r -> all_chars is_word tok = true ->
    strictly_inside (String.length pre) (String.length l) (String.length tok) ->
    word_at (last_char prev pre) = true /\ word_at (first_char rest) = true.
Proof.
  unfold strictly_inside.
  induction l as [|c l IH]; intros pre rest tok r prev Heq Hall Hlen; simpl in Hlen.
  - revert Heq. app_simpl. intros Heq.
    apply (inside_token_at_start tok pre rest r prev Heq Hall). lia.
  - destruct pre as [|c' pre]; simpl in Hlen; [lia|].
    revert Heq. app_simpl. intros [= -> Heq]. cbn [last_char].
    apply (IH pre rest tok r (Some c) Heq Hall). lia.
Qed.

(** No word boundary lies strictly inside a token of word characters. *)
Lemma no_boundary_inside_token l pre rest tok r prev :
  pre +:+ rest = l +:+ tok +:+ r -> all_chars is_word tok = true ->
  at_boundary (last_char prev pre) rest = true ->
  ~ strictly_inside (String.length pre) (String.length l) (String.length tok).
Proof.
  intros Heq Hall Hb Hin.
  destruct (inside_token l pre rest tok r prev Heq Hall Hin) as [H1 H2].
  unfold at_boundary in Hb. rewrite H1, H2 in Hb. discriminate.
Qed.

(* ===================================================================== *)
(** * The shape of the anchored patterns, for any operands *)
(* ===================================================================== *)

(** The first item of a pattern stays the first item. *)
Lemma pstep_rests_on first st c st' :
  rests_on first st -> pstep st c = Some st' -> rests_on first st'.
Proof.
  intros (l & Hl & Hrep). unfold pstep, quantify, push.
  assert (forall it rep,
            rests_on first {| mode := PNormal; items_rev := it :: items_rev st;
                              repeatable := rep |}) as Hpush.
  { intros it rep. exists (it :: l). cbn. rewrite Hl. split; [reflexivity | discriminate]. }
  assert (forall m,
            rests_on first {| mode := m; items_rev := items_rev st;
                              repeatable := repeatable st |}) as Hkeep.
  { intros m. exists l. cbn. auto. }
  assert (forall q st',
            match repeatable st, items_rev st with
            | true, Chars atom Once :: rest =>
                Some {| mode := PNormal; items_rev := Chars atom q :: rest;
                        repeatable := false |}
            | _, _ => None
            end = Some st' -> rests_on first st') as Hq.
  { intros q s'. destruct (repeatable st) eqn:Hr; [|discriminate].
    destruct l as [|x l]; [now specialize (Hrep eq_refl)|].
    rewrite Hl. cbn [app]. destruct x as [atom [] | | |]; try discriminate.
    intros [= <-]. exists (Chars atom q :: l). cbn. split; [reflexivity | discriminate]. }
  destruct (mode st) as [| |ms|ms].
  - repeat match goal with
           | |- (if ?b then _ else _) = Some _ -> _ => destruct b
           end; try discriminate; try (intros [= <-]; auto); try apply Hq.
  - repeat match goal with
           | |- (if ?b then _ else _) = Some _ -> _ => destruct b
           end; try discriminate; intros [= <-]; auto.
  - repeat match goal with
           | |- (if ?b then _ else _) = Some _ -> _ => destruct b
           | |- match ?m with _ => _ end = Some _ -> _ => destruct m
           end; try discriminate; intros [= <-]; auto.
  - repeat match goal with
           | |- (if ?b then _ else _) = Some _ -> _ => destruct b
           end; try discriminate; intros [= <-]; auto.
Qed.

Lemma pread_rests_on first s :
  forall st st', rests_on first st -> pread st s = Some st' -> rests_on first st'.
Proof.
  induction s as [|c s IH]; intros st st' Hst; cbn [pread].
  - now intros [= <-].
  - destruct (pstep st c) as [st1|] eqn:H1; [|discriminate].
    apply IH. now apply (pstep_rests_on _ _ _ _ Hst H1).
Qed.

(** The reader is in the mode after a backslash only right after one. *)
Lemma last_char_nonempty prev prev' s : s <> "" -> last_char prev s = last_char prev' s.
Proof. destruct s; [congruence | reflexivity]. Qed.

Lemma pstep_escape st c st' :
  pstep st c = Some st' -> mode st' = PEscape -> c = "\"%char.
Proof.
  unfold pstep, quantify, push.
  destruct (mode st) as [| |ms|ms].
  - destruct (Ascii.eqb_spec c "\"); [auto|].
    repeat match goal with
           | |- (if ?b then _ else _) = Some _ -> _ => destruct b
           | |- match ?m with _ => _ end = Some _ -> _ => destruct m
           end; try discriminate; intros [= <-]; discriminate.
  - repeat match goal with
           | |- (if ?b then _ else _) = Some _ -> _ => destruct b
           end; try discriminate; intros [= <-]; discriminate.
  - repeat match goal with
           | |- (if ?b then _ else _) = Some _ -> _ => destruct b
           | |- match ?m with _ => _ end = Some _ -> _ => destruct m
           end; try discriminate; intros [= <-]; discriminate.
  - repeat match goal with
           | |- (if ?b then _ else _) = Some _ -> _ => destruct b
           end; try discriminate; intros [= <-]; discriminate.
Qed.

Lemma pread_escape s :
  forall st st',
    pread st s = Some st' -> mode st' = PEscape ->
    s = "" \/ last_char None s = Some "\"%char.
Proof.
  induction s as [|c s IH]; intros st st'; [auto|]. cbn [pread].
  destruct (pstep st c) as [st1|] eqn:H1; [|discriminate].
  intros Hr Hm. right. destruct (IH _ _ Hr Hm) as [-> | Hl].
  - cbn in Hr. injection Hr as <-. cbn. f_equal. exact (pstep_escape _ _ _ H1 Hm).
  - cbn [last_char]. rewrite <- Hl. apply last_char_nonempty.
    intros ->. discriminate.
Qed.

(** What [re_compile] gives back, unfolded. *)
Lemma re_compile_inv pattern re :
  re_compile pattern = Ok re ->
  exists st, pread pstart pattern = Some st /\ mode st = PNormal /\ re = rev (items_rev st).
Proof.
  unfold re_compile. destruct (pread pstart pattern) as [[m its rep]|]; [|discriminate].
  destruct m; try discriminate. intros [= <-]. eexists. cbn. auto.
Qed.

(** A pattern that starts with [\b] compiles to items that start with
    the word boundary. *)
Lemma compile_starts_with_boundary rest re :
  re_compile ("\b" +:+ rest) = Ok re -> exists r, re = WordBoundary :: r.
Proof.
  intros (st & Hp & _ & ->)%re_compile_inv.
  rewrite pread_app in Hp. cbn [pread pstep pstart mode] in Hp. cbn in Hp.
  apply (pread_rests_on WordBoundary) in Hp as (l & -> & _).
  - exists (rev l). now rewrite rev_app_distr.
  - exists []. cbn. auto.
Qed.

(** A pattern that starts with [\(\s] compiles to items that start with
    the left parenthesis. *)
Lemma compile_starts_with_parenthesis rest re :
  re_compile ("\(\s" +:+ rest) = Ok re -> exists r, re = Chars [Chr "("] Once :: r.
Proof.
  intros (st & Hp & _ & ->)%re_compile_inv.
  rewrite pread_app in Hp. cbn [pread pstep pstart mode] in Hp. cbn in Hp.
  apply (pread_rests_on (Chars [Chr "("] Once)) in Hp as (l & -> & _).
  - exists (rev l). now rewrite rev_app_distr.
  - exists [Chars [Space] Once]. cbn. split; [reflexivity | discriminate].
Qed.

(** A pattern that ends with [\b], not after a backslash, compiles to
    items that end with the word boundary; with [\)] in its place, to
    items that end with the right parenthesis. *)
Lemma compile_ends_with_boundary q re :
  re_compile (q +:+ "\b") = Ok re -> last_char None q <> Some "\"%char ->
  exists r, re = (r ++ [WordBoundary])%list.
Proof.
  intros (st & Hp & Hm & ->)%re_compile_inv Hlast.
  rewrite pread_app in Hp.
  destruct (pread pstart q) as [stq|] eqn:Hq; [|discriminate].
  destruct stq as [[| |ms|ms] its rep].
  - cbn in Hp. injection Hp as <-. cbn. eauto.
  - destruct (pread_escape _ _ _ Hq eq_refl) as [-> | Hl]; [|congruence].
    cbn in Hq. discriminate.
  - cbn in Hp. discriminate.
  - cbn in Hp. injection Hp as <-. discriminate.
Qed.

Lemma compile_ends_with_parenthesis q re :
  re_compile (q +:+ "\)") = Ok re -> last_char None q <> Some "\"%char ->
  exists r, re = (r ++ [Chars [Chr ")"] Once])%list.
Proof.
  intros (st & Hp & Hm & ->)%re_compile_inv Hlast.
  rewrite pread_app in Hp.
  destruct (pread pstart q) as [stq|] eqn:Hq; [|discriminate].
  destruct stq as [[| |ms|ms] its rep].
  - cbn in Hp. injection Hp as <-. cbn. eauto.
  - destruct (pread_escape _ _ _ Hq eq_refl) as [-> | Hl]; [|congruence].
    cbn in Hq. discriminate.
  - cbn in Hp. injection Hp as <-. discriminate.
  - cbn in Hp. injection Hp as <-. discriminate.
Qed.

(** ** The characters of a formatted number *)

Lemma all_chars_app p s t : all_chars p (s +:+ t) = all_chars p s && all_chars p t.
Proof.
  induction s as [|c s IH]; app_simpl; [reflexivity|].
  cbn [all_chars]. now rewrite IH, andb_assoc.
Qed.

Lemma all_chars_impl (p q : ascii -> bool) s :
  (forall c, p c = true -> q c = true) -> all_chars p s = true -> all_chars q s = true.
Proof.
  intros Hpq. induction s as [|c s IH]; [reflexivity|]. cbn [all_chars].
  intros [Hc Hs]%andb_prop. now rewrite (Hpq _ Hc), IH.
Qed.

Lemma all_chars_take p n :
  forall s, all_chars p s = true -> all_chars p (str_take n s) = true.
Proof.
  induction n as [|n IH]; intros [|c s]; try reflexivity. cbn [str_take all_chars].
  intros [Hc Hs]%andb_prop. now rewrite Hc, IH.
Qed.

Lemma all_chars_drop p n :
  forall s, all_chars p s = true -> all_chars p (str_drop n s) = true.
Proof.
  induction n as [|n IH]; intros [|c s]; try easy. cbn [str_drop all_chars].
  intros [Hc Hs]%andb_prop. now apply IH.
Qed.

Lemma all_chars_rstrip_zeros p s :
  all_chars p s = true -> all_chars p (rstrip_zeros s) = true.
Proof.
  induction s as [|c s IH]; [reflexivity|]. cbn [rstrip_zeros all_chars].
  intros [Hc Hs]%andb_prop. specialize (IH Hs).
  destruct (rstrip_zeros s) as [|x r].
  - destruct (Ascii.eqb c "0"); [reflexivity|]. cbn [all_chars]. now rewrite Hc.
  - cbn [all_chars] in *. now rewrite Hc, IH.
Qed.

Lemma all_chars_lstrip p s : all_chars p s = true -> all_chars p (lstrip s) = true.
Proof.
  induction s as [|c s IH]; [reflexivity|]. cbn [lstrip]. intros Hs.
  destruct (is_space c); [|exact Hs].
  cbn [all_chars] in Hs. apply andb_prop in Hs as [_ Hs]. auto.
Qed.

Lemma all_chars_rstrip p s : all_chars p s = true -> all_chars p (rstrip s) = true.
Proof.
  induction s as [|c s IH]; [reflexivity|]. cbn [rstrip all_chars]. intros Hs.
  apply andb_prop in Hs as [Hc Hs]. specialize (IH Hs).
  destruct (rstrip s) as [|x r].
  - destruct (is_space c); [reflexivity|]. cbn [all_chars]. now rewrite Hc.
  - cbn [all_chars] in *. now rewrite Hc, IH.
Qed.

Lemma all_chars_strip p s : all_chars p s = true -> all_chars p (strip s) = true.
Proof. intros Hs. unfold strip. now apply all_chars_rstrip, all_chars_lstrip. Qed.

Lemma format_char_zeros n : all_chars format_char (zeros n) = true.
Proof. induction n as [|n IH]; [reflexivity|]. cbn [zeros all_chars]. now rewrite IH. Qed.

Lemma int_char_format_char c : int_char c = true -> format_char c = true.
Proof. destruct c as [[] [] [] [] [] [] [] []]; vm_compute; congruence. Qed.

Lemma format_char_str_of_int z : all_chars format_char (str_of_int z) = true.
Proof. apply (all_chars_impl int_char); [apply int_char_format_char | apply str_of_int_chars]. Qed.

Lemma format_char_mantissa ds :
  all_chars format_char ds = true -> all_chars format_char (mantissa_text ds) = true.
Proof.
  destruct ds as [|d [|d' rest]]; easy.
Qed.

Lemma format_char_exponent X : all_chars format_char (exponent_suffix X) = true.
Proof.
  unfold exponent_suffix. rewrite !all_chars_app.
  destruct (X <? 0), (String.length _ <? 2)%nat;
    rewrite ?all_chars_app, format_char_str_of_int; reflexivity.
Qed.

Lemma format_char_fraction num den :
  all_chars format_char (format_g_fraction num den) = true.
Proof.
  unfold format_g_fraction. destruct (to_digits 6 num den) as [q X].
  pose proof (format_char_str_of_int q) as Hq.
  destruct ((-4 <=? X) && (X <? 6)).
  - destruct (0 <=? X).
    + pose proof (all_chars_rstrip_zeros _ _
                    (all_chars_drop format_char (Z.to_nat (X + 1)) _ Hq)) as Hfp.
      destruct (rstrip_zeros (str_drop (Z.to_nat (X + 1)) (str_of_int q)));
        [now apply all_chars_take|].
      rewrite !all_chars_app, Hfp, (all_chars_take _ _ _ Hq). reflexivity.
    + rewrite !all_chars_app, format_char_zeros, (all_chars_rstrip_zeros _ _ Hq).
      reflexivity.
  - rewrite all_chars_app, format_char_exponent,
      (format_char_mantissa _ (all_chars_rstrip_zeros _ _ Hq)). reflexivity.
Qed.

(** [float_to_str] writes nothing but characters of formatted numbers. *)
Lemma format_char_float_to_str n s :
  float_to_str n = Ok s -> all_chars format_char s = true.
Proof.
  unfold float_to_str. destruct (to_float n) as [x|]; cbn [mbind outcome_bind];
    [|discriminate].
  intros [= <-]. apply all_chars_strip. unfold format_space_g.
  destruct x as [sg|sg| |sg m e]; try (destruct sg; reflexivity); [reflexivity|].
  destruct (float_fraction m e) as [num den].
  rewrite all_chars_app, format_char_fraction. now destruct sg.
Qed.

(** ** Where the pattern of a number ends *)

Lemma last_char_in p s c :
  all_chars p s = true -> last_char None s = Some c -> p c = true.
Proof.
  revert c. induction s as [|x s IH]; intros c; [discriminate|].
  cbn [all_chars last_char]. intros [Hx Hs]%andb_prop.
  destruct s as [|y s]; [now intros [= <-]|].
  intros Hl. apply (IH c Hs). rewrite <- Hl. now apply last_char_nonempty.
Qed.

(** The text [s.replace('.', '\.?')] ends with a backslash only if [s]
    does. *)
Lemma replace_point_last s :
  forall prev,
    prev <> Some "\"%char -> all_chars (fun c => negb (Ascii.eqb c "\")) s = true ->
    last_char prev (replace "." "\.?" s) <> Some "\"%char.
Proof.
  unfold replace. induction s as [|c s IH]; intros prev Hprev; [easy|].
  cbn [all_chars replace_from startswith]. intros [Hc Hs]%andb_prop.
  destruct (Ascii.eqb "." c).
  - cbn [String.length Nat.sub]. app_simpl. cbn [last_char andb].
    apply IH; [discriminate | exact Hs].
  - cbn [andb last_char]. apply IH; [|exact Hs].
    apply negb_true_iff, Ascii.eqb_neq in Hc. congruence.
Qed.

Lemma format_char_not_backslash c : format_char c = true -> negb (Ascii.eqb c "\") = true.
Proof. destruct c as [[] [] [] [] [] [] [] []]; vm_compute; congruence. Qed.

(** The pattern of a number: [\b], a text that does not end with a
    backslash, [\b]. *)
Lemma create_number_pattern_shape num p :
  create_number_pattern num = Ok p ->
  exists m, p = "\b" +:+ m +:+ "\b"
            /\ forall prev, prev <> Some "\"%char -> last_char prev m <> Some "\"%char.
Proof.
  unfold create_number_pattern. destruct num as [z|f].
  - intros [= <-]. exists (str_of_int z). split; [reflexivity|].
    intros prev Hprev. destruct (str_of_int z) as [|c s] eqn:Hz; [exact Hprev|].
    rewrite (last_char_nonempty prev None) by discriminate. intros Hl.
    pose proof (str_of_int_chars z) as Hall. rewrite Hz in Hall.
    apply (last_char_in _ _ _ Hall) in Hl. discriminate.
  - destruct (float_to_str (PyFloat f)) as [s|] eqn:Hs; cbn [mbind outcome_bind];
      [|discriminate].
    intros [= <-]. exists (replace "." "\.?" s). split; [reflexivity|].
    intros prev Hprev. apply replace_point_last; [exact Hprev|].
    apply (all_chars_impl format_char); [apply format_char_not_backslash|].
    exact (format_char_float_to_str _ _ Hs).
Qed.

(** ** The two anchored patterns, compiled *)

Lemma last_char_ends prev x c : last_char prev (x +:+ String c "") = Some c.
Proof. now rewrite last_char_app. Qed.

(** The bare pattern starts and ends with a word boundary. *)
Lemma standard_pattern_anchors a b op pattern re :
  standard_pattern a b op = Ok pattern -> re_compile pattern = Ok re ->
  (exists r, re = WordBoundary :: r) /\ (exists r, re = (r ++ [WordBoundary])%list).
Proof.
  unfold standard_pattern.
  destruct (create_number_pattern a) as [pa|] eqn:Ha; cbn [mbind outcome_bind];
    [|discriminate].
  destruct (create_number_pattern b) as [pb|] eqn:Hb; cbn [mbind outcome_bind];
    [|discriminate].
  apply create_number_pattern_shape in Ha as (ma & -> & _).
  apply create_number_pattern_shape in Hb as (mb & -> & Hlast).
  intros [= <-] Hre. split.
  - rewrite !app_assoc_str in Hre. exact (compile_starts_with_boundary _ _ Hre).
  - assert (("\b" +:+ ma +:+ "\b") +:+ "\s*" +:+ re_escape op +:+ "\s*" +:+ "\b" +:+ mb +:+ "\b"
            = ((("\b" +:+ ma +:+ "\b") +:+ "\s*" +:+ re_escape op +:+ "\s*" +:+ "\")
               +:+ "b" +:+ mb) +:+ "\b") as Hsplit
      by (rewrite !app_assoc_str; now app_simpl).
    rewrite Hsplit in Hre. apply (compile_ends_with_boundary _ _ Hre).
    rewrite !last_char_app. cbn [last_char]. apply Hlast. discriminate.
Qed.

(** The parenthesized pattern starts with the left parenthesis and ends
    with the right one. *)
Lemma parentheses_pattern_anchors a b op pattern re :
  parentheses_pattern a b op = Ok pattern -> re_compile pattern = Ok re ->
  (exists r, re = Chars [Chr "("] Once :: r)
  /\ (exists r, re = (r ++ [Chars [Chr ")"] Once])%list).
Proof.
  unfold parentheses_pattern.
  destruct (create_number_pattern a) as [pa|]; cbn [mbind outcome_bind]; [|discriminate].
  destruct (create_number_pattern b) as [pb|]; cbn [mbind outcome_bind]; [|discriminate].
  intros [= <-] Hre. split.
  - assert ("\(" +:+ "\s*" +:+ pa +:+ "\s*" +:+ re_escape op +:+ "\s*" +:+ pb +:+ "\s*" +:+ "\)"
            = "\(\s" +:+ "*" +:+ pa +:+ "\s*" +:+ re_escape op +:+ "\s*" +:+ pb +:+ "\s*"
              +:+ "\)") as Hsplit by now app_simpl.
    rewrite Hsplit in Hre. exact (compile_starts_with_parenthesis _ _ Hre).
  - assert ("\(" +:+ "\s*" +:+ pa +:+ "\s*" +:+ re_escape op +:+ "\s*" +:+ pb +:+ "\s*" +:+ "\)"
            = (("\(" +:+ "\s*" +:+ pa +:+ "\s*" +:+ re_escape op +:+ "\s*" +:+ pb +:+ "\s")
               +:+ "*") +:+ "\)") as Hsplit
      by (rewrite !app_assoc_str; now app_simpl).
    rewrite Hsplit in Hre. apply (compile_ends_with_parenthesis _ _ Hre).
    rewrite last_char_ends. discriminate.
Qed.

(** A match that starts and ends at word boundaries begins and ends
    outside every token of word characters. *)
Lemma boundary_span_keeps_tokens re e pre mid post :
  (exists r, re = WordBoundary :: r) -> (exists r, re = (r ++ [WordBoundary])%list) ->
  re_search re e = Some (pre, mid, post) ->
  forall l tok r, e = l +:+ tok +:+ r -> all_chars is_word tok = true ->
    ~ strictly_inside (String.length pre) (String.length l) (String.length tok)
    /\ ~ strictly_inside (String.length pre + String.length mid)
                         (String.length l) (String.length tok).
Proof.
  intros [r1 H1] [r2 H2] Hs l tok r He Hall.
  destruct (re_search_spec _ _ _ _ _ Hs) as (Hsplit & Hm & _).
  split.
  - apply (no_boundary_inside_token l pre (mid +:+ post) tok r None);
      [congruence | exact Hall |].
    rewrite H1 in Hm. cbn [match_here] in Hm.
    destruct (at_boundary (last_char None pre) (mid +:+ post)); [reflexivity | discriminate].
  - rewrite <- length_app.
    apply (no_boundary_inside_token l (pre +:+ mid) post tok r None);
      [rewrite app_assoc_str; congruence | exact Hall |].
    rewrite last_char_app. rewrite H2 in Hm.
    apply match_ends_at_boundary in Hm. exact Hm.
Qed.

(** So does a match that starts with [(] and ends with [)]. *)
Lemma parentheses_span_keeps_word_tokens re e pre mid post :
  (exists r, re = Chars [Chr "("] Once :: r) ->
  (exists r, re = (r ++ [Chars [Chr ")"] Once])%list) ->
  re_search re e = Some (pre, mid, post) ->
  forall l tok r, e = l +:+ tok +:+ r -> all_chars is_word tok = true ->
    ~ strictly_inside (String.length pre) (String.length l) (String.length tok)
    /\ ~ strictly_inside (String.length pre + String.length mid)
                         (String.length l) (String.length tok).
Proof.
  intros [r1 H1] [r2 H2] Hs l tok r He Hall.
  destruct (re_search_spec _ _ _ _ _ Hs) as (Hsplit & Hm & _).
  split.
  - intros Hin.
    destruct (inside_token l pre (mid +:+ post) tok r None) as [_ Hw];
      [congruence | exact Hall | exact Hin |].
    rewrite H1 in Hm. cbn [match_here] in Hm.
    destruct (mid +:+ post) as [|c s]; [discriminate|].
    unfold atom_mem in Hm. cbn [existsb cset_mem] in Hm. rewrite orb_false_r in Hm.
    destruct (Ascii.eqb c "(") eqn:E; [|discriminate].
    apply Ascii.eqb_eq in E. subst c. discriminate.
  - intros Hin. rewrite <- length_app in Hin.
    destruct (inside_token l (pre +:+ mid) post tok r None) as [Hw _];
      [rewrite app_assoc_str; congruence | exact Hall | exact Hin |].
    rewrite last_char_app in Hw. rewrite H2 in Hm.
    apply match_ends_with_char in Hm. rewrite Hm in Hw. discriminate.
Qed.

(** C9, the claim as stated fails, in two ways.  In
    ["5 * 3 * -2 + 5 * -2"] the steps [(5, 3, '*', 15)] and
    [(5, -2, '*', -10)] denote the sub-expressions at positions 0 and 14.
    The first step substitutes the token [15]; the second, whose bare
    pattern cannot match a negative operand, is carried out by the looser
    pattern, which rewrites the [5] of that token.  In
    ["5 / 2 * 3 + 5 * 3"] the step [(5, 2, '/', 2.5)] substitutes the
    token [2.5]; the step [(5, 3, '*', 15)], which denotes the
    sub-expression at the end, is carried out by the bare pattern, whose
    word boundary holds between the point and the [5] of that token, and
    rewrites it. *)
Lemma C9_counterexample :
  ("5 * 3 * -2 + 5 * -2" = "" +:+ "5 * 3" +:+ " * -2 + " +:+ "5 * -2"
   /\ reduce_expression "5 * 3 * -2 + 5 * -2" (PyInt 5) (PyInt 3) "*" (PyInt 15)
      = Ok ("" +:+ "15" +:+ " * -2 + " +:+ "5 * -2")
   /\ reduce_expression "15 * -2 + 5 * -2" (PyInt 5) (PyInt (-2)) "*" (PyInt (-10))
      = Ok ("1" +:+ "-10" +:+ " + 5 * -2"))
  /\ ("5 / 2 * 3 + 5 * 3" = "" +:+ "5 / 2" +:+ " * 3 + " +:+ "5 * 3"
      /\ reduce_expression "5 / 2 * 3 + 5 * 3" (PyInt 5) (PyInt 2) "/"
           (PyFloat (binary_normalize prec emax 5 (-1) false))
         = Ok ("" +:+ "2.5" +:+ " * 3 + " +:+ "5 * 3")
      /\ standard_pattern (PyInt 5) (PyInt 3) "*" = Ok "\b5\b\s*\*\s*\b3\b"
      /\ (re ← re_compile "\b5\b\s*\*\s*\b3\b"; Ok (re_search re "2.5 * 3 + 5 * 3"))
         = Ok (Some ("2.", "5 * 3", " + 5 * 3"))
      /\ reduce_expression "2.5 * 3 + 5 * 3" (PyInt 5) (PyInt 3) "*" (PyInt 15)
         = Ok ("2." +:+ "15" +:+ " + 5 * 3")).
Proof.
  split; [repeat split|].
  split; [reflexivity|]. split; [vm_compute; reflexivity|].
  split; [reflexivity|]. split; vm_compute; reflexivity.
Qed.

(** C9, amended.  Whatever the operands and the operator of a step, the
    span that the parenthesized rule or the bare rule of
    [reduce_expression] replaces neither begins nor ends strictly inside
    a token of word characters (letters, digits, underscore) of the
    expression: a token of that kind substituted by an earlier step, such
    as [15], is left whole by these two rules.  (A token with a point, a
    sign or an exponent is more than one token of word characters, and
    the looser third rule gives no such guarantee.) *)
Theorem C9_anchored_rules_keep_tokens (e : string) (a b : Number) (op : string)
    (result : Number) (a_str b_str result_str pattern : string) (re : regex)
    (pre mid post : string) :
  float_to_str a = Ok a_str -> float_to_str b = Ok b_str ->
  float_to_str result = Ok result_str ->
  re_compile pattern = Ok re ->
  re_search re e = Some (pre, mid, post) ->
  (contains "(" e && contains ")" e = true
   /\ parentheses_pattern a b op = Ok pattern)
  \/ (parentheses_rule_silent e a b op
      /\ standard_pattern a b op = Ok pattern
      /\ pre +:+ result_str +:+ post <> e) ->
  e = pre +:+ mid +:+ post
  /\ reduce_expression e a b op result = Ok (pre +:+ result_str +:+ post)
  /\ forall l tok r,
       e = l +:+ tok +:+ r -> all_chars is_word tok = true ->
       ~ strictly_inside (String.length pre) (String.length l) (String.length tok)
       /\ ~ strictly_inside (String.length pre + String.length mid)
                            (String.length l) (String.length tok).
Proof.
  intros Ha Hb Hr Hre Hs [[Hp Hpat] | (Hsilent & Hpat & Hne)].
  - split; [apply (re_search_spec _ _ _ _ _ Hs)|]. split.
    + rewrite (reduce_expression_parentheses _ _ _ _ _ _ _ _ _ _ _
                 Ha Hb Hr Hp Hpat Hre Hs).
      unfold re_sub. now rewrite Hs.
    + destruct (parentheses_pattern_anchors _ _ _ _ _ Hpat Hre) as [H1 H2].
      exact (parentheses_span_keeps_word_tokens _ _ _ _ _ H1 H2 Hs).
  - split; [apply (re_search_spec _ _ _ _ _ Hs)|]. split.
    + rewrite (reduce_expression_bare _ _ _ _ _ _ _ _ _ _
                 Ha Hb Hr Hsilent Hpat Hre).
      unfold re_sub. rewrite Hs.
      now rewrite (proj2 (String.eqb_neq _ _) Hne).
    + destruct (standard_pattern_anchors _ _ _ _ _ Hpat Hre) as [H1 H2].
      exact (boundary_span_keeps_tokens _ _ _ _ _ H1 H2 Hs).
Qed.

Lemma C9_anchored_rules_keep_tokens_witness :
  reduce_expression "15 - 2.5 + 5 - 2.5" (PyInt 5)
    (PyFloat (binary_normalize prec emax 5 (-1) false)) "-"
    (PyFloat (binary_normalize prec emax 5 (-1) false))
  = Ok ("15 - 2.5 + " +:+ "2.5" +:+ "")
  /\ ~ strictly_inside (String.length "15 - 2.5 + ") 0 (String.length "15")
  /\ ~ strictly_inside (String.length "15 - 2.5 + " + String.length "5 - 2.5")
                       0 (String.length "15").
Proof.
  assert (Ha : float_to_str (PyInt 5) = Ok "5") by (vm_compute; reflexivity).
  assert (Hb : float_to_str (PyFloat (binary_normalize prec emax 5 (-1) false)) = Ok "2.5")
    by (vm_compute; reflexivity).
  assert (Hp : contains "(" "15 - 2.5 + 5 - 2.5" && contains ")" "15 - 2.5 + 5 - 2.5" = false)
    by (vm_compute; reflexivity).
  assert (Hpat : standard_pattern (PyInt 5)
                   (PyFloat (binary_normalize prec emax 5 (-1) false)) "-"
                 = Ok "\b5\b\s*\-\s*\b2\.?5\b") by (vm_compute; reflexivity).
  assert (Hre : re_compile "\b5\b\s*\-\s*\b2\.?5\b"
                = Ok [WordBoundary; Chars [Chr "5"] Once; WordBoundary;
                      Chars [Space] ZeroOrMore; Chars [Chr "-"] Once;
                      Chars [Space] ZeroOrMore; WordBoundary; Chars [Chr "2"] Once;
                      Chars [Chr "."] ZeroOrOne; Chars [Chr "5"] Once; WordBoundary])
    by (vm_compute; reflexivity).
  assert (Hs : re_search [WordBoundary; Chars [Chr "5"] Once; WordBoundary;
                          Chars [Space] ZeroOrMore; Chars [Chr "-"] Once;
                          Chars [Space] ZeroOrMore; WordBoundary; Chars [Chr "2"] Once;
                          Chars [Chr "."] ZeroOrOne; Chars [Chr "5"] Once; WordBoundary]
                 "15 - 2.5 + 5 - 2.5"
               = Some ("15 - 2.5 + ", "5 - 2.5", "")) by (vm_compute; reflexivity).
  assert (Hne : "15 - 2.5 + " +:+ "2.5" +:+ "" <> "15 - 2.5 + 5 - 2.5")
    by (vm_compute; discriminate).
  destruct (C9_anchored_rules_keep_tokens "15 - 2.5 + 5 - 2.5" (PyInt 5)
              (PyFloat (binary_normalize prec emax 5 (-1) false)) "-"
              (PyFloat (binary_normalize prec emax 5 (-1) false))
              "5" "2.5" "2.5" _ _ "15 - 2.5 + " "5 - 2.5" "" Ha Hb Hb Hre Hs
              (or_intror (conj (or_introl Hp) (conj Hpat Hne))))
    as (_ & Hred & Hkeep).
  split; [exact Hred|].
  apply (Hkeep "" "15" " - 2.5 + 5 - 2.5"); vm_compute; reflexivity.
Defined.

(* ===================================================================== *)
(** * Reading tool calls *)
(* ===================================================================== *)

Section ToolCalls.
Context `{PyRuntime}.

Lemma extract_call_dict a b op fin fix_op_key :
  extract (VDict (call_dict a b op fin)) fix_op_key
  = Ok {| arg_a := VNum a; arg_b := VNum b; arg_op := VStr op;
          arg_is_final_step := fin |}.
Proof.
  unfold extract, call_dict, getitem. destruct fix_op_key; simplify_map_eq; reflexivity.
Qed.

(** A payload that decodes to a well-formed [dict] with a valid operator
    passes the first pass. *)
Lemma parse_arguments_decoded tool_call a b op fin :
  decodes tool_call a b op fin -> valid_op op = true ->
  parse_arguments (arguments (function tool_call))
  = Ok {| arg_a := VNum a; arg_b := VNum b; arg_op := VStr op;
          arg_is_final_step := fin |}.
Proof.
  unfold decodes, parse_arguments, first_pass, valid_op. intros -> Hop.
  cbn [mbind outcome_bind]. rewrite extract_call_dict.
  cbn [mbind outcome_bind arg_op]. now rewrite Hop.
Qed.

(** The Stepwise loop over the tool calls of a turn returns the
    [is_final_step] of the last call it read, or its initial value when
    there is no call. *)
Lemma stepwise_loop_final tool_calls :
  forall results fin steps r,
    StepwiseCalculatorAgent.tool_calls_loop tool_calls results fin steps = Ok r ->
    match last tool_calls with
    | None => is_final_step r = fin
    | Some tool_call =>
        exists args, parse_arguments (arguments (function tool_call)) = Ok args
                     /\ is_final_step r = arg_is_final_step args
    end.
Proof.
  induction tool_calls as [|tc rest IH]; intros results fin steps r;
    cbn [StepwiseCalculatorAgent.tool_calls_loop].
  - intros [= <-]. reflexivity.
  - destruct (parse_arguments (arguments (function tc))) as [args|] eqn:Hargs;
      cbn [mbind outcome_bind]; [|discriminate].
    destruct (typed_arguments args) as [[[a b] op]|]; cbn [mbind outcome_bind];
      [|discriminate].
    destruct (calculate a b op) as [result|]; cbn [mbind outcome_bind]; [|discriminate].
    intros Hloop. apply IH in Hloop.
    destruct rest as [|tc' rest']; [cbn in *; eauto|].
    change (last (tc :: tc' :: rest')) with (last (tc' :: rest')).
    destruct (last (tc' :: rest')) eqn:El; [exact Hloop | now apply last_None in El].
Qed.

Lemma reducing_loop_final tool_calls :
  forall e results fin steps r,
    ReducingCalculatorAgent.tool_calls_loop tool_calls e results fin steps = Ok r ->
    match last tool_calls with
    | None => is_final_step r = fin
    | Some tool_call =>
        exists args, parse_arguments (arguments (function tool_call)) = Ok args
                     /\ is_final_step r = arg_is_final_step args
    end.
Proof.
  induction tool_calls as [|tc rest IH]; intros e results fin steps r;
    cbn [ReducingCalculatorAgent.tool_calls_loop].
  - intros [= <-]. reflexivity.
  - destruct (parse_arguments (arguments (function tc))) as [args|] eqn:Hargs;
      cbn [mbind outcome_bind]; [|discriminate].
    destruct (typed_arguments args) as [[[a b] op]|]; cbn [mbind outcome_bind];
      [|discriminate].
    destruct (calculate a b op) as [result|]; cbn [mbind outcome_bind]; [|discriminate].
    destruct (reduce_expression e a b op result) as [e'|]; cbn [mbind outcome_bind];
      [|discriminate].
    intros Hloop. apply IH in Hloop.
    destruct rest as [|tc' rest']; [cbn in *; eauto|].
    change (last (tc :: tc' :: rest')) with (last (tc' :: rest')).
    destruct (last (tc' :: rest')) eqn:El; [exact Hloop | now apply last_None in El].
Qed.

(** One well-formed tool call, Stepwise. *)
Lemma stepwise_single_call tool_call a b op fin result :
  decodes tool_call a b op fin -> valid_op op = true ->
  calculate a b op = Ok result ->
  StepwiseCalculatorAgent._process_tool_calls [tool_call]
  = Ok {| results := [(result, id tool_call)]; is_final_step := fin;
          call_steps := [render_step a op b result];
          remaining_expression := "" |}.
Proof.
  intros Hd Hop Hc.
  unfold StepwiseCalculatorAgent._process_tool_calls.
  cbn [StepwiseCalculatorAgent.tool_calls_loop].
  rewrite (parse_arguments_decoded _ _ _ _ _ Hd Hop).
  cbn [mbind outcome_bind typed_arguments arg_op arg_a arg_b arg_is_final_step].
  rewrite Hc. reflexivity.
Qed.

(** One well-formed tool call, Reducing. *)
Lemma reducing_single_call tool_call e e' a b op fin result :
  decodes tool_call a b op fin -> valid_op op = true ->
  calculate a b op = Ok result ->
  reduce_expression e a b op result = Ok e' ->
  ReducingCalculatorAgent._process_tool_calls [tool_call] e
  = Ok {| results := [(result, id tool_call)]; is_final_step := fin;
          call_steps := [render_step a op b result];
          remaining_expression := e' |}.
Proof.
  intros Hd Hop Hc Hr.
  unfold ReducingCalculatorAgent._process_tool_calls.
  cbn [ReducingCalculatorAgent.tool_calls_loop].
  rewrite (parse_arguments_decoded _ _ _ _ _ Hd Hop).
  cbn [mbind outcome_bind typed_arguments arg_op arg_a arg_b arg_is_final_step].
  rewrite Hc. cbn [mbind outcome_bind]. rewrite Hr. reflexivity.
Qed.

End ToolCalls.

(** C5.  When a turn's tool calls are all processed, the [is_final_step]
    of the [ToolCallResult] is the [is_final_step] argument of the last
    tool call of the turn, in both agents.  It is not the disjunction over
    the calls: a turn whose first call says [true] and whose last call says
    [false] yields [false]. *)
Theorem C5_last_call_decides `{PyRuntime} (tool_calls : list ToolCall) :
  (forall r, StepwiseCalculatorAgent._process_tool_calls tool_calls = Ok r ->
     exists tool_call args,
       last tool_calls = Some tool_call
       /\ parse_arguments (arguments (function tool_call)) = Ok args
       /\ is_final_step r = arg_is_final_step args)
  /\ (forall e r, ReducingCalculatorAgent._process_tool_calls tool_calls e = Ok r ->
     exists tool_call args,
       last tool_calls = Some tool_call
       /\ parse_arguments (arguments (function tool_call)) = Ok args
       /\ is_final_step r = arg_is_final_step args).
Proof.
  split.
  - intros r. unfold StepwiseCalculatorAgent._process_tool_calls.
    destruct tool_calls as [|tc rest] eqn:E; [discriminate|]. rewrite <- E.
    intros Hloop. apply stepwise_loop_final in Hloop.
    destruct (last tool_calls) as [tc'|] eqn:El.
    + destruct Hloop as (args & ? & ?). eauto.
    + subst. apply last_None in El. discriminate.
  - intros e r. unfold ReducingCalculatorAgent._process_tool_calls.
    destruct tool_calls as [|tc rest] eqn:E; [discriminate|]. rewrite <- E.
    intros Hloop. apply reducing_loop_final in Hloop.
    destruct (last tool_calls) as [tc'|] eqn:El.
    + destruct Hloop as (args & ? & ?). eauto.
    + subst. apply last_None in El. discriminate.
Qed.

Lemma C5_last_call_decides_witness :
  (exists r, StepwiseCalculatorAgent._process_tool_calls final_then_not = Ok r
             /\ is_final_step r = VBool false)
  /\ (exists r, ReducingCalculatorAgent._process_tool_calls final_then_not "1 + 2 + 3 * 4" = Ok r
                /\ is_final_step r = VBool false
                /\ remaining_expression r = "3 + 12").
Proof.
  pose proof (@C5_last_call_decides reference_runtime final_then_not) as [Hs Hr].
  split.
  - destruct (StepwiseCalculatorAgent._process_tool_calls final_then_not) as [r|] eqn:E;
      [|vm_compute in E; discriminate].
    exists r. split; [reflexivity|].
    destruct (Hs r eq_refl) as (tc & args & Hl & Hp & ->).
    injection Hl as <-. vm_compute in Hp. injection Hp as <-. reflexivity.
  - destruct (ReducingCalculatorAgent._process_tool_calls final_then_not "1 + 2 + 3 * 4")
      as [r|] eqn:E; [|vm_compute in E; discriminate].
    exists r. split; [reflexivity|]. split.
    + destruct (Hr _ r E) as (tc & args & Hl & Hp & ->).
      injection Hl as <-. vm_compute in Hp. injection Hp as <-. reflexivity.
    + vm_compute in E. injection E as <-. reflexivity.
Defined.

(* ===================================================================== *)
(** * The agent loops *)
(* ===================================================================== *)

Section Loops.
Context `{PyRuntime} {C : Type} `{LLMClient C}.

(** One turn of the Stepwise loop. *)
Lemma stepwise_turn fuel self llm_client e prompt_msg steps i sent response llm' result :
  run_prompt llm_client prompt_msg = (response, llm') ->
  StepwiseCalculatorAgent._process_tool_calls (tool_calls response) = Ok result ->
  StepwiseCalculatorAgent.run_loop (S fuel) self llm_client e prompt_msg steps i sent
  = if truthy (is_final_step result) then
      Some {| returned := match last (results result) with
                          | Some (r, _) => Ok (VNum r)
                          | None => Raise IndexError
                          end;
              client := llm'; prompts := (sent ++ [prompt_msg])%list |}
    else if i >=? StepwiseCalculatorAgent.max_llm_calls self then
      Some {| returned := Raise (MaxCallsExceeded (StepwiseCalculatorAgent.max_llm_calls self));
              client := llm'; prompts := (sent ++ [prompt_msg])%list |}
    else
      StepwiseCalculatorAgent.run_loop fuel self llm' e
        (StepwiseCalculatorAgent._prepare_next_prompt self prompt_msg e
           (steps ++ call_steps result)%list (results result) response)
        (steps ++ call_steps result)%list (i + 1) (sent ++ [prompt_msg])%list.
Proof.
  intros Hp Ht. cbn [StepwiseCalculatorAgent.run_loop]. rewrite Hp, Ht. reflexivity.
Qed.

(** One turn of the Reducing loop. *)
Lemma reducing_turn fuel self llm_client e steps i previous sent response llm' result :
  run_prompt llm_client (ReducingCalculatorAgent._prepare_next_prompt self e)
    = (response, llm') ->
  ReducingCalculatorAgent._process_tool_calls (tool_calls response) e = Ok result ->
  ReducingCalculatorAgent.run_loop (S fuel) self llm_client e steps i previous sent
  = let prompt_msg := ReducingCalculatorAgent._prepare_next_prompt self e in
    let e' := remaining_expression result in
    let returning r :=
      Some {| returned := r; client := llm'; prompts := (sent ++ [prompt_msg])%list |} in
    match (if bool_decide (e' ∈ previous)
           then ReducingCalculatorAgent.single_operator_fallback e' else None) with
    | Some final_result => returning (Ok final_result)
    | None =>
        if truthy (is_final_step result) then
          returning match last (results result) with
                    | Some (r, _) => Ok (VNum r)
                    | None => Raise IndexError
                    end
        else if i >=? ReducingCalculatorAgent.max_llm_calls self then
          returning match py_eval e' with
                    | Ok final_result => Ok final_result
                    | Raise x =>
                        if is_python_exception x
                        then Raise (MaxCallsExceeded (ReducingCalculatorAgent.max_llm_calls self))
                        else Raise x
                    end
        else
          ReducingCalculatorAgent.run_loop fuel self llm' e'
            (steps ++ call_steps result)%list (i + 1) (previous ∪ {[ e' ]})
            (sent ++ [prompt_msg])%list
    end.
Proof.
  intros Hp Ht. cbn [ReducingCalculatorAgent.run_loop]. rewrite Hp, Ht. reflexivity.
Qed.

(** The loops never run out of fuel: a turn that does not return has
    [i < max_llm_calls]. *)
Lemma stepwise_run_loop_total fuel :
  forall self llm_client e prompt_msg steps i sent,
    (Z.to_nat (StepwiseCalculatorAgent.max_llm_calls self - i) < fuel)%nat ->
    is_Some (StepwiseCalculatorAgent.run_loop fuel self llm_client e prompt_msg steps i sent).
Proof.
  induction fuel as [|fuel IH]; intros self llm_client e prompt_msg steps i sent Hfuel;
    [lia|].
  cbn [StepwiseCalculatorAgent.run_loop].
  destruct (run_prompt llm_client prompt_msg) as [response llm'].
  destruct (StepwiseCalculatorAgent._process_tool_calls (tool_calls response)); [|eauto].
  destruct (truthy _); [eauto|].
  destruct (i >=? _) eqn:Hi; [eauto|].
  apply IH. rewrite Z.geb_leb in Hi. apply Z.leb_gt in Hi. lia.
Qed.

Lemma reducing_run_loop_total fuel :
  forall self llm_client e steps i previous sent,
    (Z.to_nat (ReducingCalculatorAgent.max_llm_calls self - i) < fuel)%nat ->
    is_Some (ReducingCalculatorAgent.run_loop fuel self llm_client e steps i previous sent).
Proof.
  induction fuel as [|fuel IH]; intros self llm_client e steps i previous sent Hfuel;
    [lia|].
  cbn [ReducingCalculatorAgent.run_loop].
  destruct (run_prompt llm_client _) as [response llm'].
  destruct (ReducingCalculatorAgent._process_tool_calls _ _); [|eauto].
  destruct (if bool_decide _ then _ else _); [eauto|].
  destruct (truthy _); [eauto|].
  destruct (i >=? _) eqn:Hi; [eauto|].
  apply IH. rewrite Z.geb_leb in Hi. apply Z.leb_gt in Hi. lia.
Qed.

(** [run] always comes back: with a value or with an exception. *)
Lemma stepwise_run_total self llm_client e :
  is_Some (StepwiseCalculatorAgent.run self llm_client e).
Proof.
  unfold StepwiseCalculatorAgent.run.
  destruct (validate_expression _ _); [|eauto].
  apply stepwise_run_loop_total. lia.
Qed.

Lemma reducing_run_total self llm_client e :
  is_Some (ReducingCalculatorAgent.run self llm_client e).
Proof.
  unfold ReducingCalculatorAgent.run.
  destruct (validate_expression _ _); [|eauto].
  apply reducing_run_loop_total. lia.
Qed.

End Loops.

(* ===================================================================== *)
(** * The round trip *)
(* ===================================================================== *)

Lemma validate_round_trip n :
  18 <= n -> validate_expression "10 + 5 * 3 - 8 / 2" n = Ok true.
Proof.
  intros Hn. rewrite validate_expression_decides.
  change (Z.of_nat (String.length "10 + 5 * 3 - 8 / 2")) with 18.
  destruct (18 >? n) eqn:E; [apply Z.gtb_lt in E; lia | reflexivity].
Qed.

Lemma geb_false i n : i < n -> (i >=? n) = false.
Proof. intros Hi. destruct (i >=? n) eqn:E; [apply Z.geb_le in E; lia | reflexivity]. Qed.

(** C1.  On ["10 + 5 * 3 - 8 / 2"], with a stub that emits the calls
    [(5,3,'*',false)], [(8,2,'/',false)], [(10,15,'+',false)],
    [(25,4,'-',true)] one per turn, a runtime that decodes their payloads,
    a length limit that admits the expression and a budget of at least
    four calls, both agents return 21 after exactly four model calls. *)
Theorem C1_round_trip `{PyRuntime}
    (scfg : StepwiseCalculatorAgent.config) (rcfg : ReducingCalculatorAgent.config) :
  decodes_round_trip ->
  18 <= StepwiseCalculatorAgent.max_expression_length scfg ->
  4 <= StepwiseCalculatorAgent.max_llm_calls scfg ->
  18 <= ReducingCalculatorAgent.max_expression_length rcfg ->
  4 <= ReducingCalculatorAgent.max_llm_calls rcfg ->
  (exists r, StepwiseCalculatorAgent.run scfg round_trip_script "10 + 5 * 3 - 8 / 2" = Some r
             /\ returned r = Ok (VNum (PyInt 21))
             /\ client r = [] /\ length (prompts r) = 4%nat)
  /\ (exists r, ReducingCalculatorAgent.run rcfg round_trip_script "10 + 5 * 3 - 8 / 2" = Some r
                /\ returned r = Ok (VNum (PyInt 21))
                /\ client r = [] /\ length (prompts r) = 4%nat).
Proof.
  intros (Hd1 & Hd2 & Hd3 & Hd4) Hslen Hscalls Hrlen Hrcalls. split.
  - unfold StepwiseCalculatorAgent.run. rewrite (validate_round_trip _ Hslen).
    destruct (Z.to_nat (StepwiseCalculatorAgent.max_llm_calls scfg))
      as [|[|[|fuel]]] eqn:Hfuel; try lia.
    erewrite stepwise_turn;
      [| reflexivity
       | eapply stepwise_single_call; [exact Hd1 | reflexivity | vm_compute; reflexivity]].
    cbn [truthy is_final_step]. rewrite geb_false by lia.
    erewrite stepwise_turn;
      [| reflexivity
       | eapply stepwise_single_call; [exact Hd2 | reflexivity | vm_compute; reflexivity]].
    cbn [truthy is_final_step]. rewrite geb_false by lia.
    erewrite stepwise_turn;
      [| reflexivity
       | eapply stepwise_single_call; [exact Hd3 | reflexivity | vm_compute; reflexivity]].
    cbn [truthy is_final_step]. rewrite geb_false by lia.
    erewrite stepwise_turn;
      [| reflexivity
       | eapply stepwise_single_call; [exact Hd4 | reflexivity | vm_compute; reflexivity]].
    cbn [truthy is_final_step]. eexists. split; [reflexivity|].
    repeat split.
  - unfold ReducingCalculatorAgent.run. rewrite (validate_round_trip _ Hrlen).
    destruct (Z.to_nat (ReducingCalculatorAgent.max_llm_calls rcfg))
      as [|[|[|fuel]]] eqn:Hfuel; try lia.
    erewrite reducing_turn;
      [| reflexivity
       | eapply reducing_single_call;
           [exact Hd1 | reflexivity | vm_compute; reflexivity | vm_compute; reflexivity]].
    cbn zeta. cbn [truthy is_final_step remaining_expression].
    rewrite bool_decide_eq_false_2 by (vm_compute; set_solver).
    rewrite geb_false by lia.
    erewrite reducing_turn;
      [| reflexivity
       | eapply reducing_single_call;
           [exact Hd2 | reflexivity | vm_compute; reflexivity | vm_compute; reflexivity]].
    cbn zeta. cbn [truthy is_final_step remaining_expression].
    rewrite bool_decide_eq_false_2 by (vm_compute; set_solver).
    rewrite geb_false by lia.
    erewrite reducing_turn;
      [| reflexivity
       | eapply reducing_single_call;
           [exact Hd3 | reflexivity | vm_compute; reflexivity | vm_compute; reflexivity]].
    cbn zeta. cbn [truthy is_final_step remaining_expression].
    rewrite bool_decide_eq_false_2 by (vm_compute; set_solver).
    rewrite geb_false by lia.
    erewrite reducing_turn;
      [| reflexivity
       | eapply reducing_single_call;
           [exact Hd4 | reflexivity | vm_compute; reflexivity | vm_compute; reflexivity]].
    cbn zeta. cbn [truthy is_final_step remaining_expression].
    rewrite bool_decide_eq_false_2 by (vm_compute; set_solver).
    eexists. split; [reflexivity|]. repeat split.
Qed.

Lemma C1_round_trip_witness :
  (exists r, StepwiseCalculatorAgent.run stepwise_reference_config round_trip_script
               "10 + 5 * 3 - 8 / 2" = Some r
             /\ returned r = Ok (VNum (PyInt 21))
             /\ client r = [] /\ length (prompts r) = 4%nat)
  /\ (exists r, ReducingCalculatorAgent.run reducing_reference_config round_trip_script
                  "10 + 5 * 3 - 8 / 2" = Some r
                /\ returned r = Ok (VNum (PyInt 21))
                /\ client r = [] /\ length (prompts r) = 4%nat).
Proof.
  apply (@C1_round_trip reference_runtime).
  - repeat split; vm_compute; reflexivity.
  - vm_compute; discriminate.
  - vm_compute; discriminate.
  - vm_compute; discriminate.
  - vm_compute; discriminate.
Defined.

(* ===================================================================== *)
(** * The single-operator fallback *)
(* ===================================================================== *)

Lemma count_nonneg c s : 0 <= count c s.
Proof. induction s as [|x s IH]; simpl; [lia | destruct (Ascii.eqb x c); lia]. Qed.

Lemma count_app c s t : count c (s +:+ t) = count c s + count c t.
Proof. induction s as [|x s IH]; app_simpl; simpl; [reflexivity | rewrite IH; lia]. Qed.

Lemma count_zero_contains c s : count c s = 0 -> contains c s = false.
Proof.
  induction s as [|x s IH]; simpl; [reflexivity|].
  pose proof (count_nonneg c s). destruct (Ascii.eqb x c); simpl; [lia | auto].
Qed.

Lemma contains_app_char c l r : contains c (l +:+ String c r) = true.
Proof.
  induction l as [|x l IH]; app_simpl; simpl.
  - now rewrite Ascii.eqb_refl.
  - rewrite IH. apply orb_true_r.
Qed.

Lemma split_none c s : contains c s = false -> split c s = [s].
Proof.
  induction s as [|x s IH]; simpl; [reflexivity|].
  destruct (Ascii.eqb x c); simpl; [discriminate|].
  intros Hs. now rewrite (IH Hs).
Qed.

Lemma split_once c l r :
  contains c l = false -> contains c r = false ->
  split c (l +:+ String c r) = [l; r].
Proof.
  intros Hl Hr. induction l as [|x l IH]; app_simpl; simpl.
  - now rewrite Ascii.eqb_refl, (split_none _ _ Hr).
  - simpl in Hl. destruct (Ascii.eqb x c); simpl in Hl; [discriminate|].
    now rewrite (IH Hl).
Qed.

Lemma try_operator_direct op l r x y :
  is_operator op = true ->
  contains op l = false -> contains op r = false ->
  py_float (strip l) = Ok x -> py_float (strip r) = Ok y ->
  ReducingCalculatorAgent.try_operator op (l +:+ String op r)
  = Some (direct_value op x y).
Proof.
  intros Hop Hl Hr Hx Hy. unfold ReducingCalculatorAgent.try_operator.
  rewrite (split_once _ _ _ Hl Hr), Hx, Hy. unfold direct_value.
  destruct (Ascii.eqb op "+") eqn:E1; [reflexivity|].
  destruct (Ascii.eqb op "-") eqn:E2; [reflexivity|].
  destruct (Ascii.eqb op "*") eqn:E3; [reflexivity|].
  destruct (Ascii.eqb op "/") eqn:E4.
  - now destruct (float_is_zero y).
  - unfold is_operator in Hop. rewrite E1, E2, E3, E4 in Hop. discriminate.
Qed.

(** The fallback on an expression with one operator in all, whose two
    sides read as floats. *)
Lemma single_operator_fallback_direct e op l r x y :
  is_operator op = true -> e = l +:+ String op r -> operator_count e = 1 ->
  py_float (strip l) = Ok x -> py_float (strip r) = Ok y ->
  ReducingCalculatorAgent.single_operator_fallback e = Some (direct_value op x y).
Proof.
  intros Hop -> Hcount Hx Hy.
  unfold ReducingCalculatorAgent.single_operator_fallback.
  unfold operator_count in Hcount. rewrite Hcount. cbn [Z.eqb Pos.eqb].
  pose proof (contains_app_char op l r) as Hin.
  assert (Hsum : count op (l +:+ String op r) = count op l + 1 + count op r).
  { rewrite count_app. simpl. rewrite Ascii.eqb_refl. lia. }
  pose proof (count_nonneg op l) as Hl0. pose proof (count_nonneg op r) as Hr0.
  set (e := l +:+ String op r) in *.
  pose proof (count_nonneg "+" e). pose proof (count_nonneg "-" e).
  pose proof (count_nonneg "*" e). pose proof (count_nonneg "/" e).
  assert (Htry : contains op l = false -> contains op r = false ->
                 ReducingCalculatorAgent.try_operator op e = Some (direct_value op x y)).
  { intros Hl Hr. exact (try_operator_direct op l r x y Hop Hl Hr Hx Hy). }
  cbn [ReducingCalculatorAgent.try_operators].
  unfold is_operator in Hop.
  destruct (Ascii.eqb_spec op "+") as [->|Hn1].
  { rewrite Hin, Htry by (apply count_zero_contains; lia). reflexivity. }
  destruct (Ascii.eqb_spec op "-") as [->|Hn2].
  { rewrite (count_zero_contains "+" e) by lia.
    rewrite Hin, Htry by (apply count_zero_contains; lia). reflexivity. }
  destruct (Ascii.eqb_spec op "*") as [->|Hn3].
  { rewrite (count_zero_contains "+" e), (count_zero_contains "-" e) by lia.
    rewrite Hin, Htry by (apply count_zero_contains; lia). reflexivity. }
  destruct (Ascii.eqb_spec op "/") as [->|Hn4]; [|discriminate].
  rewrite (count_zero_contains "+" e), (count_zero_contains "-" e),
    (count_zero_contains "*" e) by lia.
  rewrite Hin, Htry by (apply count_zero_contains; lia). reflexivity.
Qed.

Section LoopDetection.
Context `{PyRuntime} {C : Type} `{LLMClient C}.

(** A turn whose reduced expression was seen before and has one operator
    in all, between two sides that read as floats: [run] returns the
    value computed from the two sides, having called the model once in
    this turn. *)
Lemma loop_detection_returns fuel self llm_client e steps i previous sent
      response llm' result op l r x y :
  run_prompt llm_client (ReducingCalculatorAgent._prepare_next_prompt self e)
    = (response, llm') ->
  ReducingCalculatorAgent._process_tool_calls (tool_calls response) e = Ok result ->
  remaining_expression result ∈ previous ->
  operator_count (remaining_expression result) = 1 ->
  is_operator op = true ->
  remaining_expression result = l +:+ String op r ->
  py_float (strip l) = Ok x -> py_float (strip r) = Ok y ->
  ReducingCalculatorAgent.run_loop (S fuel) self llm_client e steps i previous sent
  = Some {| returned := Ok (direct_value op x y); client := llm';
            prompts := (sent ++ [ReducingCalculatorAgent._prepare_next_prompt self e])%list |}.
Proof.
  intros Hp Ht Hseen Hcount Hop Hsplit Hx Hy.
  rewrite (reducing_turn _ _ _ _ _ _ _ _ _ _ _ Hp Ht). cbn zeta.
  rewrite (bool_decide_eq_true_2 _ Hseen).
  now rewrite (single_operator_fallback_direct _ _ _ _ _ _ Hop Hsplit Hcount Hx Hy).
Qed.

End LoopDetection.

(** C3, amended.  In the Reducing agent's loop, when the expression left
    by a turn is already in the seen-set, holds exactly one arithmetic
    operator and both sides of that operator read as numbers (the
    proviso the claim lacks), [run] returns at once
    the value computed from the two sides: the only model call of the turn
    is the one already made.  With the stub that keeps asking for [2 + 3],
    the expression ["2 + 3 + 5"] becomes ["5 + 5"], stays ["5 + 5"] at the
    second turn, and [run] returns 10 after two model calls, leaving the
    third response of the stub unused. *)
Theorem C3_single_operator_fallback `{PyRuntime} {C : Type} `{LLMClient C}
    (fuel : nat) (self : ReducingCalculatorAgent.config) (llm_client llm' : C)
    (e : string) (steps : list string) (i : Z) (previous : gset string)
    (sent : list MessageHistory) (response : Response) (result : ToolCallResult)
    (op : ascii) (l r : string) (x y : spec_float) :
  run_prompt llm_client (ReducingCalculatorAgent._prepare_next_prompt self e)
    = (response, llm') ->
  ReducingCalculatorAgent._process_tool_calls (tool_calls response) e = Ok result ->
  remaining_expression result ∈ previous ->
  operator_count (remaining_expression result) = 1 ->
  is_operator op = true ->
  remaining_expression result = l +:+ String op r ->
  py_float (strip l) = Ok x -> py_float (strip r) = Ok y ->
  ReducingCalculatorAgent.run_loop (S fuel) self llm_client e steps i previous sent
  = Some {| returned := Ok (direct_value op x y); client := llm';
            prompts := (sent ++ [ReducingCalculatorAgent._prepare_next_prompt self e])%list |}
  /\ (exists run,
        @ReducingCalculatorAgent.run reference_runtime _ _
          reducing_reference_config stuck_script "2 + 3 + 5" = Some run
        /\ returned run = Ok (VNum (PyFloat (binary_normalize prec emax 10 0 false)))
        /\ client run = [ {| tool_calls := [call_2_plus_3] |} ]
        /\ prompts run
           = [ ReducingCalculatorAgent._prepare_next_prompt reducing_reference_config "2 + 3 + 5";
               ReducingCalculatorAgent._prepare_next_prompt reducing_reference_config "5 + 5" ]).
Proof.
  intros Hp Ht Hseen Hcount Hop Hsplit Hx Hy. split.
  - exact (loop_detection_returns _ _ _ _ _ _ _ _ _ _ _ _ _ _ _ _
             Hp Ht Hseen Hcount Hop Hsplit Hx Hy).
  - eexists. split; [vm_compute; reflexivity|]. repeat split.
Qed.

(** C3, the claim as stated fails.  The expression ["-3"] holds exactly
    one operator character and is in the seen-set from the start.  A turn
    leaves it unchanged, so the loop-detection branch is entered; the
    split on [-] gives the sides [""] and ["3"], [float("")] raises, the
    [except] passes, and the agent does not return: it calls the model
    again, until the scripted model has no tool call left. *)
Lemma C3_counterexample :
  validate_expression "-3" 100 = Ok true
  /\ operator_count "-3" = 1
  /\ (exists result,
        @ReducingCalculatorAgent._process_tool_calls reference_runtime
          [call_2_plus_3] "-3" = Ok result
        /\ remaining_expression result = "-3"
        /\ truthy (is_final_step result) = false)
  /\ split "-" "-3" = [""; "3"]
  /\ py_float (strip "") = Raise ValueError
  /\ ReducingCalculatorAgent.single_operator_fallback "-3" = None
  /\ (exists run,
        @ReducingCalculatorAgent.run reference_runtime _ _
          reducing_reference_config stuck_script "-3" = Some run
        /\ length (prompts run) = 4%nat
        /\ client run = []
        /\ returned run = Raise NoToolCall).
Proof.
  split; [vm_compute; reflexivity|].
  split; [vm_compute; reflexivity|].
  split; [eexists; split; [vm_compute; reflexivity | split; reflexivity]|].
  split; [vm_compute; reflexivity|].
  split; [vm_compute; reflexivity|].
  split; [vm_compute; reflexivity|].
  eexists. split; [vm_compute; reflexivity|]. repeat split.
Qed.

Lemma C3_single_operator_fallback_witness :
  @ReducingCalculatorAgent.run_loop reference_runtime _ _ 5
    reducing_reference_config (tail stuck_script) "5 + 5" [] 2
    {[ "2 + 3 + 5"; "5 + 5" ]} []
  = Some {| returned := Ok (direct_value "+" (binary_normalize prec emax 5 0 false)
                                             (binary_normalize prec emax 5 0 false));
            client := tail (tail stuck_script);
            prompts := [ReducingCalculatorAgent._prepare_next_prompt
                          reducing_reference_config "5 + 5"] |}.
Proof.
  refine (proj1 (@C3_single_operator_fallback reference_runtime _ _ 4
                   reducing_reference_config (tail stuck_script) (tail (tail stuck_script))
                   "5 + 5" [] 2 {[ "2 + 3 + 5"; "5 + 5" ]} []
                   {| tool_calls := [call_2_plus_3] |}
                   {| results := [(PyInt 5, "call_n")]; is_final_step := VBool false;
                      call_steps := ["2 + 3 = 5"]; remaining_expression := "5 + 5" |}
                   "+" "5 " " 5" _ _ eq_refl _ _ eq_refl eq_refl eq_refl eq_refl eq_refl)).
  - vm_compute. reflexivity.
  - cbn [remaining_expression]. set_solver.
Defined.

(** C10.  When the single-operator fallback fires on an expression
    [a / b] whose right-hand side reads as zero, [run] returns [None] at
    once: no quotient is computed, no [ZeroDivisionError] is raised, and
    the still unset final result is what comes back.  With the stub that
    keeps asking for [2 + 3], the expression ["8 / 0"] is seen again after
    the first turn and [run] returns [None] after one model call. *)
Theorem C10_fallback_division_by_zero `{PyRuntime} {C : Type} `{LLMClient C}
    (fuel : nat) (self : ReducingCalculatorAgent.config) (llm_client llm' : C)
    (e : string) (steps : list string) (i : Z) (previous : gset string)
    (sent : list MessageHistory) (response : Response) (result : ToolCallResult)
    (l r : string) (x y : spec_float) :
  run_prompt llm_client (ReducingCalculatorAgent._prepare_next_prompt self e)
    = (response, llm') ->
  ReducingCalculatorAgent._process_tool_calls (tool_calls response) e = Ok result ->
  remaining_expression result ∈ previous ->
  operator_count (remaining_expression result) = 1 ->
  remaining_expression result = l +:+ String "/" r ->
  py_float (strip l) = Ok x -> py_float (strip r) = Ok y ->
  float_is_zero y = true ->
  ReducingCalculatorAgent.run_loop (S fuel) self llm_client e steps i previous sent
  = Some {| returned := Ok VNone; client := llm';
            prompts := (sent ++ [ReducingCalculatorAgent._prepare_next_prompt self e])%list |}
  /\ (exists run,
        @ReducingCalculatorAgent.run reference_runtime _ _
          reducing_reference_config stuck_script "8 / 0" = Some run
        /\ returned run = Ok VNone
        /\ client run = tail stuck_script
        /\ prompts run
           = [ ReducingCalculatorAgent._prepare_next_prompt reducing_reference_config "8 / 0" ]).
Proof.
  intros Hp Ht Hseen Hcount Hsplit Hx Hy Hzero. split.
  - rewrite (loop_detection_returns _ _ _ _ _ _ _ _ _ _ _ "/"%char _ _ _ _
               Hp Ht Hseen Hcount eq_refl Hsplit Hx Hy).
    unfold direct_value. cbn [Ascii.eqb Bool.eqb]. now rewrite Hzero.
  - eexists. split; [vm_compute; reflexivity|]. repeat split.
Qed.

Lemma C10_fallback_division_by_zero_witness :
  @ReducingCalculatorAgent.run_loop reference_runtime _ _ 5
    reducing_reference_config stuck_script "8 / 0" [] 1 {[ "8 / 0" ]} []
  = Some {| returned := Ok VNone; client := tail stuck_script;
            prompts := [ReducingCalculatorAgent._prepare_next_prompt
                          reducing_reference_config "8 / 0"] |}.
Proof.
  refine (proj1 (@C10_fallback_division_by_zero reference_runtime _ _ 4
                   reducing_reference_config stuck_script (tail stuck_script)
                   "8 / 0" [] 1 {[ "8 / 0" ]} []
                   {| tool_calls := [call_2_plus_3] |}
                   {| results := [(PyInt 5, "call_n")]; is_final_step := VBool false;
                      call_steps := ["2 + 3 = 5"]; remaining_expression := "8 / 0" |}
                   "8 " " 0" (binary_normalize prec emax 8 0 false) (S754_zero false)
                   eq_refl _ _ eq_refl eq_refl eq_refl eq_refl eq_refl)).
  - vm_compute. reflexivity.
  - cbn [remaining_expression]. set_solver.
Defined.

(* ===================================================================== *)
(** * Budget exhaustion *)
(* ===================================================================== *)

(** C2, the claim as stated fails.  With a budget of one call and the stub
    that never says it is the final step, the expression ["010 + 1"] is
    left unchanged by the first turn; the direct evaluator fails on it (a
    decimal literal may not start with a zero), yet the Reducing agent
    does not fail with [MaxCallsExceeded]: the loop-detection fallback,
    which is tried before the budget is looked at, returns 11. *)
Lemma C2_counterexample :
  (exists result,
     @ReducingCalculatorAgent._process_tool_calls reference_runtime
       (tool_calls {| tool_calls := [call_2_plus_3] |}) "010 + 1" = Ok result
     /\ truthy (is_final_step result) = false
     /\ remaining_expression result = "010 + 1")
  /\ @py_eval reference_runtime "010 + 1" = Raise SyntaxError
  /\ (exists run,
        @ReducingCalculatorAgent.run reference_runtime _ _
          reducing_one_call_config stuck_script "010 + 1" = Some run
        /\ returned run = Ok (VNum (PyFloat (binary_normalize prec emax 11 0 false)))
        /\ returned run <> Raise (MaxCallsExceeded 1)).
Proof.
  split; [|split].
  - eexists. split; [vm_compute; reflexivity|]. split; reflexivity.
  - vm_compute. reflexivity.
  - eexists. split; [vm_compute; reflexivity|]. split; [reflexivity | discriminate].
Qed.

(** C2, amended.  With [max_llm_calls = 1] and a first turn that is
    processed and does not say it is the final step, the Stepwise agent
    fails with [MaxCallsExceeded].  The Reducing agent, provided the
    loop-detection fallback does not return first (the reduced expression
    is new, or the single-operator fallback does not apply to it), returns
    the value of the direct evaluator on the reduced expression when that
    evaluation succeeds, and fails with [MaxCallsExceeded] when it raises
    an exception. *)
Theorem C2_budget_exhaustion `{PyRuntime} {C : Type} `{LLMClient C}
    (llm_client llm' : C) (e : string) (response : Response) (result : ToolCallResult) :
  (forall self : StepwiseCalculatorAgent.config,
      StepwiseCalculatorAgent.max_llm_calls self = 1 ->
      validate_expression e (StepwiseCalculatorAgent.max_expression_length self) = Ok true ->
      let prompt_msg :=
        add_user_message
          (replace "{EXPRESSION}" e (StepwiseCalculatorAgent.initial_prompt self))
          (add_system_message (StepwiseCalculatorAgent.system_prompt self) []) in
      run_prompt llm_client prompt_msg = (response, llm') ->
      StepwiseCalculatorAgent._process_tool_calls (tool_calls response) = Ok result ->
      truthy (is_final_step result) = false ->
      StepwiseCalculatorAgent.run self llm_client e
      = Some {| returned := Raise (MaxCallsExceeded 1); client := llm';
                prompts := [prompt_msg] |})
  /\ (forall self : ReducingCalculatorAgent.config,
      ReducingCalculatorAgent.max_llm_calls self = 1 ->
      validate_expression e (ReducingCalculatorAgent.max_expression_length self) = Ok true ->
      let prompt_msg := ReducingCalculatorAgent._prepare_next_prompt self e in
      run_prompt llm_client prompt_msg = (response, llm') ->
      ReducingCalculatorAgent._process_tool_calls (tool_calls response) e = Ok result ->
      truthy (is_final_step result) = false ->
      remaining_expression result <> e
      \/ ReducingCalculatorAgent.single_operator_fallback (remaining_expression result) = None ->
      (forall v, py_eval (remaining_expression result) = Ok v ->
         ReducingCalculatorAgent.run self llm_client e
         = Some {| returned := Ok v; client := llm'; prompts := [prompt_msg] |})
      /\ (forall x, py_eval (remaining_expression result) = Raise x ->
            is_python_exception x = true ->
            ReducingCalculatorAgent.run self llm_client e
            = Some {| returned := Raise (MaxCallsExceeded 1); client := llm';
                      prompts := [prompt_msg] |})).
Proof.
  split.
  - intros self Hmax Hv prompt_msg Hp Ht Hfin.
    unfold StepwiseCalculatorAgent.run. rewrite Hv, Hmax.
    change (Z.to_nat 1) with 1%nat.
    fold prompt_msg.
    rewrite (stepwise_turn _ _ _ _ _ _ _ _ _ _ _ Hp Ht), Hfin, Hmax. reflexivity.
  - intros self Hmax Hv prompt_msg Hp Ht Hfin Hloop.
    assert (Hrun : ReducingCalculatorAgent.run self llm_client e
                   = Some {| returned :=
                               match py_eval (remaining_expression result) with
                               | Ok final_result => Ok final_result
                               | Raise x => if is_python_exception x
                                            then Raise (MaxCallsExceeded 1)
                                            else Raise x
                               end;
                             client := llm'; prompts := [prompt_msg] |}).
    { unfold ReducingCalculatorAgent.run. rewrite Hv, Hmax.
      change (Z.to_nat 1) with 1%nat.
      rewrite (reducing_turn _ _ _ _ _ _ _ _ _ _ _ Hp Ht). cbn zeta.
      rewrite Hfin, Hmax.
      assert ((if bool_decide (remaining_expression result ∈ ({[e]} : gset string))
               then ReducingCalculatorAgent.single_operator_fallback
                      (remaining_expression result)
               else None) = None) as ->.
      { destruct Hloop as [Hnew | ->].
        - rewrite bool_decide_eq_false_2; [reflexivity | set_solver].
        - now destruct (bool_decide _). }
      reflexivity. }
    split.
    + intros v Hev. now rewrite Hrun, Hev.
    + intros x Hev Hx. now rewrite Hrun, Hev, Hx.
Qed.

Lemma C2_budget_exhaustion_witness :
  @StepwiseCalculatorAgent.run reference_runtime _ _
    stepwise_one_call_config round_trip_script "10 + 5 * 3 - 8 / 2"
  = Some {| returned := Raise (MaxCallsExceeded 1); client := tail round_trip_script;
            prompts := [ [SystemMessage "You are a calculator.";
                          UserMessage "Expression: 10 + 5 * 3 - 8 / 2"] ] |}
  /\ @ReducingCalculatorAgent.run reference_runtime _ _
       reducing_one_call_config round_trip_script "10 + 5 * 3 - 8 / 2"
     = Some {| returned := Ok (VNum (PyFloat (binary_normalize prec emax 21 0 false)));
               client := tail round_trip_script;
               prompts := [ [SystemMessage "You are a calculator.";
                             UserMessage "Expression: 10 + 5 * 3 - 8 / 2"] ] |}.
Proof.
  pose proof (@C2_budget_exhaustion reference_runtime _ _
                round_trip_script (tail round_trip_script) "10 + 5 * 3 - 8 / 2"
                {| tool_calls := [call_1] |}) as Hthm.
  split.
  - refine (proj1 (Hthm {| results := [(PyInt 15, "call_1")]; is_final_step := VBool false;
                           call_steps := ["5 * 3 = 15"]; remaining_expression := "" |})
              stepwise_one_call_config eq_refl eq_refl eq_refl _ eq_refl).
    vm_compute. reflexivity.
  - refine (proj1 (proj2 (Hthm {| results := [(PyInt 15, "call_1")];
                                  is_final_step := VBool false;
                                  call_steps := ["5 * 3 = 15"];
                                  remaining_expression := "10 + 15 - 8 / 2" |})
                     reducing_one_call_config eq_refl eq_refl eq_refl _ eq_refl
                     (or_introl _)) _ _).
    + vm_compute. reflexivity.
    + discriminate.
    + vm_compute. reflexivity.
Defined.

(* ===================================================================== *)
(** * The repair pass *)
(* ===================================================================== *)

(** C4.  The repair pass parses the mended text again but does not
    validate [op] again.  The payload [{"a": 1, "b": 2, "op": "%", ...}]
    fails the first pass with an invalid-operation error, passes the
    repair pass, and the turn then fails in [calculate] with
    [UnsupportedOperation], not with [MalformedArguments].  In the same
    way an [op] that is the number 5 ends in the [AttributeError] of
    [op.strip()], and the operator [' + '], which the first pass rejects,
    is accepted and computed.  A payload the repair pass cannot read (no
    [op] at all) does end in [MalformedArguments], and the key ['op:'] is
    mended by the first pass. *)
Theorem C4_repair_pass_does_not_validate :
  (@first_pass reference_runtime (arguments (function call_percent))
   = Raise (InvalidOperation "%")
   /\ @repair_pass reference_runtime (arguments (function call_percent))
      = Ok {| arg_a := VNum (PyInt 1); arg_b := VNum (PyInt 2); arg_op := VStr "%";
              arg_is_final_step := VBool false |}
   /\ @StepwiseCalculatorAgent._process_tool_calls reference_runtime [call_percent]
      = Raise (UnsupportedOperation "%")
   /\ @ReducingCalculatorAgent._process_tool_calls reference_runtime [call_percent] "1 + 2"
      = Raise (UnsupportedOperation "%"))
  /\ (@first_pass reference_runtime (arguments (function call_op_number))
      = Raise (OperationNotString (VNum (PyInt 5)))
      /\ @StepwiseCalculatorAgent._process_tool_calls reference_runtime [call_op_number]
         = Raise AttributeError
      /\ @ReducingCalculatorAgent._process_tool_calls reference_runtime [call_op_number] "1 + 2"
         = Raise AttributeError)
  /\ (@first_pass reference_runtime (arguments (function call_op_padded))
      = Raise (InvalidOperation " + ")
      /\ @StepwiseCalculatorAgent._process_tool_calls reference_runtime [call_op_padded]
         = Ok {| results := [(PyInt 3, "call_1")]; is_final_step := VBool true;
                 call_steps := ["1  +  2 = 3"]; remaining_expression := "" |})
  /\ (@StepwiseCalculatorAgent._process_tool_calls reference_runtime [call_no_op]
      = Raise (MalformedArguments (arguments (function call_no_op)) (KeyError "op"))
      /\ @StepwiseCalculatorAgent._process_tool_calls reference_runtime [call_op_colon]
         = Ok {| results := [(PyInt 3, "call_1")]; is_final_step := VBool true;
                 call_steps := ["1 + 2 = 3"]; remaining_expression := "" |}).
Proof. repeat split; vm_compute; reflexivity. Qed.

(* ===================================================================== *)
(** * The turns of tool calls: invariants and composition *)
(* ===================================================================== *)

Section Turns.
Context `{PyRuntime}.

(** The loops extend their accumulators by one result and one step per
    tool call, with the call's id. *)
Lemma stepwise_loop_ids tool_calls :
  forall acc fin steps r,
    StepwiseCalculatorAgent.tool_calls_loop tool_calls acc fin steps = Ok r ->
    map snd (results r) = (map snd acc ++ map id tool_calls)%list
    /\ length (call_steps r) = (length steps + length tool_calls)%nat
    /\ remaining_expression r = "".
Proof.
  induction tool_calls as [|tc rest IH]; intros acc fin steps r;
    cbn [StepwiseCalculatorAgent.tool_calls_loop].
  - intros [= <-]. cbn. rewrite app_nil_r. split; [reflexivity | split; [lia | reflexivity]].
  - destruct (parse_arguments (arguments (function tc))) as [args|];
      cbn [mbind outcome_bind]; [|discriminate].
    destruct (typed_arguments args) as [[[a b] op]|]; cbn [mbind outcome_bind];
      [|discriminate].
    destruct (calculate a b op) as [result|]; cbn [mbind outcome_bind]; [|discriminate].
    intros Hloop. apply IH in Hloop as (Hids & Hlen & Hrem).
    rewrite Hids, Hlen, map_app, List.length_app, <- app_assoc. cbn. split; [reflexivity | split; [lia | exact Hrem]].
Qed.

Lemma reducing_loop_ids tool_calls :
  forall e acc fin steps r,
    ReducingCalculatorAgent.tool_calls_loop tool_calls e acc fin steps = Ok r ->
    map snd (results r) = (map snd acc ++ map id tool_calls)%list
    /\ length (call_steps r) = (length steps + length tool_calls)%nat.
Proof.
  induction tool_calls as [|tc rest IH]; intros e acc fin steps r;
    cbn [ReducingCalculatorAgent.tool_calls_loop].
  - intros [= <-]. cbn. rewrite app_nil_r. split; [reflexivity | lia].
  - destruct (parse_arguments (arguments (function tc))) as [args|];
      cbn [mbind outcome_bind]; [|discriminate].
    destruct (typed_arguments args) as [[[a b] op]|]; cbn [mbind outcome_bind];
      [|discriminate].
    destruct (calculate a b op) as [result|]; cbn [mbind outcome_bind]; [|discriminate].
    destruct (reduce_expression e a b op result) as [e'|]; cbn [mbind outcome_bind];
      [|discriminate].
    intros Hloop. apply IH in Hloop as (Hids & Hlen).
    rewrite Hids, Hlen, map_app, List.length_app, <- app_assoc. cbn. split; [reflexivity | lia].
Qed.

(** Whatever the Reducing loop computes, the Stepwise loop computes too,
    the expression apart. *)
Lemma reducing_loop_stepwise tool_calls :
  forall e acc fin steps r,
    ReducingCalculatorAgent.tool_calls_loop tool_calls e acc fin steps = Ok r ->
    StepwiseCalculatorAgent.tool_calls_loop tool_calls acc fin steps
    = Ok (without_expression r).
Proof.
  induction tool_calls as [|tc rest IH]; intros e acc fin steps r;
    cbn [ReducingCalculatorAgent.tool_calls_loop StepwiseCalculatorAgent.tool_calls_loop].
  - intros [= <-]. reflexivity.
  - destruct (parse_arguments (arguments (function tc))) as [args|];
      cbn [mbind outcome_bind]; [|discriminate].
    destruct (typed_arguments args) as [[[a b] op]|]; cbn [mbind outcome_bind];
      [|discriminate].
    destruct (calculate a b op) as [result|]; cbn [mbind outcome_bind]; [|discriminate].
    destruct (reduce_expression e a b op result) as [e'|]; cbn [mbind outcome_bind];
      [|discriminate].
    apply IH.
Qed.

(** The loop over two lists of calls, one after the other. *)
Lemma stepwise_loop_app l1 l2 :
  forall acc fin steps,
    StepwiseCalculatorAgent.tool_calls_loop (l1 ++ l2) acc fin steps
    = r1 ← StepwiseCalculatorAgent.tool_calls_loop l1 acc fin steps;
      StepwiseCalculatorAgent.tool_calls_loop l2 (results r1) (is_final_step r1)
                                              (call_steps r1).
Proof.
  induction l1 as [|tc rest IH]; intros acc fin steps;
    cbn [app StepwiseCalculatorAgent.tool_calls_loop].
  - reflexivity.
  - destruct (parse_arguments (arguments (function tc))) as [args|];
      cbn [mbind outcome_bind]; [|reflexivity].
    destruct (typed_arguments args) as [[[a b] op]|]; cbn [mbind outcome_bind];
      [|reflexivity].
    destruct (calculate a b op) as [result|]; cbn [mbind outcome_bind]; [|reflexivity].
    apply IH.
Qed.

Lemma reducing_loop_app l1 l2 :
  forall e acc fin steps,
    ReducingCalculatorAgent.tool_calls_loop (l1 ++ l2) e acc fin steps
    = r1 ← ReducingCalculatorAgent.tool_calls_loop l1 e acc fin steps;
      ReducingCalculatorAgent.tool_calls_loop l2 (remaining_expression r1) (results r1)
                                              (is_final_step r1) (call_steps r1).
Proof.
  induction l1 as [|tc rest IH]; intros e acc fin steps;
    cbn [app ReducingCalculatorAgent.tool_calls_loop].
  - reflexivity.
  - destruct (parse_arguments (arguments (function tc))) as [args|];
      cbn [mbind outcome_bind]; [|reflexivity].
    destruct (typed_arguments args) as [[[a b] op]|]; cbn [mbind outcome_bind];
      [|reflexivity].
    destruct (calculate a b op) as [result|]; cbn [mbind outcome_bind]; [|reflexivity].
    destruct (reduce_expression e a b op result) as [e'|]; cbn [mbind outcome_bind];
      [|reflexivity].
    apply IH.
Qed.

(** The accumulators only grow at their ends, and a loop over at least
    one call forgets the initial flag. *)
Lemma stepwise_loop_acc l :
  forall acc fin fin' steps, l <> [] ->
    StepwiseCalculatorAgent.tool_calls_loop l acc fin steps
    = r ← StepwiseCalculatorAgent.tool_calls_loop l [] fin' [];
      Ok {| results := (acc ++ results r)%list; is_final_step := is_final_step r;
            call_steps := (steps ++ call_steps r)%list;
            remaining_expression := remaining_expression r |}.
Proof.
  induction l as [|tc rest IH]; intros acc fin fin' steps Hne; [congruence|].
  cbn [StepwiseCalculatorAgent.tool_calls_loop].
  destruct (parse_arguments (arguments (function tc))) as [args|];
    cbn [mbind outcome_bind]; [|reflexivity].
  destruct (typed_arguments args) as [[[a b] op]|]; cbn [mbind outcome_bind];
    [|reflexivity].
  destruct (calculate a b op) as [result|]; cbn [mbind outcome_bind]; [|reflexivity].
  destruct rest as [|tc' rest'].
  - cbn. reflexivity.
  - rewrite (IH (acc ++ [(result, id tc)])%list _ (arg_is_final_step args)) by discriminate.
    rewrite (IH ([] ++ [(result, id tc)])%list _ (arg_is_final_step args)) by discriminate.
    destruct (StepwiseCalculatorAgent.tool_calls_loop (tc' :: rest') [] _ []) as [r|];
      cbn [mbind outcome_bind results is_final_step call_steps remaining_expression];
      [|reflexivity].
    now rewrite <- !app_assoc.
Qed.

Lemma reducing_loop_acc l :
  forall e acc fin fin' steps, l <> [] ->
    ReducingCalculatorAgent.tool_calls_loop l e acc fin steps
    = r ← ReducingCalculatorAgent.tool_calls_loop l e [] fin' [];
      Ok {| results := (acc ++ results r)%list; is_final_step := is_final_step r;
            call_steps := (steps ++ call_steps r)%list;
            remaining_expression := remaining_expression r |}.
Proof.
  induction l as [|tc rest IH]; intros e acc fin fin' steps Hne; [congruence|].
  cbn [ReducingCalculatorAgent.tool_calls_loop].
  destruct (parse_arguments (arguments (function tc))) as [args|];
    cbn [mbind outcome_bind]; [|reflexivity].
  destruct (typed_arguments args) as [[[a b] op]|]; cbn [mbind outcome_bind];
    [|reflexivity].
  destruct (calculate a b op) as [result|]; cbn [mbind outcome_bind]; [|reflexivity].
  destruct (reduce_expression e a b op result) as [e'|]; cbn [mbind outcome_bind];
    [|reflexivity].
  destruct rest as [|tc' rest'].
  - cbn. reflexivity.
  - rewrite (IH e' (acc ++ [(result, id tc)])%list _ (arg_is_final_step args)) by discriminate.
    rewrite (IH e' ([] ++ [(result, id tc)])%list _ (arg_is_final_step args)) by discriminate.
    destruct (ReducingCalculatorAgent.tool_calls_loop (tc' :: rest') e' [] _ []) as [r|];
      cbn [mbind outcome_bind results is_final_step call_steps remaining_expression];
      [|reflexivity].
    now rewrite <- !app_assoc.
Qed.

End Turns.

(** X1. A turn that succeeds gives one result and one rendered step per
    tool call, and the results carry the ids of the calls in the order of
    the calls; the Stepwise agent leaves the remaining expression empty. *)
Theorem turn_one_result_per_call `{PyRuntime} (tool_calls : list ToolCall) :
  (forall r, StepwiseCalculatorAgent._process_tool_calls tool_calls = Ok r ->
     map snd (results r) = map id tool_calls
     /\ length (call_steps r) = length tool_calls
     /\ remaining_expression r = "")
  /\ (forall e r, ReducingCalculatorAgent._process_tool_calls tool_calls e = Ok r ->
     map snd (results r) = map id tool_calls
     /\ length (call_steps r) = length tool_calls).
Proof.
  split.
  - intros r. unfold StepwiseCalculatorAgent._process_tool_calls.
    destruct tool_calls as [|tc rest] eqn:E; [discriminate|]. rewrite <- E.
    intros Hloop. apply stepwise_loop_ids in Hloop. exact Hloop.
  - intros e r. unfold ReducingCalculatorAgent._process_tool_calls.
    destruct tool_calls as [|tc rest] eqn:E; [discriminate|]. rewrite <- E.
    intros Hloop. apply reducing_loop_ids in Hloop. exact Hloop.
Qed.

Lemma turn_one_result_per_call_witness :
  (exists r, @StepwiseCalculatorAgent._process_tool_calls reference_runtime final_then_not
             = Ok r
             /\ map snd (results r) = ["call_1"; "call_2"]
             /\ length (call_steps r) = 2%nat
             /\ remaining_expression r = "")
  /\ (exists r, @ReducingCalculatorAgent._process_tool_calls reference_runtime
                  final_then_not "1 + 2 + 3 * 4" = Ok r
                /\ map snd (results r) = ["call_1"; "call_2"]
                /\ length (call_steps r) = 2%nat).
Proof.
  pose proof (@turn_one_result_per_call reference_runtime final_then_not) as [Hs Hr].
  split.
  - destruct (@StepwiseCalculatorAgent._process_tool_calls reference_runtime final_then_not)
      as [r|] eqn:E; [|vm_compute in E; discriminate].
    exists r. split; [reflexivity|]. exact (Hs r eq_refl).
  - destruct (@ReducingCalculatorAgent._process_tool_calls reference_runtime
                final_then_not "1 + 2 + 3 * 4") as [r|] eqn:E;
      [|vm_compute in E; discriminate].
    exists r. split; [reflexivity|]. exact (Hr _ r E).
Defined.

(** X2. The two agents read a turn alike: whenever the Reducing agent
    processes a list of tool calls, the Stepwise agent processes it too,
    with the same results, the same final-step flag and the same steps. *)
Theorem reducing_turn_is_stepwise_turn `{PyRuntime} (tool_calls : list ToolCall)
    (e : string) (r : ToolCallResult) :
  ReducingCalculatorAgent._process_tool_calls tool_calls e = Ok r ->
  StepwiseCalculatorAgent._process_tool_calls tool_calls = Ok (without_expression r).
Proof.
  unfold ReducingCalculatorAgent._process_tool_calls,
    StepwiseCalculatorAgent._process_tool_calls.
  destruct tool_calls as [|tc rest] eqn:E; [discriminate|]. rewrite <- E.
  apply reducing_loop_stepwise.
Qed.

Lemma reducing_turn_is_stepwise_turn_witness :
  @StepwiseCalculatorAgent._process_tool_calls reference_runtime final_then_not
  = Ok {| results := [(PyInt 3, "call_1"); (PyInt 12, "call_2")];
          is_final_step := VBool false;
          call_steps := ["1 + 2 = 3"; "3 * 4 = 12"];
          remaining_expression := "" |}.
Proof.
  assert (@ReducingCalculatorAgent._process_tool_calls reference_runtime
            final_then_not "1 + 2 + 3 * 4"
          = Ok {| results := [(PyInt 3, "call_1"); (PyInt 12, "call_2")];
                  is_final_step := VBool false;
                  call_steps := ["1 + 2 = 3"; "3 * 4 = 12"];
                  remaining_expression := "3 + 12" |}) as Hr
    by (vm_compute; reflexivity).
  exact (reducing_turn_is_stepwise_turn _ _ _ Hr).
Defined.

(** X3. A turn of several tool calls is the turn of its first calls
    followed by the turn of the others: the results and the steps are
    appended, the flag is that of the second part, an exception of either
    part ends the whole turn, and in the Reducing agent the second part
    rewrites the expression the first part left. *)
Theorem turn_composes `{PyRuntime} (l1 l2 : list ToolCall) :
  l1 <> [] -> l2 <> [] ->
  StepwiseCalculatorAgent._process_tool_calls (l1 ++ l2)
  = (r1 ← StepwiseCalculatorAgent._process_tool_calls l1;
     r2 ← StepwiseCalculatorAgent._process_tool_calls l2;
     Ok (then_result r1 r2))
  /\ forall e,
     ReducingCalculatorAgent._process_tool_calls (l1 ++ l2) e
     = (r1 ← ReducingCalculatorAgent._process_tool_calls l1 e;
        r2 ← ReducingCalculatorAgent._process_tool_calls l2 (remaining_expression r1);
        Ok (then_result r1 r2)).
Proof.
  intros H1 H2.
  unfold StepwiseCalculatorAgent._process_tool_calls,
    ReducingCalculatorAgent._process_tool_calls.
  destruct l1 as [|t1 l1]; [congruence|]. destruct l2 as [|t2 l2]; [congruence|].
  cbn [app]. change (t1 :: (l1 ++ t2 :: l2))%list with ((t1 :: l1) ++ t2 :: l2)%list.
  split; [|intros e].
  - rewrite stepwise_loop_app.
    destruct (StepwiseCalculatorAgent.tool_calls_loop (t1 :: l1) [] (VBool false) [])
      as [r1|]; cbn [mbind outcome_bind]; [|reflexivity].
    rewrite (stepwise_loop_acc _ _ _ (VBool false)) by discriminate.
    destruct (StepwiseCalculatorAgent.tool_calls_loop (t2 :: l2) [] (VBool false) [])
      as [r2|]; reflexivity.
  - rewrite reducing_loop_app.
    destruct (ReducingCalculatorAgent.tool_calls_loop (t1 :: l1) e [] (VBool false) [])
      as [r1|]; cbn [mbind outcome_bind]; [|reflexivity].
    rewrite (reducing_loop_acc _ _ _ _ (VBool false)) by discriminate.
    destruct (ReducingCalculatorAgent.tool_calls_loop (t2 :: l2) _ [] (VBool false) [])
      as [r2|]; reflexivity.
Qed.

Lemma turn_composes_witness :
  @StepwiseCalculatorAgent._process_tool_calls reference_runtime ([call_1] ++ [call_2])
  = Ok {| results := [(PyInt 15, "call_1"); (PyFloat (binary_normalize prec emax 4 0 false), "call_2")];
          is_final_step := VBool false;
          call_steps := ["5 * 3 = 15"; "8 / 2 = 4.0"];
          remaining_expression := "" |}
  /\ @ReducingCalculatorAgent._process_tool_calls reference_runtime ([call_1] ++ [call_2])
       "10 + 5 * 3 - 8 / 2"
     = Ok {| results := [(PyInt 15, "call_1");
                         (PyFloat (binary_normalize prec emax 4 0 false), "call_2")];
             is_final_step := VBool false;
             call_steps := ["5 * 3 = 15"; "8 / 2 = 4.0"];
             remaining_expression := "10 + 15 - 4" |}.
Proof.
  assert ([call_1] <> []) as H1 by discriminate.
  assert ([call_2] <> []) as H2 by discriminate.
  destruct (@turn_composes reference_runtime [call_1] [call_2] H1 H2) as [Hs Hr].
  split.
  - rewrite Hs. vm_compute. reflexivity.
  - rewrite Hr. vm_compute. reflexivity.
Defined.

(* ===================================================================== *)
(** * Reading the arguments: the two passes *)
(* ===================================================================== *)

(** [s.replace(old, new)] is [s] when [old] does not occur in [s]. *)
Lemma replace_absent old new s :
  contains_text old s = false -> replace old new s = s.
Proof.
  unfold replace. induction s as [|c s IH]; [reflexivity|].
  cbn [contains_text replace_from]. intros Hc.
  apply orb_false_iff in Hc as [Hs Hc].
  rewrite Hs, (IH Hc). reflexivity.
Qed.

Section Passes.
Context `{PyRuntime}.

(** The repair pass on a text without ["op:"] reads the same [dict] again. *)
Lemma repair_pass_absent raw v :
  contains_text "op:" raw = false -> json_loads raw = Ok v ->
  repair_pass raw = extract v false.
Proof.
  intros Hc Hj. unfold repair_pass. rewrite (replace_absent _ _ _ Hc), Hj. reflexivity.
Qed.

Lemma extract_complete d a b op fin fix_op_key :
  d !! "a" = Some a -> d !! "b" = Some b -> d !! "op" = Some op ->
  d !! "is_final_step" = Some fin ->
  extract (VDict d) fix_op_key
  = Ok {| arg_a := a; arg_b := b; arg_op := op; arg_is_final_step := fin |}.
Proof.
  intros Ha Hb Hop Hfin. unfold extract.
  assert ((if fix_op_key
           then match d !! "op:", d !! "op" with
                | Some v, None => <["op" := v]> d
                | _, _ => d
                end
           else d) = d) as ->.
  { destruct fix_op_key; [|reflexivity]. rewrite Hop. now destruct (d !! "op:"). }
  unfold getitem. rewrite Ha, Hb, Hop, Hfin. reflexivity.
Qed.

Lemma extract_missing d key fix_op_key :
  d !! "op:" = None -> first_missing d = Some key ->
  extract (VDict d) fix_op_key = Raise (KeyError key).
Proof.
  intros Hc Hm. unfold extract.
  assert ((if fix_op_key
           then match d !! "op:", d !! "op" with
                | Some v, None => <["op" := v]> d
                | _, _ => d
                end
           else d) = d) as ->.
  { destruct fix_op_key; [|reflexivity]. now rewrite Hc. }
  unfold first_missing, payload_keys in Hm. cbn [find] in Hm. unfold getitem.
  destruct (d !! "a") as [a|];
    [|cbn in Hm; injection Hm as <-; reflexivity].
  destruct (d !! "b") as [b|];
    [|cbn in Hm; injection Hm as <-; reflexivity].
  destruct (d !! "op") as [op|];
    [|cbn in Hm; injection Hm as <-; reflexivity].
  destruct (d !! "is_final_step") as [fin|];
    [|cbn in Hm; injection Hm as <-; reflexivity].
  cbn in Hm. discriminate.
Qed.

End Passes.

(** X4. A payload that decodes to a [dict] with the key ['op:'] in place of
    ['op'] is read as if the key were ['op']: the first pass mends the key
    and the call goes on with the operator found under ['op:']. *)
Theorem op_colon_key_is_mended `{PyRuntime} (raw : string) (d : gmap string pyval)
    (a b fin : pyval) (op : string) :
  json_loads raw = Ok (VDict d) ->
  d !! "op:" = Some (VStr op) -> d !! "op" = None -> valid_op op = true ->
  d !! "a" = Some a -> d !! "b" = Some b -> d !! "is_final_step" = Some fin ->
  parse_arguments raw
  = Ok {| arg_a := a; arg_b := b; arg_op := VStr op; arg_is_final_step := fin |}.
Proof.
  intros Hj Hc Hop Hv Ha Hb Hfin.
  unfold parse_arguments, first_pass. rewrite Hj. cbn [mbind outcome_bind].
  unfold extract. rewrite Hc, Hop. unfold getitem.
  assert (forall j, "op" <> j -> <["op" := VStr op]> d !! j = d !! j) as Hne
    by (intros j Hj'; now apply lookup_insert_ne).
  rewrite (Hne "a"), (Hne "b"), (Hne "is_final_step") by discriminate.
  assert (<["op" := VStr op]> d !! "op" = Some (VStr op)) as ->
    by (now simplify_map_eq).
  rewrite Ha, Hb, Hfin. cbn [mbind outcome_bind arg_op].
  unfold valid_op in Hv. rewrite Hv. reflexivity.
Qed.

Lemma op_colon_key_is_mended_witness :
  @parse_arguments reference_runtime (arguments (function call_op_colon))
  = Ok {| arg_a := VNum (PyInt 1); arg_b := VNum (PyInt 2); arg_op := VStr "+";
          arg_is_final_step := VBool true |}.
Proof.
  assert (@json_loads reference_runtime (arguments (function call_op_colon))
          = Ok (VDict {[ "a" := VNum (PyInt 1); "b" := VNum (PyInt 2);
                         "op:" := VStr "+"; "is_final_step" := VBool true ]})) as Hj
    by (vm_compute; reflexivity).
  apply (op_colon_key_is_mended _ _ _ _ _ _ Hj); vm_compute; reflexivity.
Defined.

(** X5. The check of [op] has no effect on a payload that decodes to a
    [dict] with the four keys and does not hold the text ["op:"]: when the
    first pass rejects the operator, the repair pass reads the same
    arguments again and hands them on unchecked, so the arguments come
    back whatever [op] is. *)
Theorem op_check_is_undone `{PyRuntime} (raw : string) (d : gmap string pyval)
    (a b op fin : pyval) :
  json_loads raw = Ok (VDict d) ->
  contains_text "op:" raw = false ->
  d !! "a" = Some a -> d !! "b" = Some b -> d !! "op" = Some op ->
  d !! "is_final_step" = Some fin ->
  parse_arguments raw
  = Ok {| arg_a := a; arg_b := b; arg_op := op; arg_is_final_step := fin |}.
Proof.
  intros Hj Hc Ha Hb Hop Hfin.
  unfold parse_arguments, first_pass. rewrite Hj. cbn [mbind outcome_bind].
  rewrite (extract_complete _ _ _ _ _ true Ha Hb Hop Hfin).
  cbn [mbind outcome_bind arg_op].
  rewrite (repair_pass_absent _ _ Hc Hj), (extract_complete _ _ _ _ _ false Ha Hb Hop Hfin).
  destruct op as [| | |op| | | |]; try reflexivity.
  destruct (_ || _); reflexivity.
Qed.

Lemma op_check_is_undone_witness :
  @parse_arguments reference_runtime (arguments (function call_percent))
  = Ok {| arg_a := VNum (PyInt 1); arg_b := VNum (PyInt 2); arg_op := VStr "%";
          arg_is_final_step := VBool false |}.
Proof.
  assert (@json_loads reference_runtime (arguments (function call_percent))
          = Ok (VDict (call_dict (PyInt 1) (PyInt 2) "%" (VBool false)))) as Hj
    by (vm_compute; reflexivity).
  apply (op_check_is_undone _ _ _ _ _ _ Hj); vm_compute; reflexivity.
Defined.

(** X6. A payload without the text ["op:"] that is no JSON, or that
    decodes to a [dict] lacking one of the keys [a], [b], [op],
    [is_final_step] (and without a key ['op:']), ends the turn with the
    error of malformed arguments, which carries the raw payload and the
    first error: the decoding error, or the [KeyError] of the first key
    that is missing. *)
Theorem malformed_arguments `{PyRuntime} (raw : string) :
  contains_text "op:" raw = false ->
  (json_loads raw = Raise JSONDecodeError ->
   parse_arguments raw = Raise (MalformedArguments raw JSONDecodeError))
  /\ (forall d key,
        json_loads raw = Ok (VDict d) -> d !! "op:" = None ->
        first_missing d = Some key ->
        parse_arguments raw = Raise (MalformedArguments raw (KeyError key))).
Proof.
  intros Hc. split.
  - intros Hj. unfold parse_arguments, first_pass, repair_pass.
    rewrite (replace_absent _ _ _ Hc), Hj. reflexivity.
  - intros d key Hj Hd Hm. unfold parse_arguments, first_pass.
    rewrite Hj. cbn [mbind outcome_bind].
    rewrite (extract_missing _ _ true Hd Hm). cbn [mbind outcome_bind].
    rewrite (repair_pass_absent _ _ Hc Hj), (extract_missing _ _ false Hd Hm).
    reflexivity.
Qed.

Lemma malformed_arguments_witness :
  @parse_arguments reference_runtime "{not json"
  = Raise (MalformedArguments "{not json" JSONDecodeError)
  /\ @parse_arguments reference_runtime (arguments (function call_no_op))
     = Raise (MalformedArguments (arguments (function call_no_op)) (KeyError "op")).
Proof.
  split.
  - assert (contains_text "op:" "{not json" = false) as Hc by (vm_compute; reflexivity).
    assert (@json_loads reference_runtime "{not json" = Raise JSONDecodeError) as Hj
      by (vm_compute; reflexivity).
    exact (proj1 (@malformed_arguments reference_runtime _ Hc) Hj).
  - assert (contains_text "op:" (arguments (function call_no_op)) = false) as Hc
      by (vm_compute; reflexivity).
    assert (@json_loads reference_runtime (arguments (function call_no_op))
            = Ok (VDict {[ "a" := VNum (PyInt 1); "b" := VNum (PyInt 2);
                           "is_final_step" := VBool true ]})) as Hj
      by (vm_compute; reflexivity).
    apply (proj2 (@malformed_arguments reference_runtime _ Hc) _ _ Hj);
      vm_compute; reflexivity.
Defined.

(* ===================================================================== *)
(** * The runs: model calls, returned values, prompts *)
(* ===================================================================== *)

Section Runs.
Context `{PyRuntime} {C : Type} `{LLMClient C}.

(** A loop entered at call [i] sends at least one prompt and at most
    [max_llm_calls - i + 1] of them (one when that is less). *)
Lemma stepwise_loop_calls fuel :
  forall self llm_client e prompt_msg steps i sent r,
    StepwiseCalculatorAgent.run_loop fuel self llm_client e prompt_msg steps i sent = Some r ->
    (length sent < length (prompts r)
     <= length sent
        + Z.to_nat (Z.max 1 (StepwiseCalculatorAgent.max_llm_calls self - i + 1)))%nat.
Proof.
  induction fuel as [|fuel IH]; intros self llm_client e prompt_msg steps i sent r;
    [discriminate|].
  cbn [StepwiseCalculatorAgent.run_loop].
  destruct (run_prompt llm_client prompt_msg) as [response llm'].
  destruct (StepwiseCalculatorAgent._process_tool_calls (tool_calls response));
    [|intros [= <-]; cbn [prompts]; rewrite List.length_app; cbn [length]; lia].
  destruct (truthy _);
    [intros [= <-]; cbn [prompts]; rewrite List.length_app; cbn [length]; lia|].
  destruct (i >=? _) eqn:Hi;
    [intros [= <-]; cbn [prompts]; rewrite List.length_app; cbn [length]; lia|].
  intros Hr. apply IH in Hr. rewrite List.length_app in Hr. cbn [length] in Hr.
  rewrite Z.geb_leb in Hi. apply Z.leb_gt in Hi. lia.
Qed.

Lemma reducing_loop_calls fuel :
  forall self llm_client e steps i previous sent r,
    ReducingCalculatorAgent.run_loop fuel self llm_client e steps i previous sent = Some r ->
    (length sent < length (prompts r)
     <= length sent
        + Z.to_nat (Z.max 1 (ReducingCalculatorAgent.max_llm_calls self - i + 1)))%nat.
Proof.
  induction fuel as [|fuel IH]; intros self llm_client e steps i previous sent r;
    [discriminate|].
  cbn [ReducingCalculatorAgent.run_loop].
  destruct (run_prompt llm_client _) as [response llm'].
  destruct (ReducingCalculatorAgent._process_tool_calls _ _);
    [|intros [= <-]; cbn [prompts]; rewrite List.length_app; cbn [length]; lia].
  destruct (if bool_decide _ then _ else _);
    [intros [= <-]; cbn [prompts]; rewrite List.length_app; cbn [length]; lia|].
  destruct (truthy _);
    [intros [= <-]; cbn [prompts]; rewrite List.length_app; cbn [length]; lia|].
  destruct (i >=? _) eqn:Hi;
    [intros [= <-]; cbn [prompts]; rewrite List.length_app; cbn [length]; lia|].
  intros Hr. apply IH in Hr. rewrite List.length_app in Hr. cbn [length] in Hr.
  rewrite Z.geb_leb in Hi. apply Z.leb_gt in Hi. lia.
Qed.


End Runs.

(** X7. A run calls the model at most [max(1, max_llm_calls)] times, and
    at least once when the expression is valid; on an invalid expression
    it raises the validation error without calling the model at all.
    In each case the run comes back. *)
Theorem model_calls_are_bounded `{PyRuntime} {C : Type} `{LLMClient C}
    (llm_client : C) (e : string) :
  (forall self : StepwiseCalculatorAgent.config,
     exists r, StepwiseCalculatorAgent.run self llm_client e = Some r
       /\ match validate_expression e (StepwiseCalculatorAgent.max_expression_length self) with
          | Ok _ =>
              (1 <= length (prompts r)
               <= Z.to_nat (Z.max 1 (StepwiseCalculatorAgent.max_llm_calls self)))%nat
          | Raise x => returned r = Raise x /\ client r = llm_client /\ prompts r = []
          end)
  /\ (forall self : ReducingCalculatorAgent.config,
     exists r, ReducingCalculatorAgent.run self llm_client e = Some r
       /\ match validate_expression e (ReducingCalculatorAgent.max_expression_length self) with
          | Ok _ =>
              (1 <= length (prompts r)
               <= Z.to_nat (Z.max 1 (ReducingCalculatorAgent.max_llm_calls self)))%nat
          | Raise x => returned r = Raise x /\ client r = llm_client /\ prompts r = []
          end).
Proof.
  split; intros self.
  - destruct (stepwise_run_total self llm_client e) as [r Hr]. exists r.
    split; [exact Hr|]. unfold StepwiseCalculatorAgent.run in Hr.
    destruct (validate_expression _ _).
    + apply stepwise_loop_calls in Hr. cbn [length] in Hr. lia.
    + injection Hr as <-. auto.
  - destruct (reducing_run_total self llm_client e) as [r Hr]. exists r.
    split; [exact Hr|]. unfold ReducingCalculatorAgent.run in Hr.
    destruct (validate_expression _ _).
    + apply reducing_loop_calls in Hr. cbn [length] in Hr. lia.
    + injection Hr as <-. auto.
Qed.



Section BlindClient.
Context `{PyRuntime} {C : Type} `{LLMClient C}.
Hypothesis Hblind : prompt_blind.

(** With a client that does not look at the prompt, the Stepwise loop
    does the same whatever the expression and the prompt. *)
Lemma stepwise_loop_blind fuel :
  forall self llm_client e1 e2 p1 p2 steps i sent1 sent2,
    length sent1 = length sent2 ->
    match StepwiseCalculatorAgent.run_loop fuel self llm_client e1 p1 steps i sent1,
          StepwiseCalculatorAgent.run_loop fuel self llm_client e2 p2 steps i sent2 with
    | Some r1, Some r2 =>
        returned r1 = returned r2 /\ client r1 = client r2
        /\ length (prompts r1) = length (prompts r2)
    | None, None => True
    | _, _ => False
    end.
Proof.
  induction fuel as [|fuel IH]; intros self llm_client e1 e2 p1 p2 steps i sent1 sent2 Hlen;
    [exact I|].
  cbn [StepwiseCalculatorAgent.run_loop].
  rewrite (Hblind llm_client p1 p2).
  destruct (run_prompt llm_client p2) as [response llm'].
  assert (length (sent1 ++ [p1]) = length (sent2 ++ [p2])) as Hlen'
    by (rewrite !List.length_app; cbn [length]; lia).
  destruct (StepwiseCalculatorAgent._process_tool_calls (tool_calls response)) as [result|];
    [|cbn [returned client prompts]; auto].
  destruct (truthy _); [cbn [returned client prompts]; auto|].
  destruct (i >=? _); [cbn [returned client prompts]; auto|].
  apply IH. exact Hlen'.
Qed.

End BlindClient.

(** X9. The Stepwise agent computes with the tool calls alone: once the
    expression has passed the validation it only goes into the prompts,
    so with a model client that does not look at the prompt, two valid
    expressions give the same returned value, the same client state and
    the same number of model calls. *)
Theorem stepwise_result_ignores_expression `{PyRuntime} {C : Type} `{LLMClient C}
    (self : StepwiseCalculatorAgent.config) (llm_client : C) (e1 e2 : string) :
  prompt_blind ->
  validate_expression e1 (StepwiseCalculatorAgent.max_expression_length self) = Ok true ->
  validate_expression e2 (StepwiseCalculatorAgent.max_expression_length self) = Ok true ->
  exists r1 r2,
    StepwiseCalculatorAgent.run self llm_client e1 = Some r1
    /\ StepwiseCalculatorAgent.run self llm_client e2 = Some r2
    /\ returned r1 = returned r2 /\ client r1 = client r2
    /\ length (prompts r1) = length (prompts r2).
Proof.
  intros Hblind H1 H2.
  destruct (stepwise_run_total self llm_client e1) as [r1 Hr1].
  destruct (stepwise_run_total self llm_client e2) as [r2 Hr2].
  exists r1, r2. split; [exact Hr1|]. split; [exact Hr2|].
  unfold StepwiseCalculatorAgent.run in Hr1, Hr2. rewrite H1 in Hr1. rewrite H2 in Hr2.
  match type of Hr1 with
  | StepwiseCalculatorAgent.run_loop ?fuel _ _ _ ?p1 _ _ _ = _ =>
      match type of Hr2 with
      | StepwiseCalculatorAgent.run_loop _ _ _ _ ?p2 _ _ _ = _ =>
          pose proof (stepwise_loop_blind Hblind fuel self llm_client
                        e1 e2 p1 p2 [] 1 [] [] eq_refl) as Hb
      end
  end.
  rewrite Hr1, Hr2 in Hb. exact Hb.
Qed.

Lemma stepwise_result_ignores_expression_witness :
  exists r1 r2,
    @StepwiseCalculatorAgent.run reference_runtime _ _ stepwise_reference_config
      round_trip_script "10 + 5 * 3 - 8 / 2" = Some r1
    /\ @StepwiseCalculatorAgent.run reference_runtime _ _ stepwise_reference_config
         round_trip_script "1 + 1" = Some r2
    /\ returned r1 = returned r2 /\ client r1 = client r2
    /\ length (prompts r1) = length (prompts r2).
Proof.
  assert (@prompt_blind (list Response) scripted_client) as Hblind
    by (intros c p q; reflexivity).
  assert (validate_expression "10 + 5 * 3 - 8 / 2"
            (StepwiseCalculatorAgent.max_expression_length stepwise_reference_config)
          = Ok true) as H1 by (vm_compute; reflexivity).
  assert (validate_expression "1 + 1"
            (StepwiseCalculatorAgent.max_expression_length stepwise_reference_config)
          = Ok true) as H2 by (vm_compute; reflexivity).
  exact (@stepwise_result_ignores_expression reference_runtime _ _
           stepwise_reference_config round_trip_script _ _ Hblind H1 H2).
Defined.

Section Prompts.
Context `{PyRuntime} {C : Type} `{LLMClient C}.

(** The tool-result messages are appended one by one. *)
Lemma add_tool_results (l : list (Number * string)) :
  forall h : MessageHistory,
    fold_left (fun h '(result, tool_call_id) =>
                 add_tool_result_message result tool_call_id h) l h
    = (h ++ map (fun '(result, tool_call_id) => ToolResultMessage result tool_call_id) l)%list.
Proof.
  induction l as [|[result tool_call_id] l IH]; intros h; cbn [fold_left map].
  - now rewrite app_nil_r.
  - rewrite IH. unfold add_tool_result_message. now rewrite <- app_assoc.
Qed.

(** The next prompt of the Stepwise agent: the history with further
    messages, or a fresh pair of messages. *)
Lemma stepwise_next_prompt self prompt_msg e steps l response :
  if StepwiseCalculatorAgent.append_messages self
  then extends prompt_msg
         (StepwiseCalculatorAgent._prepare_next_prompt self prompt_msg e steps l response)
  else fresh_prompt (StepwiseCalculatorAgent.system_prompt self)
         (StepwiseCalculatorAgent._prepare_next_prompt self prompt_msg e steps l response).
Proof.
  unfold StepwiseCalculatorAgent._prepare_next_prompt.
  destruct (StepwiseCalculatorAgent.append_messages self).
  - destruct (StepwiseCalculatorAgent.return_tool_call_msgs self).
    + rewrite add_tool_results. unfold add_user_message, add_generic_message.
      exists (GenericMessage response
              :: map (fun '(result, tool_call_id) => ToolResultMessage result tool_call_id) l).
      eexists. rewrite <- !app_assoc. reflexivity.
    + exists []. eexists. reflexivity.
  - eexists. reflexivity.
Qed.

Lemma stepwise_loop_prompts fuel :
  forall self llm_client e prompt_msg steps i sent r,
    StepwiseCalculatorAgent.run_loop fuel self llm_client e prompt_msg steps i sent = Some r ->
    exists rest,
      prompts r = (sent ++ prompt_msg :: rest)%list
      /\ if StepwiseCalculatorAgent.append_messages self
         then chain extends (prompt_msg :: rest)
         else Forall (fresh_prompt (StepwiseCalculatorAgent.system_prompt self)) rest.
Proof.
  assert (forall (self : StepwiseCalculatorAgent.config) (sent : list MessageHistory)
                 (prompt_msg : MessageHistory),
            exists rest : list MessageHistory,
              (sent ++ [prompt_msg])%list = (sent ++ prompt_msg :: rest)%list
              /\ if StepwiseCalculatorAgent.append_messages self
                 then chain extends (prompt_msg :: rest)
                 else Forall (fresh_prompt (StepwiseCalculatorAgent.system_prompt self)) rest)
    as Hstop.
  { intros self sent prompt_msg. exists []. split; [reflexivity|].
    destruct (StepwiseCalculatorAgent.append_messages self); [exact I | constructor]. }
  induction fuel as [|fuel IH]; intros self llm_client e prompt_msg steps i sent r;
    [discriminate|].
  cbn [StepwiseCalculatorAgent.run_loop].
  destruct (run_prompt llm_client prompt_msg) as [response llm'].
  destruct (StepwiseCalculatorAgent._process_tool_calls (tool_calls response)) as [result|];
    [|intros [= <-]; apply Hstop].
  destruct (truthy _); [intros [= <-]; apply Hstop|].
  destruct (i >=? _); [intros [= <-]; apply Hstop|].
  intros Hr. apply IH in Hr as (rest & Hp & Hrest).
  eexists (_ :: rest). rewrite Hp, <- app_assoc. split; [reflexivity|].
  pose proof (stepwise_next_prompt self prompt_msg e (steps ++ call_steps result)%list
                (results result) response) as Hnext.
  destruct (StepwiseCalculatorAgent.append_messages self).
  - split; [exact Hnext | exact Hrest].
  - constructor; [exact Hnext | exact Hrest].
Qed.

Lemma reducing_loop_prompts fuel :
  forall self llm_client e steps i previous sent r,
    ReducingCalculatorAgent.run_loop fuel self llm_client e steps i previous sent = Some r ->
    exists rest,
      prompts r = (sent ++ ReducingCalculatorAgent._prepare_next_prompt self e :: rest)%list
      /\ Forall (fresh_prompt (ReducingCalculatorAgent.system_prompt self)) rest.
Proof.
  induction fuel as [|fuel IH]; intros self llm_client e steps i previous sent r;
    [discriminate|].
  cbn [ReducingCalculatorAgent.run_loop].
  destruct (run_prompt llm_client _) as [response llm'].
  destruct (ReducingCalculatorAgent._process_tool_calls _ _) as [result|];
    [|intros [= <-]; exists []; split; [reflexivity | constructor]].
  destruct (if bool_decide _ then _ else _);
    [intros [= <-]; exists []; split; [reflexivity | constructor]|].
  destruct (truthy _); [intros [= <-]; exists []; split; [reflexivity | constructor]|].
  destruct (i >=? _); [intros [= <-]; exists []; split; [reflexivity | constructor]|].
  intros Hr. apply IH in Hr as (rest & Hp & Hrest).
  eexists (_ :: rest). rewrite Hp, <- app_assoc. split; [reflexivity|].
  constructor; [|exact Hrest]. eexists. reflexivity.
Qed.

End Prompts.

(** X10. The prompts of a run on a valid expression.  The first prompt is
    the system prompt followed by the user prompt with the expression in
    place of [{EXPRESSION}].  In the Stepwise agent with [append_messages]
    every later prompt is the prompt before it with further messages, the
    last of them a user message; without [append_messages], and always in
    the Reducing agent, every prompt is a fresh pair of the system prompt
    and a user message. *)
Theorem prompts_of_a_run `{PyRuntime} {C : Type} `{LLMClient C}
    (llm_client : C) (e : string) (r : Run C) :
  (forall self : StepwiseCalculatorAgent.config,
     validate_expression e (StepwiseCalculatorAgent.max_expression_length self) = Ok true ->
     StepwiseCalculatorAgent.run self llm_client e = Some r ->
     exists rest,
       prompts r
       = [SystemMessage (StepwiseCalculatorAgent.system_prompt self);
          UserMessage (replace "{EXPRESSION}" e (StepwiseCalculatorAgent.initial_prompt self))]
         :: rest
       /\ if StepwiseCalculatorAgent.append_messages self
          then chain extends (prompts r)
          else Forall (fresh_prompt (StepwiseCalculatorAgent.system_prompt self)) (prompts r))
  /\ (forall self : ReducingCalculatorAgent.config,
     validate_expression e (ReducingCalculatorAgent.max_expression_length self) = Ok true ->
     ReducingCalculatorAgent.run self llm_client e = Some r ->
     exists rest,
       prompts r
       = [SystemMessage (ReducingCalculatorAgent.system_prompt self);
          UserMessage (replace "{EXPRESSION}" e (ReducingCalculatorAgent.prompt self))]
         :: rest
       /\ Forall (fresh_prompt (ReducingCalculatorAgent.system_prompt self)) (prompts r)).
Proof.
  split; intros self Hv Hr.
  - unfold StepwiseCalculatorAgent.run in Hr. rewrite Hv in Hr.
    apply stepwise_loop_prompts in Hr as (rest & Hp & Hrest).
    exists rest. rewrite Hp. split; [reflexivity|]. cbn [app].
    destruct (StepwiseCalculatorAgent.append_messages self); [exact Hrest|].
    constructor; [eexists; reflexivity | exact Hrest].
  - unfold ReducingCalculatorAgent.run in Hr. rewrite Hv in Hr.
    apply reducing_loop_prompts in Hr as (rest & Hp & Hrest).
    exists rest. rewrite Hp. split; [reflexivity|]. cbn [app].
    constructor; [eexists; reflexivity | exact Hrest].
Qed.

Lemma prompts_of_a_run_witness :
  (exists r, @StepwiseCalculatorAgent.run reference_runtime _ _ stepwise_reference_config
               round_trip_script "10 + 5 * 3 - 8 / 2" = Some r
             /\ length (prompts r) = 4%nat
             /\ chain extends (prompts r))
  /\ (exists r, @ReducingCalculatorAgent.run reference_runtime _ _ reducing_reference_config
                  round_trip_script "10 + 5 * 3 - 8 / 2" = Some r
                /\ length (prompts r) = 4%nat
                /\ Forall (fresh_prompt "You are a calculator.") (prompts r)).
Proof.
  assert (validate_expression "10 + 5 * 3 - 8 / 2" 100 = Ok true) as Hv
    by (vm_compute; reflexivity).
  split.
  - destruct (@StepwiseCalculatorAgent.run reference_runtime _ _ stepwise_reference_config
                round_trip_script "10 + 5 * 3 - 8 / 2") as [r|] eqn:E;
      [|vm_compute in E; discriminate].
    exists r. split; [reflexivity|]. split.
    + vm_compute in E. injection E as <-. reflexivity.
    + destruct (proj1 (@prompts_of_a_run reference_runtime _ _ round_trip_script
                         "10 + 5 * 3 - 8 / 2" r) stepwise_reference_config Hv E)
        as (rest & _ & Hc).
      exact Hc.
  - destruct (@ReducingCalculatorAgent.run reference_runtime _ _ reducing_reference_config
                round_trip_script "10 + 5 * 3 - 8 / 2") as [r|] eqn:E;
      [|vm_compute in E; discriminate].
    exists r. split; [reflexivity|]. split.
    + vm_compute in E. injection E as <-. reflexivity.
    + destruct (proj2 (@prompts_of_a_run reference_runtime _ _ round_trip_script
                         "10 + 5 * 3 - 8 / 2" r) reducing_reference_config Hv E)
        as (rest & _ & Hc).
      exact Hc.
Defined.

(* ===================================================================== *)
(** * Splitting and joining; the fallback read backwards *)
(* ===================================================================== *)

Lemma split_not_nil c s : split c s <> [].
Proof.
  destruct s as [|x s]; cbn [split]; [discriminate|].
  destruct (Ascii.eqb x c); [discriminate|]. destruct (split c s); discriminate.
Qed.

(** [c.join(s.split(c))] is [s]. *)
Lemma join_split c s : join (String c "") (split c s) = s.
Proof.
  induction s as [|x s IH]; [reflexivity|]. cbn [split].
  destruct (Ascii.eqb_spec x c) as [->|Hne].
  - pose proof (split_not_nil c s) as Hn.
    destruct (split c s) as [|q qs]; [congruence|].
    change (join (String c "") ("" :: q :: qs))
      with ("" +:+ String c "" +:+ join (String c "") (q :: qs)).
    rewrite IH. now app_simpl.
  - pose proof (split_not_nil c s) as Hn.
    destruct (split c s) as [|q qs]; [congruence|].
    destruct qs as [|q' qs].
    + cbn [join] in *. now rewrite IH.
    + change (join (String c "") (String x q :: q' :: qs))
        with (String x q +:+ String c "" +:+ join (String c "") (q' :: qs)).
      change (join (String c "") (q :: q' :: qs))
        with (q +:+ String c "" +:+ join (String c "") (q' :: qs)) in IH.
      rewrite <- IH. now app_simpl.
Qed.

(** The [try] of the fallback for one operator, read backwards. *)
Lemma try_operator_sound op e v :
  ReducingCalculatorAgent.try_operator op e = Some v ->
  exists l r x y,
    e = l +:+ String op r
    /\ py_float (strip l) = Ok x /\ py_float (strip r) = Ok y
    /\ v = (if Ascii.eqb op "+" then VNum (PyFloat (SFadd prec emax x y))
            else if Ascii.eqb op "-" then VNum (PyFloat (SFsub prec emax x y))
            else if Ascii.eqb op "*" then VNum (PyFloat (SFmul prec emax x y))
            else if Ascii.eqb op "/" && negb (float_is_zero y)
                 then VNum (PyFloat (SFdiv prec emax x y))
            else VNone).
Proof.
  unfold ReducingCalculatorAgent.try_operator.
  pose proof (join_split op e) as Hj.
  destruct (split op e) as [|l [|r [|? ?]]]; try discriminate.
  destruct (py_float (strip l)) as [x|] eqn:Hx; [|discriminate].
  destruct (py_float (strip r)) as [y|] eqn:Hy; [|discriminate].
  intros [= <-]. exists l, r, x, y.
  cbn [join] in Hj. revert Hj. app_simpl. intros <-. auto.
Qed.

(** X11. Whenever the single-operator fallback of the Reducing agent
    returns, the expression holds exactly one operator character, both
    sides of it read as floats, and the value returned is their sum,
    difference, product or quotient as floats ([None] for a division by
    zero). *)
Theorem single_operator_fallback_sound (e : string) (v : pyval) :
  ReducingCalculatorAgent.single_operator_fallback e = Some v ->
  operator_count e = 1
  /\ exists op l r x y,
       is_operator op = true /\ e = l +:+ String op r
       /\ py_float (strip l) = Ok x /\ py_float (strip r) = Ok y
       /\ v = direct_value op x y.
Proof.
  unfold ReducingCalculatorAgent.single_operator_fallback, operator_count.
  destruct (_ =? 1) eqn:Hc; [|discriminate]. apply Z.eqb_eq in Hc.
  intros Ht. split; [exact Hc|].
  assert (exists op, is_operator op = true
                     /\ ReducingCalculatorAgent.try_operator op e = Some v) as (op & Hop & Hv).
  { cbn [ReducingCalculatorAgent.try_operators] in Ht.
    repeat match type of Ht with
           | (if contains ?c e then _ else _) = Some v =>
               destruct (contains c e); cbv beta iota in Ht
           | match ReducingCalculatorAgent.try_operator ?c e with _ => _ end = Some v =>
               destruct (ReducingCalculatorAgent.try_operator c e) as [w|] eqn:Hw;
               cbv beta iota in Ht;
               [injection Ht as ->; exists c; split; [reflexivity | exact Hw] | clear Hw]
           end; discriminate. }
  apply try_operator_sound in Hv as (l & r & x & y & He & Hx & Hy & Hv).
  exists op, l, r, x, y. repeat (split; [assumption|]).
  rewrite Hv. unfold direct_value, is_operator in *.
  destruct (Ascii.eqb op "+"); [reflexivity|].
  destruct (Ascii.eqb op "-"); [reflexivity|].
  destruct (Ascii.eqb op "*"); [reflexivity|].
  destruct (Ascii.eqb op "/"); [|discriminate].
  now destruct (float_is_zero y).
Qed.

Lemma single_operator_fallback_sound_witness :
  operator_count "5 + 5" = 1
  /\ exists op l r x y,
       is_operator op = true /\ "5 + 5" = l +:+ String op r
       /\ py_float (strip l) = Ok x /\ py_float (strip r) = Ok y
       /\ VNum (PyFloat (binary_normalize prec emax 10 0 false)) = direct_value op x y.
Proof.
  assert (ReducingCalculatorAgent.single_operator_fallback "5 + 5"
          = Some (VNum (PyFloat (binary_normalize prec emax 10 0 false)))) as Hf
    by (vm_compute; reflexivity).
  exact (single_operator_fallback_sound _ _ Hf).
Defined.

(* ===================================================================== *)
(** * What the anchored patterns match *)
(* ===================================================================== *)

(** A match of literal characters followed by [re]. *)
Lemma match_literals s :
  forall re prev t n,
    match_here (literals s ++ re)%list prev t = Some n ->
    exists t' n',
      t = s +:+ t' /\ match_here re (last_char prev s) t' = Some n'
      /\ n = (String.length s + n')%nat.
Proof.
  induction s as [|c s IH]; intros re prev t n; cbn [literals app].
  - intros Hm. exists t, n. auto.
  - cbn [match_here]. destruct t as [|x t]; [discriminate|].
    unfold atom_mem. cbn [existsb cset_mem]. rewrite orb_false_r.
    destruct (Ascii.eqb_spec x c) as [->|]; [|discriminate].
    destruct (match_here (literals s ++ re)%list (Some c) t) as [m|] eqn:Hm; [|discriminate].
    intros [= <-]. apply IH in Hm as (t' & n' & -> & Hre & ->).
    exists t', n'. app_simpl. auto.
Qed.

(** A match of [\s*] followed by the continuation [k]. *)
Lemma match_spaces k :
  forall t prev n,
    greedy [Space] k prev t = Some n ->
    exists ws t' n',
      t = ws +:+ t' /\ all_chars is_space ws = true
      /\ k (last_char prev ws) t' = Some n'
      /\ n = (String.length ws + n')%nat.
Proof.
  induction t as [|x t IH]; intros prev n; cbn [greedy].
  - intros Hk. exists "", "", n. auto.
  - unfold atom_mem. cbn [existsb cset_mem]. rewrite orb_false_r.
    destruct (is_space x) eqn:Hx.
    + destruct (greedy [Space] k (Some x) t) as [m|] eqn:Hg.
      * intros [= <-]. apply IH in Hg as (ws & t' & n' & -> & Hws & Hk & ->).
        exists (String x ws), t', n'. cbn [all_chars last_char String.length].
        rewrite Hx, Hws. app_simpl. auto.
      * intros Hk. exists "", (String x t), n. auto.
    + intros Hk. exists "", (String x t), n. auto.
Qed.

Lemma match_star re prev t n :
  match_here (Chars [Space] ZeroOrMore :: re) prev t = Some n ->
  exists ws t' n',
    t = ws +:+ t' /\ all_chars is_space ws = true
    /\ match_here re (last_char prev ws) t' = Some n'
    /\ n = (String.length ws + n')%nat.
Proof.
  intros Hm. change (greedy [Space] (match_here re) prev t = Some n) in Hm.
  now apply match_spaces in Hm.
Qed.

(** A match of one given character followed by [re]. *)
Lemma match_char c re prev t n :
  match_here (Chars [Chr c] Once :: re) prev t = Some n ->
  exists t' n', t = String c t' /\ match_here re (Some c) t' = Some n' /\ n = S n'.
Proof.
  cbn [match_here]. destruct t as [|x t]; [discriminate|].
  unfold atom_mem. cbn [existsb cset_mem]. rewrite orb_false_r.
  destruct (Ascii.eqb_spec x c) as [->|]; [|discriminate].
  destruct (match_here re (Some c) t) as [m|] eqn:Hm; [|discriminate].
  intros [= <-]. exists t, m. auto.
Qed.

Lemma match_boundary re prev t n :
  match_here (WordBoundary :: re) prev t = Some n ->
  at_boundary prev t = true /\ match_here re prev t = Some n.
Proof.
  cbn [match_here]. destruct (at_boundary prev t); [auto | discriminate].
Qed.

(** The text between two word boundaries that the pattern of an
    operation matches, followed by [re]. *)
Lemma match_operation a b op re prev t n :
  match_here (standard_regex a b op ++ re)%list prev t = Some n ->
  exists ws1 ws2 t' n',
    let mid := str_of_int a +:+ ws1 +:+ String op ws2 +:+ str_of_int b in
    t = mid +:+ t'
    /\ all_chars is_space ws1 = true /\ all_chars is_space ws2 = true
    /\ at_boundary prev t = true
    /\ at_boundary (last_char prev mid) t' = true
    /\ match_here re (last_char prev mid) t' = Some n'
    /\ n = (String.length mid + n')%nat.
Proof.
  unfold standard_regex. rewrite <- !app_assoc. cbn [app].
  intros Hm. apply match_boundary in Hm as [Hb1 Hm].
  apply match_literals in Hm as (t1 & n1 & -> & Hm & ->).
  apply match_boundary in Hm as [_ Hm].
  apply match_star in Hm as (ws1 & t2 & n2 & -> & Hws1 & Hm & ->).
  apply match_char in Hm as (t3 & n3 & -> & Hm & ->).
  apply match_star in Hm as (ws2 & t4 & n4 & -> & Hws2 & Hm & ->).
  apply match_boundary in Hm as [_ Hm].
  apply match_literals in Hm as (t5 & n5 & -> & Hm & ->).
  apply match_boundary in Hm as [Hb2 Hm].
  exists ws1, ws2, t5, n5. cbv zeta.
  rewrite !last_char_app. cbn [last_char].
  rewrite !length_app. cbn [String.length].
  repeat split; try assumption; [|lia].
  rewrite !app_assoc_str. now app_simpl.
Qed.

(** Two splits of a text at the same position are the same split. *)
Lemma app_inv_length m q m' q' :
  m +:+ q = m' +:+ q' -> String.length m = String.length m' -> m = m' /\ q = q'.
Proof.
  intros He Hl. split.
  - rewrite <- (take_app_length m q), He, Hl. apply take_app_length.
  - rewrite <- (drop_app_length m q), He, Hl. apply drop_app_length.
Qed.

Lemma match_end prev t n : match_here [] prev t = Some n -> n = O.
Proof. cbn. congruence. Qed.

(** The matches of the two compiled patterns for ints. *)
Lemma standard_regex_match a b op e pre mid post :
  re_search (standard_regex a b op) e = Some (pre, mid, post) ->
  e = pre +:+ mid +:+ post
  /\ exists ws1 ws2,
       mid = str_of_int a +:+ ws1 +:+ String op ws2 +:+ str_of_int b
       /\ all_chars is_space ws1 = true /\ all_chars is_space ws2 = true
       /\ at_boundary (last_char None pre) (mid +:+ post) = true
       /\ at_boundary (last_char None (pre +:+ mid)) post = true.
Proof.
  intros Hs. apply re_search_spec in Hs as (He & Hm & _). split; [exact He|].
  rewrite <- (app_nil_r (standard_regex a b op)) in Hm.
  apply match_operation in Hm as (ws1 & ws2 & t' & n' & Ht & Hw1 & Hw2 & Hb1 & Hb2 & Hm & Hn).
  cbv zeta in *. apply match_end in Hm as ->.
  apply app_inv_length in Ht as [-> ->]; [|lia].
  exists ws1, ws2. rewrite last_char_app. auto.
Qed.

Lemma parentheses_regex_match a b op e pre mid post :
  re_search (parentheses_regex a b op) e = Some (pre, mid, post) ->
  e = pre +:+ mid +:+ post
  /\ exists ws0 ws1 ws2 ws3,
       mid = String "(" (ws0 +:+ str_of_int a +:+ ws1 +:+ String op ws2 +:+ str_of_int b
                         +:+ ws3 +:+ ")")
       /\ all_chars is_space ws0 = true /\ all_chars is_space ws1 = true
       /\ all_chars is_space ws2 = true /\ all_chars is_space ws3 = true.
Proof.
  intros Hs. apply re_search_spec in Hs as (He & Hm & _). split; [exact He|].
  unfold parentheses_regex in Hm. cbn [app] in Hm.
  apply match_char in Hm as (t1 & n1 & Ht1 & Hm & Hn1).
  apply match_star in Hm as (ws0 & t2 & n2 & -> & Hw0 & Hm & ->).
  apply match_operation in Hm as (ws1 & ws2 & t3 & n3 & -> & Hw1 & Hw2 & _ & _ & Hm & ->).
  cbv zeta in *.
  apply match_star in Hm as (ws3 & t4 & n4 & -> & Hw3 & Hm & ->).
  apply match_char in Hm as (t5 & n5 & -> & Hm & ->).
  apply match_end in Hm as ->.
  exists ws0, ws1, ws2, ws3. split; [|auto].
  assert (mid +:+ post
          = String "(" (ws0 +:+ str_of_int a +:+ ws1 +:+ String op ws2 +:+ str_of_int b
                        +:+ ws3 +:+ ")") +:+ t5) as Hsplit.
  { rewrite Ht1.
    repeat first [rewrite app_assoc_str | rewrite app_nil_l | rewrite app_cons].
    reflexivity. }
  apply app_inv_length in Hsplit as [-> _]; [reflexivity|].
  rewrite Hn1.
  repeat first [rewrite length_app | progress cbn [String.length]]. lia.
Qed.

(** X12. What the two anchored rules of [reduce_expression] replace, for
    two int operands and one of the four operators: the bare pattern
    matches the text of [a], whitespace, the operator, whitespace and the
    text of [b], with a word boundary before and after; the parenthesized
    pattern matches the same between two parentheses with whitespace
    inside them.  Nothing else of the expression is part of the match. *)
Theorem anchored_rules_match_the_operation (e : string) (a b : Z) (op : ascii)
    (pattern : string) (re : regex) (pre mid post : string) :
  is_operator op = true ->
  re_compile pattern = Ok re ->
  re_search re e = Some (pre, mid, post) ->
  (standard_pattern (PyInt a) (PyInt b) (String op "") = Ok pattern ->
   e = pre +:+ mid +:+ post
   /\ exists ws1 ws2,
        mid = str_of_int a +:+ ws1 +:+ String op ws2 +:+ str_of_int b
        /\ all_chars is_space ws1 = true /\ all_chars is_space ws2 = true
        /\ at_boundary (last_char None pre) (mid +:+ post) = true
        /\ at_boundary (last_char None (pre +:+ mid)) post = true)
  /\ (parentheses_pattern (PyInt a) (PyInt b) (String op "") = Ok pattern ->
      e = pre +:+ mid +:+ post
      /\ exists ws0 ws1 ws2 ws3,
           mid = String "(" (ws0 +:+ str_of_int a +:+ ws1 +:+ String op ws2
                             +:+ str_of_int b +:+ ws3 +:+ ")")
           /\ all_chars is_space ws0 = true /\ all_chars is_space ws1 = true
           /\ all_chars is_space ws2 = true /\ all_chars is_space ws3 = true).
Proof.
  intros Hop Hre Hs. split; intros Hp.
  - rewrite (standard_pattern_compiled _ _ _ _ Hop Hp) in Hre.
    injection Hre as <-. now apply standard_regex_match.
  - rewrite (parentheses_pattern_compiled _ _ _ _ Hop Hp) in Hre.
    injection Hre as <-. now apply parentheses_regex_match.
Qed.

Lemma anchored_rules_match_the_operation_witness :
  (exists ws1 ws2,
     "5 * 3" = str_of_int 5 +:+ ws1 +:+ String "*" ws2 +:+ str_of_int 3
     /\ all_chars is_space ws1 = true /\ all_chars is_space ws2 = true
     /\ at_boundary (last_char None "10 + ") ("5 * 3" +:+ " - 8 / 2") = true
     /\ at_boundary (last_char None ("10 + " +:+ "5 * 3")) " - 8 / 2" = true)
  /\ (exists ws0 ws1 ws2 ws3,
        "(3 + 4)" = String "(" (ws0 +:+ str_of_int 3 +:+ ws1 +:+ String "+" ws2
                                +:+ str_of_int 4 +:+ ws3 +:+ ")")
        /\ all_chars is_space ws0 = true /\ all_chars is_space ws1 = true
        /\ all_chars is_space ws2 = true /\ all_chars is_space ws3 = true).
Proof.
  split.
  - assert (is_operator "*" = true) as Hop by reflexivity.
    assert (standard_pattern (PyInt 5) (PyInt 3) "*" = Ok "\b5\b\s*\*\s*\b3\b") as Hp
      by (vm_compute; reflexivity).
    assert (re_compile "\b5\b\s*\*\s*\b3\b" = Ok (standard_regex 5 3 "*")) as Hre
      by (vm_compute; reflexivity).
    assert (re_search (standard_regex 5 3 "*") "10 + 5 * 3 - 8 / 2"
            = Some ("10 + ", "5 * 3", " - 8 / 2")) as Hs by (vm_compute; reflexivity).
    exact (proj2 (proj1 (anchored_rules_match_the_operation _ _ _ _ _ _ _ _ _
                           Hop Hre Hs) Hp)).
  - assert (is_operator "+" = true) as Hop by reflexivity.
    assert (parentheses_pattern (PyInt 3) (PyInt 4) "+" = Ok "\(\s*\b3\b\s*\+\s*\b4\b\s*\)")
      as Hp by (vm_compute; reflexivity).
    assert (re_compile "\(\s*\b3\b\s*\+\s*\b4\b\s*\)" = Ok (parentheses_regex 3 4 "+")) as Hre
      by (vm_compute; reflexivity).
    assert (re_search (parentheses_regex 3 4 "+") "2 * (3 + 4)"
            = Some ("2 * ", "(3 + 4)", "")) as Hs by (vm_compute; reflexivity).
    exact (proj2 (proj2 (anchored_rules_match_the_operation _ _ _ _ _ _ _ _ _
                           Hop Hre Hs) Hp)).
Defined.

(* ===================================================================== *)
(** * safe_eval *)
(* ===================================================================== *)

(** What the validation pattern matches: the non-empty texts made of
    characters of the class. *)
Lemma grammar_match s :
  re_match [LineStart; Chars grammar_class OneOrMore; LineEnd] s
  = match s with
    | EmptyString => None
    | _ => if all_chars allowed_char s then Some (String.length s) else None
    end.
Proof.
  unfold re_match. cbn [match_here].
  destruct s as [|c s]; [reflexivity|].
  rewrite grammar_class_allowed. cbn [all_chars String.length].
  destruct (allowed_char c); cbn [andb]; [|reflexivity].
  destruct (all_chars allowed_char s) eqn:Hs.
  - rewrite (greedy_grammar_all _ _ Hs). reflexivity.
  - rewrite (greedy_grammar_bad _ _ Hs). reflexivity.
Qed.

(** X13. [safe_eval] gives [None] without evaluating anything when the
    expression, stripped, is empty or holds a character outside the
    grammar class; otherwise it gives what [eval] gives on the stripped
    expression, and [None] when [eval] raises.  It never raises a Python
    exception. *)
Theorem safe_eval_contract `{PyRuntime} (expression : string) :
  (strip expression = "" \/ all_chars allowed_char (strip expression) = false ->
   safe_eval expression = Ok VNone)
  /\ (strip expression <> "" -> all_chars allowed_char (strip expression) = true ->
      safe_eval expression
      = match py_eval (strip expression) with
        | Ok v => Ok v
        | Raise e => if is_python_exception e then Ok VNone else Raise e
        end)
  /\ (forall e, safe_eval expression = Raise e -> is_python_exception e = false).
Proof.
  unfold safe_eval. rewrite validation_pattern_compiled, grammar_match.
  split; [|split].
  - intros [-> | Hbad]; [reflexivity|].
    destruct (strip expression); [reflexivity|]. now rewrite Hbad.
  - intros Hne Hall. destruct (strip expression) as [|c s] eqn:Hs; [congruence|].
    now rewrite Hall.
  - intros e. destruct (strip expression) as [|c s]; [discriminate|].
    destruct (all_chars allowed_char (String c s)); [|discriminate].
    destruct (py_eval (String c s)) as [v|x]; [discriminate|].
    destruct (is_python_exception x) eqn:Hx; [discriminate|]. now intros [= <-].
Qed.

Lemma safe_eval_contract_witness :
  @safe_eval reference_runtime "  2 * x " = Ok VNone
  /\ @safe_eval reference_runtime "   " = Ok VNone
  /\ @safe_eval reference_runtime " 10 + 5 * 3 " = Ok (VNum (PyInt 25))
  /\ @safe_eval reference_runtime "8 / 0" = Ok VNone.
Proof.
  split; [|split; [|split]].
  - apply (proj1 (@safe_eval_contract reference_runtime "  2 * x ")).
    right. vm_compute. reflexivity.
  - apply (proj1 (@safe_eval_contract reference_runtime "   ")).
    left. vm_compute. reflexivity.
  - assert (strip " 10 + 5 * 3 " <> "") as Hne by (vm_compute; discriminate).
    assert (all_chars allowed_char (strip " 10 + 5 * 3 ") = true) as Hall
      by (vm_compute; reflexivity).
    rewrite (proj1 (proj2 (@safe_eval_contract reference_runtime " 10 + 5 * 3 ")) Hne Hall).
    vm_compute. reflexivity.
  - assert (strip "8 / 0" <> "") as Hne by (vm_compute; discriminate).
    assert (all_chars allowed_char (strip "8 / 0") = true) as Hall
      by (vm_compute; reflexivity).
    rewrite (proj1 (proj2 (@safe_eval_contract reference_runtime "8 / 0")) Hne Hall).
    vm_compute. reflexivity.
Defined.

(** X14. An expression that [validate_expression] accepts passes the
    check of [safe_eval] too, unless it is made of whitespace only:
    [safe_eval] then gives what [eval] gives on the stripped expression,
    [None] when [eval] raises; on an accepted expression of whitespace
    only [safe_eval] gives [None]. *)
Theorem safe_eval_on_valid_expression `{PyRuntime} (expression : string) (n : Z) :
  validate_expression expression n = Ok true ->
  safe_eval expression
  = if String.eqb (strip expression) "" then Ok VNone
    else match py_eval (strip expression) with
         | Ok v => Ok v
         | Raise e => if is_python_exception e then Ok VNone else Raise e
         end.
Proof.
  intros Hv. rewrite validate_expression_decides in Hv.
  destruct (_ >? _); [discriminate|].
  assert (all_chars allowed_char expression = true) as Hall.
  { destruct expression; [discriminate|].
    destruct (all_chars _ _); [reflexivity | discriminate]. }
  apply (all_chars_strip allowed_char) in Hall.
  unfold safe_eval. rewrite validation_pattern_compiled, grammar_match.
  destruct (strip expression) as [|x t]; [reflexivity|].
  rewrite Hall. reflexivity.
Qed.

Lemma safe_eval_on_valid_expression_witness :
  @safe_eval reference_runtime "(10 + 5) * 3"
  = (if String.eqb (strip "(10 + 5) * 3") "" then Ok VNone
     else match @py_eval reference_runtime (strip "(10 + 5) * 3") with
          | Ok v => Ok v
          | Raise e => if is_python_exception e then Ok VNone else Raise e
          end)
  /\ @safe_eval reference_runtime "(10 + 5) * 3" = Ok (VNum (PyInt 45)).
Proof.
  assert (validate_expression "(10 + 5) * 3" 100 = Ok true) as Hv
    by (vm_compute; reflexivity).
  split.
  - exact (@safe_eval_on_valid_expression reference_runtime _ _ Hv).
  - vm_compute. reflexivity.
Defined.

(* ===================================================================== *)
(** * app.py: the steps read back from the captured output *)
(* ===================================================================== *)

(** The branch on the agent type of [calculate_with_steps] does the same
    on both sides. *)
Lemma steps_loop_agent_type lines :
  forall agent_type agent_type' inside acc,
    steps_loop lines agent_type inside acc = steps_loop lines agent_type' inside acc.
Proof.
  induction lines as [|line lines IH]; intros agent_type agent_type' inside acc;
    [reflexivity|].
  cbn [steps_loop].
  destruct (String.eqb (strip line) steps_begin); [apply IH|].
  destruct (String.eqb (strip line) steps_end); [apply IH|].
  destruct (inside && negb (String.eqb (strip line) "")); [|apply IH].
  destruct (startswith "Step" (strip line)).
  - destruct (String.eqb agent_type "reducing" && _),
             (String.eqb agent_type' "reducing" && _); apply IH.
  - destruct (startswith "Final result:" (strip line)); apply IH.
Qed.

(** The loop only adds stripped lines of the output that start with
    [Step] or [Final result:]. *)
Lemma steps_loop_kept lines :
  forall agent_type inside acc,
    exists kept,
      steps_loop lines agent_type inside acc = (acc ++ kept)%list
      /\ Forall (fun l => is_step_line l = true
                          /\ exists raw, In raw lines /\ l = strip raw) kept.
Proof.
  induction lines as [|line lines IH]; intros agent_type inside acc.
  - exists []. cbn. now rewrite app_nil_r.
  - assert (forall inside' acc',
              exists kept,
                steps_loop lines agent_type inside' acc' = (acc' ++ kept)%list
                /\ Forall (fun l => is_step_line l = true
                                    /\ exists raw, In raw (line :: lines) /\ l = strip raw)
                          kept) as IH'.
    { intros inside' acc'. destruct (IH agent_type inside' acc') as (kept & Hk & Hall).
      exists kept. split; [exact Hk|].
      eapply Forall_impl; [exact Hall|].
      intros l [Hl (raw & Hin & Hraw)]. split; [exact Hl|]. exists raw. split; [now right|exact Hraw]. }
    assert (forall inside',
              is_step_line (strip line) = true ->
              exists kept,
                steps_loop lines agent_type inside' (acc ++ [strip line])%list
                = (acc ++ kept)%list
                /\ Forall (fun l => is_step_line l = true
                                    /\ exists raw, In raw (line :: lines) /\ l = strip raw)
                          kept) as Hadd.
    { intros inside' Hstep. destruct (IH' inside' (acc ++ [strip line])%list) as (kept & Hk & Hall).
      exists (strip line :: kept). rewrite Hk, <- app_assoc. split; [reflexivity|].
      constructor; [|exact Hall]. split; [exact Hstep|]. exists line. split; [now left|reflexivity]. }
    cbn [steps_loop].
    destruct (String.eqb (strip line) steps_begin); [apply IH'|].
    destruct (String.eqb (strip line) steps_end); [apply IH'|].
    destruct (inside && negb (String.eqb (strip line) "")); [|apply IH'].
    destruct (startswith "Step" (strip line)) eqn:Hs.
    + destruct (String.eqb agent_type "reducing" && _);
        apply Hadd; unfold is_step_line; now rewrite Hs.
    + destruct (startswith "Final result:" (strip line)) eqn:Hf; [|apply IH'].
      apply Hadd. unfold is_step_line. now rewrite Hf, orb_true_r.
Qed.

(** X15. [calculate_with_steps] keeps nothing but step lines: every step
    it returns is a line of the captured output, stripped, that starts
    with [Step] or with [Final result:]; the result and the output are
    handed on as they are; and the steps do not depend on the agent
    type. *)
Theorem steps_are_step_lines (calculated : outcome pyval) (output agent_type : string)
    (result : pyval) (steps : list string) (out : string) :
  calculate_with_steps calculated output agent_type = inl (result, steps, out) ->
  calculated = Ok result /\ out = output
  /\ Forall (fun l => is_step_line l = true
                      /\ exists raw, In raw (split "010" output) /\ l = strip raw) steps
  /\ forall agent_type',
       calculate_with_steps calculated output agent_type' = inl (result, steps, out).
Proof.
  unfold calculate_with_steps. destruct calculated as [v|x]; [|discriminate].
  intros [= <- <- <-]. split; [reflexivity|]. split; [reflexivity|]. split.
  - destruct (steps_loop_kept (split "010" output) agent_type false []) as (kept & -> & Hall).
    exact Hall.
  - intros agent_type'.
    now rewrite (steps_loop_agent_type _ agent_type' agent_type).
Qed.

Lemma steps_are_step_lines_witness :
  Forall (fun l => is_step_line l = true
                   /\ exists raw,
                        In raw (split "010" (lines_text ["noise"; steps_begin;
                                                         "  Step 1: 5 * 3 = 15"; "noise";
                                                         "Final result: 15"; steps_end; ""]))
                        /\ l = strip raw)
         ["Step 1: 5 * 3 = 15"; "Final result: 15"]
  /\ forall agent_type',
       calculate_with_steps (Ok (VNum (PyInt 15)))
         (lines_text ["noise"; steps_begin; "  Step 1: 5 * 3 = 15"; "noise";
                      "Final result: 15"; steps_end; ""]) agent_type'
       = inl (VNum (PyInt 15), ["Step 1: 5 * 3 = 15"; "Final result: 15"],
              lines_text ["noise"; steps_begin; "  Step 1: 5 * 3 = 15"; "noise";
                          "Final result: 15"; steps_end; ""]).
Proof.
  assert (calculate_with_steps (Ok (VNum (PyInt 15)))
            (lines_text ["noise"; steps_begin; "  Step 1: 5 * 3 = 15"; "noise";
                         "Final result: 15"; steps_end; ""]) "stepwise"
          = inl (VNum (PyInt 15), ["Step 1: 5 * 3 = 15"; "Final result: 15"],
                 lines_text ["noise"; steps_begin; "  Step 1: 5 * 3 = 15"; "noise";
                             "Final result: 15"; steps_end; ""])) as Hc
    by (vm_compute; reflexivity).
  exact (proj2 (proj2 (steps_are_step_lines _ _ _ _ _ _ Hc))).
Defined.

(** [s.split(c)] on a text that starts with a part without [c]. *)
Lemma split_app_sep c p t :
  contains c p = false -> split c (p +:+ String c t) = p :: split c t.
Proof.
  induction p as [|x p IH]; intros Hp; app_simpl; cbn [split].
  - now rewrite Ascii.eqb_refl.
  - cbn [contains] in Hp. apply orb_false_iff in Hp as [Hx Hp].
    rewrite Hx, (IH Hp). reflexivity.
Qed.

(** [c.join(lines).split(c)] gives the lines back when none holds [c]. *)
Lemma split_join c lines :
  lines <> [] -> forallb (fun l => negb (contains c l)) lines = true ->
  split c (join (String c "") lines) = lines.
Proof.
  induction lines as [|p lines IH]; [congruence|]. intros _ Hall.
  cbn [forallb] in Hall. apply andb_prop in Hall as [Hp Hall].
  apply negb_true_iff in Hp.
  destruct lines as [|q lines].
  - cbn [join]. now apply split_none.
  - change (join (String c "") (p :: q :: lines))
      with (p +:+ String c "" +:+ join (String c "") (q :: lines)).
    app_simpl. rewrite (split_app_sep _ _ _ Hp), IH; [reflexivity | discriminate | exact Hall].
Qed.

(** Outside the steps section, lines that do not open it change nothing. *)
Lemma steps_loop_outside lines :
  forall agent_type acc,
    forallb (fun l => negb (opens_steps l)) lines = true ->
    steps_loop lines agent_type false acc = acc.
Proof.
  induction lines as [|line lines IH]; intros agent_type acc Hall; [reflexivity|].
  cbn [forallb] in Hall. apply andb_prop in Hall as [Hl Hall].
  apply negb_true_iff in Hl. unfold opens_steps in Hl.
  cbn [steps_loop]. rewrite Hl.
  destruct (String.eqb (strip line) steps_end); cbn [andb]; now apply IH.
Qed.

(** Inside the steps section, the step lines among lines that are no
    markers are kept, stripped. *)
Lemma steps_loop_inside lines :
  forall rest agent_type acc,
    forallb (fun l => negb (is_marker l)) lines = true ->
    steps_loop (lines ++ rest) agent_type true acc
    = steps_loop rest agent_type true (acc ++ filter is_step_line (map strip lines))%list.
Proof.
  induction lines as [|line lines IH]; intros rest agent_type acc Hall.
  - cbn. now rewrite app_nil_r.
  - cbn [forallb] in Hall. apply andb_prop in Hall as [Hl Hall].
    apply negb_true_iff in Hl. unfold is_marker in Hl.
    apply orb_false_iff in Hl as [Hb He].
    cbn [app steps_loop map]. rewrite Hb, He. cbn [andb].
    assert (filter is_step_line (strip line :: map strip lines)
            = if is_step_line (strip line)
              then strip line :: filter is_step_line (map strip lines)
              else filter is_step_line (map strip lines)) as ->.
    { unfold filter at 1. cbn [list_filter]. unfold is_step_line at 1.
      destruct (decide _) as [Hd|Hd]; destruct (is_step_line (strip line)) eqn:Hs;
        try reflexivity; unfold is_step_line in Hs.
      - apply Is_true_true in Hd. congruence.
      - apply Is_true_false in Hd. congruence. }
    unfold is_step_line at 1.
    destruct (String.eqb (strip line) "") eqn:Hempty.
    + apply String.eqb_eq in Hempty. rewrite Hempty. cbn [negb startswith orb].
      now apply IH.
    + cbn [negb]. destruct (startswith "Step" (strip line)); cbn [orb].
      * destruct (String.eqb agent_type "reducing" && _);
          rewrite (IH _ _ _ Hall), <- app_assoc; reflexivity.
      * destruct (startswith "Final result:" (strip line)).
        -- rewrite (IH _ _ _ Hall), <- app_assoc. reflexivity.
        -- now apply IH.
Qed.

Lemma steps_loop_begin rest agent_type inside acc :
  steps_loop (steps_begin :: rest) agent_type inside acc = steps_loop rest agent_type true acc.
Proof. reflexivity. Qed.

Lemma steps_loop_end rest agent_type inside acc :
  steps_loop (steps_end :: rest) agent_type inside acc = steps_loop rest agent_type false acc.
Proof. reflexivity. Qed.

(** X16. The steps come back from the text the agents print: when the
    output is made of lines, with the opening marker, lines that are no
    markers, the closing marker, and no other opening marker before or
    after, [calculate_with_steps] returns exactly the lines between the
    markers that start with [Step] or [Final result:], stripped and in
    their order. *)
Theorem steps_round_trip (result : pyval) (before inside after : list string)
    (agent_type : string) :
  forallb one_line (before ++ inside ++ after) = true ->
  forallb (fun l => negb (opens_steps l)) (before ++ after) = true ->
  forallb (fun l => negb (is_marker l)) inside = true ->
  let output := lines_text (before ++ steps_begin :: inside ++ steps_end :: after) in
  calculate_with_steps (Ok result) output agent_type
  = inl (result, filter is_step_line (map strip inside), output).
Proof.
  intros Hlines Hopen Hin output. unfold calculate_with_steps.
  assert (split "010" output = (before ++ steps_begin :: inside ++ steps_end :: after)%list)
    as ->.
  { apply split_join; [now destruct before|].
    rewrite !forallb_app in Hlines. apply andb_prop in Hlines as [H1 H23].
    apply andb_prop in H23 as [H2 H3].
    rewrite forallb_app. cbn [forallb]. rewrite forallb_app. cbn [forallb].
    unfold one_line in H1, H2, H3. rewrite H1, H2, H3. reflexivity. }
  rewrite forallb_app in Hopen. apply andb_prop in Hopen as [Hb Ha].
  f_equal. f_equal. f_equal.
  assert (forall l acc,
            steps_loop (before ++ l) agent_type false acc = steps_loop l agent_type false acc)
    as Hskip.
  { clear -Hb. induction before as [|line lines IH]; intros l acc; [reflexivity|].
    cbn [forallb] in Hb. apply andb_prop in Hb as [Hl Hb].
    apply negb_true_iff in Hl. unfold opens_steps in Hl.
    cbn [app steps_loop]. rewrite Hl.
    destruct (String.eqb (strip line) steps_end); cbn [andb]; now apply IH. }
  rewrite Hskip, steps_loop_begin, (steps_loop_inside _ _ _ _ Hin), steps_loop_end.
  now rewrite (steps_loop_outside _ _ _ Ha).
Qed.

Lemma steps_round_trip_witness :
  calculate_with_steps (Ok (VNum (PyInt 15)))
    (lines_text (["Input expression: 5 * 3"]
                 ++ steps_begin
                 :: ["Processing tool call: calculate"; "Step 1: 5 * 3 = 15";
                     "Final result: 15"]
                 ++ steps_end :: [""])) "stepwise"
  = inl (VNum (PyInt 15),
         filter is_step_line
           (map strip ["Processing tool call: calculate"; "Step 1: 5 * 3 = 15";
                       "Final result: 15"]),
         lines_text (["Input expression: 5 * 3"]
                     ++ steps_begin
                     :: ["Processing tool call: calculate"; "Step 1: 5 * 3 = 15";
                         "Final result: 15"]
                     ++ steps_end :: [""])).
Proof.
  apply (steps_round_trip (VNum (PyInt 15)) ["Input expression: 5 * 3"]
           ["Processing tool call: calculate"; "Step 1: 5 * 3 = 15"; "Final result: 15"]
           [""] "stepwise"); vm_compute; reflexivity.
Defined.

(* ===================================================================== *)
(** * The Stepwise agent on a scripted model *)
(* ===================================================================== *)

Section Scripted.
Context `{PyRuntime}.

(** The turns that go on are run one after the other: the loop reaches
    the rest of the script with as many calls made and prompts sent. *)
Lemma stepwise_scripted_loop pre :
  forall tail fuel self e prompt_msg steps i sent,
    forallb goes_on pre = true ->
    (length pre < Z.to_nat (Z.max 1 (StepwiseCalculatorAgent.max_llm_calls self - i + 1)))%nat ->
    (Z.to_nat (StepwiseCalculatorAgent.max_llm_calls self - i) < fuel)%nat ->
    exists prompt_msg' steps' sent',
      StepwiseCalculatorAgent.run_loop fuel self (pre ++ tail)%list e prompt_msg steps i sent
      = StepwiseCalculatorAgent.run_loop (fuel - length pre) self tail e prompt_msg' steps'
          (i + Z.of_nat (length pre)) sent'
      /\ length sent' = (length sent + length pre)%nat.
Proof.
  induction pre as [|p pre IH]; intros tail fuel self e prompt_msg steps i sent Hgo Hlen Hfuel.
  - exists prompt_msg, steps, sent. cbn [app length].
    rewrite Nat.sub_0_r, Z.add_0_r, Nat.add_0_r. auto.
  - cbn [forallb] in Hgo. apply andb_prop in Hgo as [Hp Hgo].
    unfold goes_on in Hp.
    destruct (StepwiseCalculatorAgent._process_tool_calls (tool_calls p)) as [result|] eqn:Hr;
      [|discriminate].
    apply negb_true_iff in Hp. cbn [length] in Hlen.
    destruct fuel as [|fuel].
    + exfalso. clear -Hfuel. lia.
    + assert (run_prompt (p :: pre ++ tail)%list prompt_msg = (p, (pre ++ tail)%list)) as Hrun
        by reflexivity.
      cbn [app]. rewrite (stepwise_turn _ _ _ _ _ _ _ _ _ _ _ Hrun Hr), Hp.
      rewrite geb_false by lia.
      match goal with
      | |- context [StepwiseCalculatorAgent.run_loop fuel self _ e ?pm ?st (i + 1) ?sn] =>
          destruct (IH tail fuel self e pm st (i + 1) sn Hgo)
            as (pm' & steps' & sent' & Heq & Hs); [lia | lia |]
      end.
      rewrite Heq. exists pm', steps', sent'. cbn [length]. split.
      * f_equal. lia.
      * rewrite Hs, List.length_app. cbn [length]. lia.
Qed.

End Scripted.

Section ScriptedRuns.
Context `{PyRuntime}.

(** A run on a script that starts with turns that go on, fewer than the
    budget: it reaches the rest of the script. *)
Lemma stepwise_scripted_run self pre tail e :
  validate_expression e (StepwiseCalculatorAgent.max_expression_length self) = Ok true ->
  forallb goes_on pre = true ->
  (length pre < call_budget (StepwiseCalculatorAgent.max_llm_calls self))%nat ->
  exists fuel prompt_msg steps sent,
    StepwiseCalculatorAgent.run self (pre ++ tail)%list e
    = StepwiseCalculatorAgent.run_loop (S fuel) self tail e prompt_msg steps
        (1 + Z.of_nat (length pre)) sent
    /\ length sent = length pre.
Proof.
  unfold call_budget. intros Hv Hgo Hlen.
  unfold StepwiseCalculatorAgent.run. rewrite Hv.
  match goal with
  | |- context [StepwiseCalculatorAgent.run_loop ?fuel self _ e ?pm ?st 1 ?sn] =>
      destruct (stepwise_scripted_loop pre tail fuel self e pm st 1 sn Hgo)
        as (pm' & steps' & sent' & Heq & Hs); [lia | lia |]
  end.
  rewrite Heq.
  exists (Z.to_nat (StepwiseCalculatorAgent.max_llm_calls self) - length pre)%nat,
    pm', steps', sent'.
  split; [|exact Hs]. f_equal. lia.
Qed.

End ScriptedRuns.

(** X17. The Stepwise agent on a scripted model stops at the first turn
    that does not go on, if the budget reaches it: it has then made one
    call per turn so far, the rest of the script is left unread, and the
    run raises what the turn raised, or returns the last result of the
    turn when the turn is final. *)
Theorem stepwise_first_decisive_turn `{PyRuntime} (self : StepwiseCalculatorAgent.config)
    (pre rest : list Response) (response : Response) (e : string) :
  validate_expression e (StepwiseCalculatorAgent.max_expression_length self) = Ok true ->
  forallb goes_on pre = true -> goes_on response = false ->
  (length pre < call_budget (StepwiseCalculatorAgent.max_llm_calls self))%nat ->
  exists r,
    StepwiseCalculatorAgent.run self (pre ++ response :: rest)%list e = Some r
    /\ client r = rest /\ length (prompts r) = S (length pre)
    /\ returned r
       = match StepwiseCalculatorAgent._process_tool_calls (tool_calls response) with
         | Raise x => Raise x
         | Ok result =>
             match last (results result) with
             | Some (v, _) => Ok (VNum v)
             | None => Raise IndexError
             end
         end.
Proof.
  intros Hv Hgo Hstop Hlen.
  destruct (stepwise_scripted_run self pre (response :: rest) e Hv Hgo Hlen)
    as (fuel & pm & steps & sent & -> & Hs).
  cbn [StepwiseCalculatorAgent.run_loop].
  change (run_prompt (response :: rest) pm) with (response, rest).
  cbv beta iota zeta.
  unfold goes_on in Hstop.
  destruct (StepwiseCalculatorAgent._process_tool_calls (tool_calls response)) as [result|x].
  - apply negb_false_iff in Hstop. rewrite Hstop.
    eexists. split; [reflexivity|]. cbn [client prompts returned].
    rewrite List.length_app, Hs. cbn [length]. repeat split; lia.
  - eexists. split; [reflexivity|]. cbn [client prompts returned].
    rewrite List.length_app, Hs. cbn [length]. repeat split; lia.
Qed.

Lemma stepwise_first_decisive_turn_witness :
  exists r,
    @StepwiseCalculatorAgent.run reference_runtime _ _ stepwise_reference_config
      ([ {| tool_calls := [call_1] |}; {| tool_calls := [call_2] |};
         {| tool_calls := [call_3] |} ] ++ {| tool_calls := [call_4] |} :: [])%list
      "10 + 5 * 3 - 8 / 2" = Some r
    /\ client r = [] /\ length (prompts r) = 4%nat
    /\ returned r = Ok (VNum (PyInt 21)).
Proof.
  assert (validate_expression "10 + 5 * 3 - 8 / 2"
            (StepwiseCalculatorAgent.max_expression_length stepwise_reference_config)
          = Ok true) as Hv by (vm_compute; reflexivity).
  assert (forallb (@goes_on reference_runtime)
            [ {| tool_calls := [call_1] |}; {| tool_calls := [call_2] |};
              {| tool_calls := [call_3] |} ] = true) as Hgo by (vm_compute; reflexivity).
  assert (@goes_on reference_runtime {| tool_calls := [call_4] |} = false) as Hstop
    by (vm_compute; reflexivity).
  assert (length [ {| tool_calls := [call_1] |}; {| tool_calls := [call_2] |};
                   {| tool_calls := [call_3] |} ]
          < call_budget (StepwiseCalculatorAgent.max_llm_calls stepwise_reference_config))%nat
    as Hlen by (vm_compute; lia).
  destruct (@stepwise_first_decisive_turn reference_runtime _ _ [] _ _ Hv Hgo Hstop Hlen)
    as (r & Hr & Hc & Hl & Hret).
  exists r. split; [exact Hr|]. split; [exact Hc|]. split; [exact Hl|].
  rewrite Hret. vm_compute. reflexivity.
Defined.

(** X18. The Stepwise agent on a scripted model runs out of budget when
    as many turns as the budget all go on: it has then made
    [max(1, max_llm_calls)] calls, the rest of the script is left
    unread, and the run raises the error of exceeded calls. *)
Theorem stepwise_budget_exhausted `{PyRuntime} (self : StepwiseCalculatorAgent.config)
    (pre rest : list Response) (response : Response) (e : string) :
  validate_expression e (StepwiseCalculatorAgent.max_expression_length self) = Ok true ->
  forallb goes_on (pre ++ [response]) = true ->
  S (length pre) = call_budget (StepwiseCalculatorAgent.max_llm_calls self) ->
  exists r,
    StepwiseCalculatorAgent.run self (pre ++ response :: rest)%list e = Some r
    /\ client r = rest
    /\ length (prompts r) = call_budget (StepwiseCalculatorAgent.max_llm_calls self)
    /\ returned r = Raise (MaxCallsExceeded (StepwiseCalculatorAgent.max_llm_calls self)).
Proof.
  intros Hv Hgo Hlen. rewrite forallb_app in Hgo. apply andb_prop in Hgo as [Hgo Hlast].
  cbn [forallb] in Hlast. rewrite andb_true_r in Hlast.
  assert (length pre < call_budget (StepwiseCalculatorAgent.max_llm_calls self))%nat as Hlt
    by lia.
  destruct (stepwise_scripted_run self pre (response :: rest) e Hv Hgo Hlt)
    as (fuel & pm & steps & sent & -> & Hs).
  cbn [StepwiseCalculatorAgent.run_loop].
  change (run_prompt (response :: rest) pm) with (response, rest).
  cbv beta iota zeta.
  unfold goes_on in Hlast.
  destruct (StepwiseCalculatorAgent._process_tool_calls (tool_calls response)) as [result|x];
    [|discriminate].
  apply negb_true_iff in Hlast. rewrite Hlast.
  assert ((1 + Z.of_nat (length pre) >=? StepwiseCalculatorAgent.max_llm_calls self) = true)
    as ->.
  { rewrite Z.geb_leb. apply Z.leb_le. unfold call_budget in Hlen. lia. }
  eexists. split; [reflexivity|]. cbn [client prompts returned].
  rewrite List.length_app, Hs. cbn [length]. repeat split; lia.
Qed.

Lemma stepwise_budget_exhausted_witness :
  exists r,
    @StepwiseCalculatorAgent.run reference_runtime _ _ stepwise_three_calls_config
      ([ {| tool_calls := [call_1] |}; {| tool_calls := [call_2] |} ]
       ++ {| tool_calls := [call_3] |} :: [ {| tool_calls := [call_4] |} ])%list
      "10 + 5 * 3 - 8 / 2" = Some r
    /\ client r = [ {| tool_calls := [call_4] |} ]
    /\ length (prompts r) = call_budget 3
    /\ returned r = Raise (MaxCallsExceeded 3).
Proof.
  assert (validate_expression "10 + 5 * 3 - 8 / 2"
            (StepwiseCalculatorAgent.max_expression_length stepwise_three_calls_config)
          = Ok true) as Hv by (vm_compute; reflexivity).
  assert (forallb (@goes_on reference_runtime)
            ([ {| tool_calls := [call_1] |}; {| tool_calls := [call_2] |} ]
             ++ [ {| tool_calls := [call_3] |} ]) = true) as Hgo by (vm_compute; reflexivity).
  assert (S (length [ {| tool_calls := [call_1] |}; {| tool_calls := [call_2] |} ])
          = call_budget (StepwiseCalculatorAgent.max_llm_calls stepwise_three_calls_config))
    as Hlen by (vm_compute; reflexivity).
  exact (@stepwise_budget_exhausted reference_runtime _ _ [ {| tool_calls := [call_4] |} ]
           _ _ Hv Hgo Hlen).
Defined.

(** X19. When the script of a scripted model runs out before the budget
    and every turn of it goes on, the next answer holds no tool call and
    the Stepwise run raises the error of the missing tool call, after
    one call more than the script has turns. *)
Theorem stepwise_script_runs_out `{PyRuntime} (self : StepwiseCalculatorAgent.config)
    (script : list Response) (e : string) :
  validate_expression e (StepwiseCalculatorAgent.max_expression_length self) = Ok true ->
  forallb goes_on script = true ->
  (length script < call_budget (StepwiseCalculatorAgent.max_llm_calls self))%nat ->
  exists r,
    StepwiseCalculatorAgent.run self script e = Some r
    /\ client r = [] /\ length (prompts r) = S (length script)
    /\ returned r = Raise NoToolCall.
Proof.
  intros Hv Hgo Hlen.
  destruct (stepwise_scripted_run self script [] e Hv Hgo Hlen)
    as (fuel & pm & steps & sent & Heq & Hs).
  rewrite app_nil_r in Heq. rewrite Heq.
  cbn [StepwiseCalculatorAgent.run_loop].
  change (run_prompt (@nil Response) pm) with ({| tool_calls := [] |}, @nil Response).
  cbv beta iota zeta.
  cbn [tool_calls StepwiseCalculatorAgent._process_tool_calls].
  eexists. split; [reflexivity|]. cbn [client prompts returned].
  rewrite List.length_app, Hs. cbn [length]. repeat split; lia.
Qed.

Lemma stepwise_script_runs_out_witness :
  exists r,
    @StepwiseCalculatorAgent.run reference_runtime _ _ stepwise_reference_config
      [ {| tool_calls := [call_1] |}; {| tool_calls := [call_2] |} ]
      "10 + 5 * 3 - 8 / 2" = Some r
    /\ client r = [] /\ length (prompts r) = 3%nat
    /\ returned r = Raise NoToolCall.
Proof.
  assert (validate_expression "10 + 5 * 3 - 8 / 2"
            (StepwiseCalculatorAgent.max_expression_length stepwise_reference_config)
          = Ok true) as Hv by (vm_compute; reflexivity).
  assert (forallb (@goes_on reference_runtime)
            [ {| tool_calls := [call_1] |}; {| tool_calls := [call_2] |} ] = true) as Hgo
    by (vm_compute; reflexivity).
  assert (length [ {| tool_calls := [call_1] |}; {| tool_calls := [call_2] |} ]
          < call_budget (StepwiseCalculatorAgent.max_llm_calls stepwise_reference_config))%nat
    as Hlen by (vm_compute; lia).
  exact (@stepwise_script_runs_out reference_runtime _ _ _ Hv Hgo Hlen).
Defined.

(* ===================================================================== *)
(** * calculate: what it raises *)
(* ===================================================================== *)

(** X20. [calculate] raises nothing but three errors: the error of a
    division by zero, exactly for the operator [/] and a divisor equal to
    zero; the error of an unsupported operation, for an operator that,
    stripped, is none of the four; and [OverflowError], only for one of
    the four operators with an int operand (never on two floats). *)
Theorem calculate_errors (a b : Number) (op : string) (e : exn) :
  calculate a b op = Raise e ->
  (e = DivisionByZero a /\ strip op = "/" /\ is_zero b = true)
  \/ (e = UnsupportedOperation (strip op) /\ valid_op (strip op) = false)
  \/ (e = OverflowError /\ valid_op (strip op) = true
      /\ exists z, a = PyInt z \/ b = PyInt z).
Proof.
  unfold calculate, valid_op.
  destruct (String.eqb (strip op) "+") eqn:E1.
  { intros Hr. right. right. cbn [orb].
    destruct a as [x|x], b as [y|y]; try discriminate;
      apply (mixed_operation_raise (SFadd prec emax)) in Hr as [-> Hz]; auto. }
  destruct (String.eqb (strip op) "-") eqn:E2.
  { intros Hr. right. right. cbn [orb].
    destruct a as [x|x], b as [y|y]; try discriminate;
      apply (mixed_operation_raise (SFsub prec emax)) in Hr as [-> Hz]; auto. }
  destruct (String.eqb (strip op) "*") eqn:E3.
  { intros Hr. right. right. cbn [orb].
    destruct a as [x|x], b as [y|y]; try discriminate;
      apply (mixed_operation_raise (SFmul prec emax)) in Hr as [-> Hz]; auto. }
  destruct (String.eqb (strip op) "/") eqn:E4.
  - apply String.eqb_eq in E4. destruct (is_zero b) eqn:Hb.
    + intros [= <-]. left. auto.
    + intros Hr. right. right. cbn [orb].
      pose proof (py_truediv_raise _ _ _ Hb Hr) as ->.
      split; [reflexivity|]. split; [reflexivity|].
      destruct a as [x|x], b as [y|y]; eauto.
      cbn [py_truediv to_float mbind outcome_bind] in Hr. rewrite Hb in Hr. discriminate.
  - intros [= <-]. right. left. auto.
Qed.

Lemma calculate_errors_witness :
  (DivisionByZero (PyInt 8) = DivisionByZero (PyInt 8)
   /\ strip " / " = "/" /\ is_zero (PyFloat (S754_zero false)) = true)
  \/ (DivisionByZero (PyInt 8) = UnsupportedOperation (strip " / ")
      /\ valid_op (strip " / ") = false)
  \/ (DivisionByZero (PyInt 8) = OverflowError /\ valid_op (strip " / ") = true
      /\ exists z, PyInt 8 = PyInt z \/ PyFloat (S754_zero false) = PyInt z).
Proof.
  assert (calculate (PyInt 8) (PyFloat (S754_zero false)) " / "
          = Raise (DivisionByZero (PyInt 8))) as Hc by (vm_compute; reflexivity).
  exact (calculate_errors _ _ _ _ Hc).
Defined.
